(** * rain_monitor.py: a shallow embedding and its checked properties

    The script fetches an hourly forecast (a JSON document), locates the
    current hour in it, aggregates the next three hours into a summary and
    mails an alert when the summary asks for one.  The embedding follows
    [src/rain_monitor.py] function by function:

    - the JSON document is a value of type [json], with Python's dynamic
      operations on it ([in], subscripting, [len], iteration, comparison,
      [max], [+]) returning a [result] that is either a value or the
      exception the interpreter raises;
    - floating-point numbers are the kernel's binary64 floats, the format of
      Python's [float];
    - network, mail, clock and file system are inputs: the outcome of the
      n-th HTTP GET, the outcome of the n-th SMTP session, the instants read
      from the clock, and how setting up the log file ends;
    - the retry decorator is an explicit loop over attempts that records the
      pauses it takes. *)

From Stdlib Require Import ZArith QArith Floats List String Ascii Bool Lia.
From Stdlib Require Import DecimalString.
Import ListNotations.

Local Open Scope string_scope.
Local Open Scope Z_scope.

#[local] Set Warnings "-register-all".

(** ** Exceptions and results *)

(** The exception classes the script can meet.  All of them derive from
    [Exception]; [RetryError] is the one tenacity raises when it gives up,
    carrying the exception of the last attempt. *)
Inductive exn : Type :=
| ValueError (msg : string)
| KeyError
| IndexError
| TypeError
| AttributeError
| OverflowError
| Timeout
| RequestException (msg : string)
| OtherError (name : string)
| RetryError (last : exn).

Inductive result (A : Type) : Type :=
| Ok (a : A)
| Raise (e : exn).

Arguments Ok {A} a.
Arguments Raise {A} e.

Definition bind {A B : Type} (r : result A) (k : A -> result B) : result B :=
  match r with
  | Ok a => k a
  | Raise e => Raise e
  end.

Notation "x <- c ;; k" := (bind c (fun x => k))
  (at level 61, c at next level, right associativity).

(** ** JSON values as Python objects *)

(** What [response.json()] returns.  A dict is kept as its list of items; a
    key is looked up by its first occurrence. *)
Inductive json : Type :=
| VNone
| VBool (b : bool)
| VInt (z : Z)
| VFloat (f : float)
| VStr (s : string)
| VList (l : list json)
| VDict (kvs : list (string * json)).

Fixpoint lookup (k : string) (kvs : list (string * json)) : option json :=
  match kvs with
  | [] => None
  | (k', v) :: rest => if String.eqb k k' then Some v else lookup k rest
  end.

(** [p in s] for two strings: [p] occurs in [s]. *)
Fixpoint is_substring (p s : string) : bool :=
  prefix p s ||
  match s with
  | EmptyString => false
  | String _ s' => is_substring p s'
  end.

Definition chars (s : string) : list json :=
  map (fun c => VStr (String c EmptyString)) (list_ascii_of_string s).

Definition str_equal (k : string) (v : json) : bool :=
  match v with
  | VStr s => String.eqb k s
  | _ => false
  end.

(** [k in x] for a string [k]. *)
Definition py_contains (k : string) (x : json) : result bool :=
  match x with
  | VDict kvs => Ok (match lookup k kvs with Some _ => true | None => false end)
  | VList l => Ok (existsb (str_equal k) l)
  | VStr s => Ok (is_substring k s)
  | _ => Raise TypeError
  end.

(** [x[k]] for a string [k]. *)
Definition py_getitem (x : json) (k : string) : result json :=
  match x with
  | VDict kvs => match lookup k kvs with Some v => Ok v | None => Raise KeyError end
  | _ => Raise TypeError
  end.

(** [x[i]] for an index [i >= 0]. *)
Definition py_index (x : json) (i : nat) : result json :=
  match x with
  | VList l => match nth_error l i with Some v => Ok v | None => Raise IndexError end
  | VStr s => match nth_error (chars s) i with Some v => Ok v | None => Raise IndexError end
  | VDict _ => Raise KeyError
  | _ => Raise TypeError
  end.

(** [len(x)]. *)
Definition py_len (x : json) : result nat :=
  match x with
  | VList l => Ok (List.length l)
  | VStr s => Ok (String.length s)
  | VDict kvs => Ok (List.length kvs)
  | _ => Raise TypeError
  end.

(** The items [for ... in x] runs over. *)
Definition py_iter (x : json) : result (list json) :=
  match x with
  | VList l => Ok l
  | VStr s => Ok (chars s)
  | VDict kvs => Ok (map (fun kv => VStr (fst kv)) kvs)
  | _ => Raise TypeError
  end.

(** [x.startswith(p)]. *)
Definition py_startswith (x : json) (p : string) : result bool :=
  match x with
  | VStr s => Ok (prefix p s)
  | _ => Raise AttributeError
  end.

(** ** Numbers *)

(** The exact value of a number: not a number, an infinity, or a rational. *)
Inductive xnum : Type :=
| XNaN
| XInf (negative : bool)
| XFin (q : Q).

Definition float_value (f : float) : xnum :=
  match Prim2SF f with
  | S754_zero _ => XFin 0
  | S754_infinity s => XInf s
  | S754_nan => XNaN
  | S754_finite s m e =>
      let z := if s then Z.neg m else Z.pos m in
      XFin (if 0 <=? e then inject_Z (z * 2 ^ e) else Qmake z (2 ^ Z.to_pos (- e)))
  end.

(** [bool] is a subclass of [int]: [True] is 1 and [False] is 0. *)
Definition int_value (v : json) : option Z :=
  match v with
  | VBool b => Some (if b then 1 else 0)
  | VInt z => Some z
  | _ => None
  end.

Definition num_value (v : json) : option xnum :=
  match v with
  | VFloat f => Some (float_value f)
  | _ => option_map (fun z => XFin (inject_Z z)) (int_value v)
  end.

Definition Qltb (a b : Q) : bool := negb (Qle_bool b a).

(** [a < b] on exact values; every comparison with a NaN is false. *)
Definition x_ltb (a b : xnum) : bool :=
  match a, b with
  | XNaN, _ | _, XNaN => false
  | XInf sa, XInf sb => sa && negb sb
  | XInf sa, XFin _ => sa
  | XFin _, XInf sb => negb sb
  | XFin p, XFin q => Qltb p q
  end.

Definition x_eqb (a b : xnum) : bool :=
  match a, b with
  | XNaN, _ | _, XNaN => false
  | XInf sa, XInf sb => Bool.eqb sa sb
  | XFin p, XFin q => Qeq_bool p q
  | _, _ => false
  end.

Definition x_leb (a b : xnum) : bool := x_ltb a b || x_eqb a b.

(** Comparison of two objects of which one at least is a number, as in every
    comparison the script makes: Python compares an int and a float by their
    exact values, and raises [TypeError] when the other object is no number. *)
Definition compare_with (op : xnum -> xnum -> bool) (a b : json) : result bool :=
  match num_value a, num_value b with
  | Some x, Some y => Ok (op x y)
  | _, _ => Raise TypeError
  end.

Definition py_lt : json -> json -> result bool := compare_with x_ltb.
Definition py_gt (a b : json) : result bool := compare_with x_ltb b a.
Definition py_le : json -> json -> result bool := compare_with x_leb.
Definition py_ge (a b : json) : result bool := compare_with x_leb b a.
Definition py_eq : json -> json -> result bool := compare_with x_eqb.

(** [max(a, b)]: [b] replaces [a] only when [b > a]. *)
Definition py_max (a b : json) : result json :=
  gt <- py_gt b a ;;
  Ok (if gt then b else a).

(** [float(z)]: the nearest double, ties to even; too large an int raises. *)
Definition float_of_Z (z : Z) : result float :=
  match binary_normalize prec emax z 0 false with
  | S754_infinity _ => Raise OverflowError
  | sf => Ok (SF2Prim sf)
  end.

(** [a + b] with a number on the left, as in the script's accumulation:
    ints add exactly, floats add with one rounding, an int meeting a float is
    converted first, and anything else on the right raises [TypeError]. *)
Definition py_add (a b : json) : result json :=
  match int_value a, int_value b with
  | Some x, Some y => Ok (VInt (x + y))
  | Some x, None =>
      match b with
      | VFloat g => f <- float_of_Z x ;; Ok (VFloat (f + g))
      | _ => Raise TypeError
      end
  | None, Some y =>
      match a with
      | VFloat f => g <- float_of_Z y ;; Ok (VFloat (f + g))
      | _ => Raise TypeError
      end
  | None, None =>
      match a, b with
      | VFloat f, VFloat g => Ok (VFloat (f + g))
      | _, _ => Raise TypeError
      end
  end.

(** ** The clock *)

(** A value of [datetime.now()], read to the second. *)
Record datetime : Type := {
  year : nat;
  month : nat;
  day : nat;
  hour : nat;
  minute : nat;
  second : nat
}.

Definition digit (n : nat) : ascii := ascii_of_nat (48 + n mod 10).

Definition pad2 (n : nat) : string :=
  String (digit (n / 10)) (String (digit n) EmptyString).

Definition pad4 (n : nat) : string :=
  String (digit (n / 1000)) (String (digit (n / 100)) (pad2 n)).

(** [strftime('%Y-%m-%dT%H:00')], for a four-digit year. *)
Definition strftime_hour (t : datetime) : string :=
  pad4 (year t) ++ "-" ++ pad2 (month t) ++ "-" ++ pad2 (day t) ++ "T"
    ++ pad2 (hour t) ++ ":00".

(** [strftime('%Y-%m-%d %H:%M:%S')]. *)
Definition strftime_seconds (t : datetime) : string :=
  pad4 (year t) ++ "-" ++ pad2 (month t) ++ "-" ++ pad2 (day t) ++ " "
    ++ pad2 (hour t) ++ ":" ++ pad2 (minute t) ++ ":" ++ pad2 (second t).

(** [strftime('%I:%M %p')]: the twelve-hour clock. *)
Definition strftime_12h (t : datetime) : string :=
  let h := (hour t mod 12)%nat in
  pad2 (if (h =? 0)%nat then 12 else h) ++ ":" ++ pad2 (minute t) ++ " "
    ++ (if (hour t <? 12)%nat then "AM" else "PM").

(** ** Configuration *)

Record location : Type := {
  name : string;
  url : string
}.

Definition CITIES : list (string * location) :=
  [ ("madison",
     {| name := "Madison";
        url := "https://api.open-meteo.com/v1/forecast?latitude=43.0901&longitude=-89.4359&hourly=precipitation_probability,precipitation&timezone=America%2FChicago&forecast_days=1" |});
    ("boston",
     {| name := "Boston";
        url := "https://api.open-meteo.com/v1/forecast?latitude=42.3745&longitude=-71.1178&hourly=precipitation_probability,precipitation&timezone=America%2FNew_York&forecast_days=1" |}) ].

Definition DEFAULT_CITY : string := "madison".
Definition EMAIL_RECIPIENT : string := "raychanan@gmail.com".

Fixpoint find_city (k : string) (table : list (string * location)) : option location :=
  match table with
  | [] => None
  | (k', c) :: rest => if String.eqb k k' then Some c else find_city k rest
  end.

(** ** get_current_hour_index *)

(** The scan [for i, time_str in enumerate(times)], from position [i] on:
    the first item that starts with [p], if there is one. *)
Fixpoint scan_times (p : string) (items : list json) (i : nat) : result (option nat) :=
  match items with
  | [] => Ok None
  | time_str :: rest =>
      hit <- py_startswith time_str p ;;
      if hit then Ok (Some i) else scan_times p rest (S i)
  end.

(** The body of the [try] block. *)
Definition current_hour_lookup (current_time : datetime) (data : json) : result nat :=
  let current_hour_str := strftime_hour current_time in
  hourly <- py_getitem data "hourly" ;;
  times <- py_getitem hourly "time" ;;
  items <- py_iter times ;;
  found <- scan_times (substring 0 13 current_hour_str) items 0 ;;
  match found with
  | Some i => Ok i
  | None => Ok (hour current_time)
  end.

Definition get_current_hour_index (current_time : datetime) (data : json) : nat :=
  match current_hour_lookup current_time data with
  | Ok i => i
  | Raise _ => 0%nat
  end.

(** ** Effects: what a run does to the outside world *)

Inductive level : Type := INFO | WARNING | ERROR.

(** The log lines of [main], one constructor per call of the logger there.
    The helper functions log as well; their lines change no control flow and
    are left out of the trace. *)
Inductive message : Type :=
| CheckStarted
| FailedToAnalyze
| TestEmailTriggered (highest : json)
| RainAlertTriggered (highest : json)
| NoAlertNeeded (highest : json) (threshold : Z)
| CheckCompleted
| CheckFailed (e : exn).

Inductive event : Type :=
| Log (l : level) (m : message)
| HttpGet (address : string)
| Sleep (seconds : nat)
| SendMail (recipient subject content : string).

(** A computation with effects: the events it caused, in order, and how it
    ended. *)
Definition run (A : Type) : Type := (list event * result A)%type.

Definition pure {A : Type} (r : result A) : run A := ([], r).

Definition emit (e : event) : run unit := ([e], Ok tt).

Definition run_bind {A B : Type} (m : run A) (k : A -> run B) : run B :=
  match snd m with
  | Ok a => ((fst m ++ fst (k a))%list, snd (k a))
  | Raise e => (fst m, Raise e)
  end.

Notation "x <~ c ;; k" := (run_bind c (fun x => k))
  (at level 61, c at next level, right associativity).

(** ** The retry decorator *)

(** tenacity's [@retry(stop=stop_after_attempt(n), wait=wait_fixed(w),
    retry=retry_if_exception_type(Exception))] around a function whose
    attempt number [k] behaves as [call k]: a raised exception is followed by
    a pause of [w] and another attempt while fewer than [n] attempts were
    made, and by [RetryError] after the [n]-th.  [more] is the number of
    attempts still allowed after this one. *)
Fixpoint retry_from {A : Type} (wait : nat) (call : nat -> run A)
    (attempt_number more : nat) : run A :=
  match call attempt_number with
  | (t, Ok a) => (t, Ok a)
  | (t, Raise e) =>
      match more with
      | O => (t, Raise (RetryError e))
      | S more' =>
          let (t', r) := retry_from wait call (S attempt_number) more' in
          ((t ++ Sleep wait :: t')%list, r)
      end
  end.

Definition retry {A : Type} (stop_after_attempt wait_fixed : nat)
    (call : nat -> run A) : run A :=
  retry_from wait_fixed call 1 (stop_after_attempt - 1).

(** ** fetch_weather_data *)

(** What one GET comes to: [requests.get], [raise_for_status] or
    [response.json()] raised, or a body was parsed. *)
Inductive response : Type :=
| Failed (e : exn)
| Body (data : json).

(** The checks under [# Validate response data]. *)
Definition validate (data : json) : result json :=
  has_hourly <- py_contains "hourly" data ;;
  if negb has_hourly then Raise (ValueError "Invalid API response format")
  else
    hourly <- py_getitem data "hourly" ;;
    has_probability <- py_contains "precipitation_probability" hourly ;;
    if negb has_probability then Raise (ValueError "Missing precipitation probability data")
    else Ok data.

(** One call of the undecorated function; every [except] clause re-raises. *)
Definition fetch_weather_data_once (city_key : string) (r : response) : run json :=
  let key :=
    match find_city city_key CITIES with
    | Some _ => city_key
    | None => DEFAULT_CITY
    end in
  let address :=
    match find_city key CITIES with
    | Some c => url c
    | None => EmptyString
    end in
  _ <~ emit (HttpGet address) ;;
  match r with
  | Failed e => pure (Raise e)
  | Body data => pure (validate data)
  end.

(** The decorated function; [http k] is the outcome of the [k]-th GET. *)
Definition fetch_weather_data (http : nat -> response) (city_key : string) : run json :=
  retry 15 15 (fun k => fetch_weather_data_once city_key (http k)).

(** ** analyze_rain_probability *)

Record hour_data : Type := {
  time : json;
  probability : json;
  precipitation : json
}.

Record analysis : Type := {
  city : string;
  check_time : string;
  hours_data : list hour_data;
  max_probability : json;
  total_precipitation : json;
  alert_triggered : bool
}.

(** ** Sample inputs *)

(** A day of hourly timestamps ["<date>T00:00"] ... ["<date>T23:00"]. *)
Definition day_times (date : string) : list json :=
  map (fun h => VStr (date ++ "T" ++ pad2 h ++ ":00")) (seq 0 24).

Definition hourly_series (times probabilities precipitations : list json) : json :=
  VDict [ ("time", VList times);
          ("precipitation_probability", VList probabilities);
          ("precipitation", VList precipitations) ].

Definition forecast (times probabilities precipitations : list json) : json :=
  VDict [ ("latitude", VFloat 43.09375);
          ("hourly", hourly_series times probabilities precipitations) ].

(** Probabilities 10, 20, 60, 30, then 0; amounts 0.1, 0.2, 0.3, then 0.0. *)
Definition sample_probabilities : list json :=
  [VInt 10; VInt 20; VInt 60; VInt 30] ++ repeat (VInt 0) 20.

Definition sample_precipitations : list json :=
  [VFloat 0x1.999999999999ap-4; VFloat 0x1.999999999999ap-3; VFloat 0x1.3333333333333p-2]
    ++ repeat (VFloat 0) 21.

Definition sample_data : json :=
  forecast (day_times "2024-06-01") sample_probabilities sample_precipitations.

(** A dry day: every probability is 5. *)
Definition dry_data : json :=
  forecast (day_times "2024-06-01") (repeat (VInt 5) 24) (repeat (VFloat 0) 24).

(** Six hours only: at ten o'clock the series is over. *)
Definition short_data : json :=
  forecast (firstn 6 (day_times "2024-06-01")) (repeat (VInt 5) 6) (repeat (VFloat 0) 6).

(** A body without the [precipitation] array. *)
Definition no_precipitation_data : json :=
  VDict [ ("hourly",
           VDict [ ("time", VList (day_times "2024-06-01"));
                   ("precipitation_probability", VList sample_probabilities) ]) ].

Definition at_hour (h : nat) : datetime :=
  {| year := 2024; month := 6; day := 1; hour := h; minute := 30; second := 0 |}.

(** The day after the forecast: no timestamp matches. *)
Definition next_day (h : nat) : datetime :=
  {| year := 2024; month := 6; day := 2; hour := h; minute := 30; second := 0 |}.

(** A stand-in for [str()]: exact on ints, strings, booleans, None and
    floats of integer value. *)
Definition sample_str (v : json) : string :=
  match v with
  | VInt z => NilZero.string_of_int (Z.to_int z)
  | VStr s => s
  | VBool b => if b then "True" else "False"
  | VNone => "None"
  | VFloat f =>
      match float_value f with
      | XFin q =>
          if (Qden (Qred q) =? 1)%positive
          then NilZero.string_of_int (Z.to_int (Qnum (Qred q))) ++ ".0"
          else "<float>"
      | _ => "<float>"
      end
  | _ => "<object>"
  end.

Definition digit_value (c : ascii) : option nat :=
  let n := nat_of_ascii c in
  if ((48 <=? n) && (n <=? 57))%nat then Some (n - 48)%nat else None.

Fixpoint number_of (s : string) (acc : nat) : option nat :=
  match s with
  | EmptyString => Some acc
  | String c s' =>
      match digit_value c with
      | Some d => number_of s' (10 * acc + d)
      | None => None
      end
  end.

(** A stand-in for [datetime.fromisoformat] on ["YYYY-MM-DD HH:MM"]. *)
Definition sample_fromisoformat (s : string) : result datetime :=
  match number_of (substring 0 4 s) 0, number_of (substring 5 2 s) 0,
        number_of (substring 8 2 s) 0, number_of (substring 11 2 s) 0,
        number_of (substring 14 2 s) 0 with
  | Some y, Some mo, Some d, Some h, Some mi =>
      if (String.length s =? 16)%nat
      then Ok {| year := y; month := mo; day := d; hour := h; minute := mi; second := 0 |}
      else Raise (ValueError "Invalid isoformat string")
  | _, _, _, _, _ => Raise (ValueError "Invalid isoformat string")
  end.

(** The network answers with [data] at once; the mail goes out at once. *)
Definition http_ok (data : json) (k : nat) : response := Body data.
Definition smtp_ok (k : nat) : result unit := Ok tt.

(** The first [n] attempts fail, the following ones succeed. *)
Definition http_after (n : nat) (data : json) (k : nat) : response :=
  if (k <=? n)%nat then Failed Timeout else Body data.

Definition smtp_after (n : nat) (k : nat) : result unit :=
  if (k <=? n)%nat then Raise (OtherError "SMTPServerDisconnected") else Ok tt.

(** Summaries the analyzer is expected to return on the samples. *)
Definition entry (t : string) (p : Z) (q : float) : hour_data :=
  {| time := VStr t; probability := VInt p; precipitation := VFloat q |}.

(** [sample_data] at two o'clock: hours 2, 3, 4. *)
Definition scenario_summary : analysis :=
  {| city := "Madison";
     check_time := "2024-06-01 02:30:00";
     hours_data := [ entry "2024-06-01T02:00" 60 0x1.3333333333333p-2;
                     entry "2024-06-01T03:00" 30 0;
                     entry "2024-06-01T04:00" 0 0 ];
     max_probability := VInt 60;
     total_precipitation := VFloat 0x1.3333333333333p-2;
     alert_triggered := true |}.

(** [sample_data] at midnight: hours 0, 1, 2, with amounts 0.1, 0.2, 0.3
    and the total Python prints as 0.6000000000000001. *)
Definition midnight_summary : analysis :=
  {| city := "Madison";
     check_time := "2024-06-01 00:30:00";
     hours_data := [ entry "2024-06-01T00:00" 10 0x1.999999999999ap-4;
                     entry "2024-06-01T01:00" 20 0x1.999999999999ap-3;
                     entry "2024-06-01T02:00" 60 0x1.3333333333333p-2 ];
     max_probability := VInt 60;
     total_precipitation := VFloat 0x1.3333333333334p-1;
     alert_triggered := true |}.

(** [sample_data] at eleven at night: the last hour only. *)
Definition last_hour_summary : analysis :=
  {| city := "Madison";
     check_time := "2024-06-01 23:30:00";
     hours_data := [ entry "2024-06-01T23:00" 0 0 ];
     max_probability := VInt 0;
     total_precipitation := VFloat 0;
     alert_triggered := false |}.

(** [dry_data] at five o'clock under the test override. *)
Definition dry_summary : analysis :=
  {| city := "Madison";
     check_time := "2024-06-01 05:30:00";
     hours_data := [ entry "2024-06-01T05:00" 5 0;
                     entry "2024-06-01T06:00" 5 0;
                     entry "2024-06-01T07:00" 5 0 ];
     max_probability := VInt 5;
     total_precipitation := VFloat 0;
     alert_triggered := true |}.

(** [short_data] at ten o'clock: no hour is left, override or not. *)
Definition empty_summary : analysis :=
  {| city := "Madison";
     check_time := "2024-06-01 10:30:00";
     hours_data := [];
     max_probability := VInt 0;
     total_precipitation := VInt 0;
     alert_triggered := false |}.

(** The body the service sends with an error status. *)
Definition error_body : list (string * json) :=
  [ ("error", VBool true); ("reason", VStr "Latitude must be in range of -90 to 90") ].

(** The test mail for [dry_summary]. *)
Definition test_subject : string := "[TEST] Rain Monitor for Madison - 5% Probability".

Definition test_content : string :=
"Rain Monitor Test - Madison
Check Time: 2024-06-01 05:30:00

RAIN PROBABILITY FORECAST (Next 3 Hours):
Hour 1 (05:00 AM): 5% chance, 0.0mm
Hour 2 (06:00 AM): 5% chance, 0.0mm
Hour 3 (07:00 AM): 5% chance, 0.0mm

SUMMARY:
- Maximum Probability: 5%
- Total Expected Precipitation: 0.0mm
- Alert Threshold: 50%
- Testing Mode: ON

This is a TEST EMAIL to verify email delivery is working.
".

(** The message for [scenario_summary] with the threshold at 50 and the
    override off, the numbers written by [sample_str]. *)
Definition alert_subject : string := "Rain Alert for Madison - 60% Probability".

Definition alert_content : string :=
"Rain Alert - Madison
Check Time: 2024-06-01 02:30:00

RAIN PROBABILITY FORECAST (Next 3 Hours):
Hour 1 (02:00 AM): 60% chance, <float>mm
Hour 2 (03:00 AM): 30% chance, 0.0mm
Hour 3 (04:00 AM): 0% chance, 0.0mm

SUMMARY:
- Maximum Probability: 60%
- Total Expected Precipitation: <float>mm
- Alert Threshold: 50%
- Testing Mode: OFF

This alert was triggered because rain probability is 50% or greater within the next 3 hours.
".

(** ** Notions used by the statements *)

(** A probability in percent: a number between 0 and 100. *)
Definition is_percentage (v : json) : bool :=
  match num_value v with
  | Some (XFin q) => Qle_bool 0 q && Qle_bool q 100
  | _ => false
  end.

Definition is_number (v : json) : bool :=
  match num_value v with
  | Some _ => true
  | None => false
  end.

Definition is_float (v : json) : bool :=
  match v with
  | VFloat _ => true
  | _ => false
  end.

Definition probabilities_of (a : analysis) : list json := map probability (hours_data a).
Definition amounts_of (a : analysis) : list json := map precipitation (hours_data a).

(** [total + x1 + x2 + ...], added one after another with Python's [+]. *)
Fixpoint sum_from (total : json) (amounts : list json) : result json :=
  match amounts with
  | [] => Ok total
  | x :: rest => t <- py_add total x ;; sum_from t rest
  end.

(** The rational a finite number stands for, and the sum of a list of them
    without any rounding. *)
Definition exact_value (v : json) : option Q :=
  match num_value v with
  | Some (XFin q) => Some q
  | _ => None
  end.

Fixpoint exact_sum (amounts : list json) : option Q :=
  match amounts with
  | [] => Some 0%Q
  | x :: rest =>
      match exact_value x, exact_sum rest with
      | Some q, Some s => Some (q + s)%Q
      | _, _ => None
      end
  end.

(** The hour-detail entry the three arrays hold at position [j]. *)
Definition entry_at (times probabilities precipitations : list json) (j : nat)
    : option hour_data :=
  match nth_error times j, nth_error probabilities j, nth_error precipitations j with
  | Some t, Some p, Some q => Some {| time := t; probability := p; precipitation := q |}
  | _, _, _ => None
  end.

(** The entries found at [i + o] for the offsets [o], in order; an offset
    past the end contributes nothing. *)
Definition window (times probabilities precipitations : list json) (i : nat)
    (offsets : list nat) : list hour_data :=
  flat_map (fun o => match entry_at times probabilities precipitations (i + o) with
                     | Some e => [e]
                     | None => []
                     end) offsets.

(** The mails a trace hands to the SMTP session. *)
Definition is_send (e : event) : bool :=
  match e with
  | SendMail _ _ _ => true
  | _ => false
  end.

(** A summary before the first hour is recorded. *)
Definition fresh (a : analysis) : Prop :=
  hours_data a = [] /\ max_probability a = VInt 0 /\
  total_precipitation a = VInt 0 /\ alert_triggered a = false.

(** The pauses of a trace, and its GETs and mails. *)
Definition pauses (t : list event) : list nat :=
  flat_map (fun e => match e with Sleep s => [s] | _ => [] end) t.

Definition is_get (e : event) : bool :=
  match e with
  | HttpGet _ => true
  | _ => false
  end.

Definition gets (t : list event) : nat := List.length (filter is_get t).
Definition mails (t : list event) : list event := filter is_send t.

(** The events of [k] failed attempts, numbered from [n], each followed by
    its pause. *)
Fixpoint failed_attempts {A : Type} (wait : nat) (call : nat -> run A) (n k : nat)
    : list event :=
  match k with
  | O => []
  | S k' => (fst (call n) ++ Sleep wait :: failed_attempts wait call (S n) k')%list
  end.

(** [k + 1] attempts that each do [attempt], with a pause of [wait] between
    an attempt and the next: attempt, pause, attempt, ..., pause, attempt.
    No pause comes before the first attempt or after the last. *)
Fixpoint attempts_and_pauses (attempt : list event) (wait k : nat) : list event :=
  match k with
  | O => attempt
  | S k' => (attempt ++ Sleep wait :: attempts_and_pauses attempt wait k')%list
  end.

(** The address the GETs for [city_key] go to: the city's own, and the
    default city's for a key that is not in the table. *)
Definition address_of (city_key : string) : string :=
  match find_city city_key CITIES with
  | Some c => url c
  | None =>
      match find_city DEFAULT_CITY CITIES with
      | Some c => url c
      | None => EmptyString
      end
  end.

(** The attempts numbered 1 to [k] all raise. *)
Definition all_fail {A : Type} (call : nat -> run A) (k : nat) : Prop :=
  forall j, (1 <= j <= k)%nat -> exists e, snd (call j) = Raise e.

(** The instant [t] with its hour replaced, and the timestamps the service
    writes for the hours [first], [first + 1], ... of [t]'s day. *)
Definition with_hour (t : datetime) (h : nat) : datetime :=
  {| year := year t; month := month t; day := day t;
     hour := h; minute := minute t; second := second t |}.

Definition hour_stamps (t : datetime) (first count : nat) : list json :=
  map (fun h => VStr (strftime_hour (with_hour t h))) (seq first count).

(** A forecast that begins at ten o'clock of the day and runs to midnight. *)
Definition afternoon_data : json :=
  forecast (hour_stamps (at_hour 0) 10 14) (repeat (VInt 5) 14) (repeat (VFloat 0) 14).

(** [dry_data] at five o'clock without the test override. *)
Definition quiet_summary : analysis :=
  {| city := "Madison";
     check_time := "2024-06-01 05:30:00";
     hours_data := hours_data dry_summary;
     max_probability := VInt 5;
     total_precipitation := VFloat 0;
     alert_triggered := false |}.

(** [sample_data] at two o'clock under a key the table does not have. *)
Definition paris_summary : analysis :=
  {| city := "paris";
     check_time := "2024-06-01 02:30:00";
     hours_data := hours_data scenario_summary;
     max_probability := VInt 60;
     total_precipitation := VFloat 0x1.3333333333333p-2;
     alert_triggered := true |}.

(** A value [datetime.now()] can return, in the years strftime pads alike
    on every platform. *)
Definition valid_datetime (t : datetime) : Prop :=
  1000 <= Z.of_nat (year t) <= 9999 /\
  (1 <= month t <= 12 /\ 1 <= day t <= 31 /\
   hour t < 24 /\ minute t < 60 /\ second t < 60)%nat.

(** [setup_logging]: the path of the log file,
    [Path('logs') / f'rain_monitor_{timestamp}.log'] with the timestamp
    [strftime('%Y%m%d_%H%M%S')].  Creating the directory and configuring the
    handlers are effects on the file system; how they end is the [logging]
    input of [main]. *)
Definition log_filename (t : datetime) : string :=
  "logs/rain_monitor_" ++ pad4 (year t) ++ pad2 (month t) ++ pad2 (day t) ++ "_"
    ++ pad2 (hour t) ++ pad2 (minute t) ++ pad2 (second t) ++ ".log".

(** The label [CITIES.get(city, {}).get('name', city)]. *)
Definition city_label (city_key : string) : string :=
  match find_city city_key CITIES with
  | Some c => name c
  | None => city_key
  end.

(** The summary as it is before the loop, and as it stays when no hour is
    recorded. *)
Definition blank_summary (city_key : string) (check_now : datetime) : analysis :=
  {| city := city_label city_key;
     check_time := strftime_seconds check_now;
     hours_data := [];
     max_probability := VInt 0;
     total_precipitation := VInt 0;
     alert_triggered := false |}.

(** A forecast whose probabilities hold a null, as the service sends for a
    missing value. *)
Definition gap_data : json :=
  forecast (day_times "2024-06-01")
           ([VInt 10; VInt 20; VInt 60; VNone] ++ repeat (VInt 0) 20)
           sample_precipitations.

(** A summary with an entry whose time is no timestamp. *)
Definition odd_summary : analysis :=
  {| city := "Madison";
     check_time := "2024-06-01 02:30:00";
     hours_data := [ {| time := VInt 7; probability := VInt 60; precipitation := VFloat 0 |} ];
     max_probability := VInt 60;
     total_precipitation := VFloat 0;
     alert_triggered := true |}.

(** A body whose "hourly" member is a string. *)
Definition string_hourly_body : json :=
  VDict [ ("hourly", VStr "no precipitation_probability today") ].

(** The log line of [main]'s [except] clause. *)
Definition is_failure_log (ev : event) : bool :=
  match ev with
  | Log ERROR (CheckFailed _) => true
  | _ => false
  end.

(** Two summaries that differ in the alert flag at most. *)
Definition same_figures (a b : analysis) : Prop :=
  city a = city b /\ check_time a = check_time b /\
  hours_data a = hours_data b /\
  max_probability a = max_probability b /\
  total_precipitation a = total_precipitation b.

(** Attempt [k + 1] is the first that returns, with [a]. *)
Definition first_success {A : Type} (call : nat -> run A) (k : nat) (a : A) : Prop :=
  all_fail call k /\ snd (call (S k)) = Ok a.

(** All of the attempts 1 to [n] raise, the last of them [e]. *)
Definition never_succeeds {A : Type} (call : nat -> run A) (n : nat) (e : exn) : Prop :=
  all_fail call n /\ snd (call n) = Raise e.

Section RainMonitor.

(** The two constants the claims range over. *)
Variable RAIN_THRESHOLD : Z.
Variable TESTING_MODE : bool.

(** One turn of [for i in range(3)]. *)
Definition analyze_hour (times probabilities precipitations : json)
    (current_index : nat) (acc : analysis) (i : nat) : result analysis :=
  let hour_index := (current_index + i)%nat in
  n <- py_len times ;;
  if (hour_index <? n)%nat then
    time_str <- py_index times hour_index ;;
    prob <- py_index probabilities hour_index ;;
    precip <- py_index precipitations hour_index ;;
    let entry := {| time := time_str; probability := prob; precipitation := precip |} in
    highest <- py_max (max_probability acc) prob ;;
    total <- py_add (total_precipitation acc) precip ;;
    over <- py_ge prob (VInt RAIN_THRESHOLD) ;;
    Ok {| city := city acc;
          check_time := check_time acc;
          hours_data := hours_data acc ++ [entry];
          max_probability := highest;
          total_precipitation := total;
          alert_triggered := if over || TESTING_MODE then true else alert_triggered acc |}
  else Ok acc.

Fixpoint analyze_hours (times probabilities precipitations : json)
    (current_index : nat) (acc : analysis) (offsets : list nat) : result analysis :=
  match offsets with
  | [] => Ok acc
  | i :: rest =>
      acc' <- analyze_hour times probabilities precipitations current_index acc i ;;
      analyze_hours times probabilities precipitations current_index acc' rest
  end.

(** The body of the [try] block; [index_time] and [check_now] are the two
    readings of the clock, the first inside [get_current_hour_index]. *)
Definition analyze_body (index_time check_now : datetime) (data : json)
    (city_key : string) : result analysis :=
  let current_index := get_current_hour_index index_time data in
  let city_name :=
    match find_city city_key CITIES with
    | Some c => name c
    | None => city_key
    end in
  hourly <- py_getitem data "hourly" ;;
  times <- py_getitem hourly "time" ;;
  probabilities <- py_getitem hourly "precipitation_probability" ;;
  precipitations <- py_getitem hourly "precipitation" ;;
  analyze_hours times probabilities precipitations current_index
    {| city := city_name;
       check_time := strftime_seconds check_now;
       hours_data := [];
       max_probability := VInt 0;
       total_precipitation := VInt 0;
       alert_triggered := false |}
    [0; 1; 2]%nat.

(** [None] is Python's [None], returned by the [except] clause. *)
Definition analyze_rain_probability (index_time check_now : datetime) (data : json)
    (city_key : string) : option analysis :=
  match analyze_body index_time check_now data city_key with
  | Ok a => Some a
  | Raise _ => None
  end.

(** ** send_rain_alert_email *)

(** Two library functions are taken as given: [str()] on an object, used by
    the f-strings, and [datetime.fromisoformat]. *)
Variable py_str : json -> string.
Variable fromisoformat : string -> result datetime.

Definition newline : string := String (ascii_of_nat 10) EmptyString.

(** [s.replace('T', ' ')]. *)
Fixpoint replace_T (s : string) : string :=
  match s with
  | EmptyString => EmptyString
  | String c s' => String (if Ascii.eqb c "T"%char then " "%char else c) (replace_T s')
  end.

(** [TESTING_MODE and analysis['max_probability'] < RAIN_THRESHOLD]. *)
Definition is_test_mail (a : analysis) : result bool :=
  if TESTING_MODE then py_lt (max_probability a) (VInt RAIN_THRESHOLD) else Ok false.

Definition mail_subject (test : bool) (a : analysis) : string :=
  if test
  then "[TEST] Rain Monitor for " ++ city a ++ " - " ++ py_str (max_probability a) ++ "% Probability"
  else "Rain Alert for " ++ city a ++ " - " ++ py_str (max_probability a) ++ "% Probability".

Definition alert_reason (test : bool) : string :=
  if test
  then "This is a TEST EMAIL to verify email delivery is working."
  else "This alert was triggered because rain probability is "
         ++ py_str (VInt RAIN_THRESHOLD) ++ "% or greater within the next 3 hours.".

Definition mail_heading (test : bool) (a : analysis) : string :=
  "Rain " ++ (if test then "Monitor Test" else "Alert") ++ " - " ++ city a ++ newline
    ++ "Check Time: " ++ check_time a ++ newline
    ++ newline
    ++ "RAIN PROBABILITY FORECAST (Next 3 Hours):" ++ newline.

(** One line of the forecast, for the entry at position [i]. *)
Definition mail_line (i : nat) (h : hour_data) : result string :=
  match time h with
  | VStr s =>
      hour_time <- fromisoformat (replace_T s) ;;
      Ok ("Hour " ++ py_str (VInt (Z.of_nat i + 1)) ++ " (" ++ strftime_12h hour_time ++ "): "
            ++ py_str (probability h) ++ "% chance, " ++ py_str (precipitation h) ++ "mm" ++ newline)
  | _ => Raise AttributeError
  end.

Fixpoint mail_lines (i : nat) (hours : list hour_data) : result string :=
  match hours with
  | [] => Ok EmptyString
  | h :: rest =>
      line <- mail_line i h ;;
      others <- mail_lines (S i) rest ;;
      Ok (line ++ others)
  end.

Definition mail_summary (test : bool) (a : analysis) : string :=
  newline
    ++ "SUMMARY:" ++ newline
    ++ "- Maximum Probability: " ++ py_str (max_probability a) ++ "%" ++ newline
    ++ "- Total Expected Precipitation: " ++ py_str (total_precipitation a) ++ "mm" ++ newline
    ++ "- Alert Threshold: " ++ py_str (VInt RAIN_THRESHOLD) ++ "%" ++ newline
    ++ "- Testing Mode: " ++ (if TESTING_MODE then "ON" else "OFF") ++ newline
    ++ newline
    ++ alert_reason test ++ newline.

(** Subject and content of the message, as built before the SMTP session. *)
Definition build_message (a : analysis) : result (string * string) :=
  test <- is_test_mail a ;;
  lines <- mail_lines 0 (hours_data a) ;;
  Ok (mail_subject test a, mail_heading test a ++ lines ++ mail_summary test a).

(** One call of the undecorated function; [delivery] is how the SMTP session
    (open, send, close) ends. *)
Definition send_rain_alert_email_once (delivery : result unit) (a : analysis) : run unit :=
  mail <~ pure (build_message a) ;;
  _ <~ emit (SendMail EMAIL_RECIPIENT (fst mail) (snd mail)) ;;
  pure delivery.

(** The decorated function; [smtp k] is the outcome of the [k]-th session. *)
Definition send_rain_alert_email (smtp : nat -> result unit) (a : analysis) : run unit :=
  retry 15 15 (fun k => send_rain_alert_email_once (smtp k) a).

(** ** main *)

(** The body of the [try] block. *)
Definition main_body (index_time check_now : datetime) (http : nat -> response)
    (smtp : nat -> result unit) : run unit :=
  _ <~ emit (Log INFO CheckStarted) ;;
  weather_data <~ fetch_weather_data http DEFAULT_CITY ;;
  match analyze_rain_probability index_time check_now weather_data DEFAULT_CITY with
  | None => emit (Log ERROR FailedToAnalyze)
  | Some a =>
      _ <~ (if alert_triggered a then
              test <~ pure (is_test_mail a) ;;
              _ <~ emit (Log INFO (if test then TestEmailTriggered (max_probability a)
                                   else RainAlertTriggered (max_probability a))) ;;
              send_rain_alert_email smtp a
            else
              emit (Log INFO (NoAlertNeeded (max_probability a) RAIN_THRESHOLD))) ;;
      emit (Log INFO CheckCompleted)
  end.

(** [main]: [setup_logging] runs first and outside the [try]; [logging] is
    how it ends (the directory is made, the log file opened, the handlers
    installed).  An exception of it leaves [main] at once: nothing of the
    [try] block runs and the [except] clause is not reached.  Otherwise the
    [try] block runs, and the [except] clause logs its exception and raises
    it again.  The one line [setup_logging] logs is a helper's line and,
    like the helpers' other lines, not part of the trace. *)
Definition main (logging : result unit) (index_time check_now : datetime)
    (http : nat -> response) (smtp : nat -> result unit) : run unit :=
  match logging with
  | Raise e => ([], Raise e)
  | Ok _ =>
      let body := main_body index_time check_now http smtp in
      match snd body with
      | Ok _ => body
      | Raise e => ((fst body ++ [Log ERROR (CheckFailed e)])%list, Raise e)
      end
  end.

(** The status the process ends with: 0 when [main] returns, 1 when an
    exception leaves it. *)
Definition exit_status (r : run unit) : Z :=
  match snd r with
  | Ok _ => 0
  | Raise _ => 1
  end.

(** [acc'] is [acc] after one more hour was recorded. *)
Inductive extended (acc acc' : analysis) : Prop :=
| extended_by (entry : hour_data) (over : bool)
    (Hhours : hours_data acc' = (hours_data acc ++ [entry])%list)
    (Hmax : py_max (max_probability acc) (probability entry) = Ok (max_probability acc'))
    (Htotal : py_add (total_precipitation acc) (precipitation entry)
              = Ok (total_precipitation acc'))
    (Hover : py_ge (probability entry) (VInt RAIN_THRESHOLD) = Ok over)
    (Halert : alert_triggered acc'
              = if over || TESTING_MODE then true else alert_triggered acc)
    (Hcity : city acc' = city acc)
    (Hcheck : check_time acc' = check_time acc).

Inductive grown : analysis -> analysis -> Prop :=
| grown_refl (a : analysis) : grown a a
| grown_step (a b c : analysis) : grown a b -> extended b c -> grown a c.

(** What holds of the running maximum when every recorded probability is a
    percentage: it is a number, at least every recorded probability, and
    the value of one of them (or the initial 0 when nothing is recorded). *)
Definition highest_so_far (a : analysis) : Prop :=
  exists q, num_value (max_probability a) = Some (XFin q) /\ (0 <= q)%Q /\
    (forall h, In h (hours_data a) ->
       exists r, num_value (probability h) = Some (XFin r) /\ (r <= q)%Q) /\
    (hours_data a = [] -> max_probability a = VInt 0) /\
    (hours_data a <> [] ->
       exists h r, In h (hours_data a) /\
         num_value (probability h) = Some (XFin r) /\ (r == q)%Q).

(** Arrays in the format the forecast service documents (numbers for the
    probabilities, floats for the amounts) never make the analysis raise. *)
Definition tidy (acc : analysis) : Prop :=
  is_number (max_probability acc) = true /\
  (total_precipitation acc = VInt 0 \/ is_float (total_precipitation acc) = true).

(** What one attempt of the send hands to the mail service: the message,
    or nothing when building the message raised. *)
Definition mail_attempt (a : analysis) : list event :=
  match build_message a with
  | Ok (subject, content) => [SendMail EMAIL_RECIPIENT subject content]
  | Raise _ => []
  end.

(** * Properties *)

Ltac bind_inv :=
  repeat match goal with
  | H : bind ?c _ = Ok _ |- _ =>
      let E := fresh "E" in destruct c eqn:E; cbn [bind] in H; [ | discriminate H ]
  end.

Lemma analyze_hour_cases times ps qs i acc o acc' :
  analyze_hour times ps qs i acc o = Ok acc' ->
  acc' = acc \/ extended acc acc'.
Proof.
  unfold analyze_hour. intros H. bind_inv.
  destruct (_ <? _)%nat.
  - bind_inv. injection H as <-. right.
    econstructor; simpl; eauto.
  - injection H as <-. now left.
Qed.

Lemma grown_front a b c : extended a b -> grown b c -> grown a c.
Proof.
  intros Hab Hbc. induction Hbc.
  - eapply grown_step; [apply grown_refl | exact Hab].
  - eapply grown_step; [apply IHHbc; exact Hab | assumption].
Qed.

Lemma analyze_hours_grown times ps qs i offsets : forall acc acc',
  analyze_hours times ps qs i acc offsets = Ok acc' -> grown acc acc'.
Proof.
  induction offsets as [|o rest IH]; simpl; intros acc acc' H.
  - injection H as <-. apply grown_refl.
  - bind_inv. apply analyze_hour_cases in E as [-> | Hext].
    + now apply IH.
    + eapply grown_front; eauto.
Qed.

Lemma analyze_body_grown t1 t2 data key a :
  analyze_body t1 t2 data key = Ok a ->
  exists a0, fresh a0 /\ grown a0 a.
Proof.
  unfold analyze_body. intros H. bind_inv.
  apply analyze_hours_grown in H.
  eexists. split; [ | exact H]. repeat split.
Qed.

Lemma analyze_some t1 t2 data key a :
  analyze_rain_probability t1 t2 data key = Some a <->
  analyze_body t1 t2 data key = Ok a.
Proof.
  unfold analyze_rain_probability.
  destruct (analyze_body t1 t2 data key); split; intros H; congruence.
Qed.


(** ** Exact comparison of numbers *)

Lemma Qltb_lt p q : Qltb p q = true <-> (p < q)%Q.
Proof.
  unfold Qltb. rewrite negb_true_iff. split; intros H.
  - apply Qnot_le_lt. intros Hle. apply Qle_bool_iff in Hle. congruence.
  - destruct (Qle_bool q p) eqn:E; [ | reflexivity ].
    apply Qle_bool_iff in E. exfalso. exact (Qlt_not_le _ _ H E).
Qed.

Lemma x_leb_fin p q : x_leb (XFin p) (XFin q) = true <-> (p <= q)%Q.
Proof.
  unfold x_leb; simpl. rewrite orb_true_iff, Qltb_lt, Qeq_bool_iff.
  rewrite Qle_lteq. tauto.
Qed.

Lemma x_eqb_fin p q : x_eqb (XFin p) (XFin q) = true <-> (p == q)%Q.
Proof. simpl. apply Qeq_bool_iff. Qed.

Lemma is_percentage_value v :
  is_percentage v = true ->
  exists q, num_value v = Some (XFin q) /\ (0 <= q /\ q <= 100)%Q.
Proof.
  unfold is_percentage. destruct (num_value v) as [[ | | q] | ]; try discriminate.
  rewrite andb_true_iff, !Qle_bool_iff. eauto.
Qed.

Lemma py_max_cases m p m' :
  py_max m p = Ok m' ->
  (m' = p /\ py_gt p m = Ok true) \/ (m' = m /\ py_gt p m = Ok false).
Proof.
  unfold py_max. destruct (py_gt p m) as [[ | ] | e]; simpl; intros H;
    try discriminate; injection H as <-; auto.
Qed.

Lemma py_ge_fin v q t :
  num_value v = Some (XFin q) ->
  (py_ge v (VInt t) = Ok true <-> (inject_Z t <= q)%Q).
Proof.
  intros Hv. unfold py_ge, compare_with. rewrite Hv. simpl.
  rewrite <- x_leb_fin. split; intros H; [ injection H as H | f_equal ]; exact H.
Qed.

(** ** The summary, hour after hour *)

Lemma highest_invariant a0 a :
  fresh a0 -> grown a0 a ->
  Forall (fun v => is_percentage v = true) (probabilities_of a) ->
  highest_so_far a.
Proof.
  intros (Hh & Hm & _ & _) Hg. induction Hg as [a | a b c Hab IH Hbc]; intros Hpct.
  - exists (inject_Z 0). rewrite Hm, Hh. simpl. repeat split.
    + apply Qle_refl.
    + intros h [].
    + intros Hne. now elim Hne.
  - destruct Hbc as [entry over Hhours Hmax _ _ _ _ _].
    unfold probabilities_of in Hpct. rewrite Hhours, map_app in Hpct.
    apply Forall_app in Hpct as [Hprev Hnew].
    destruct (IH Hh Hm Hprev) as (q & Hq & Hq0 & Hall & Hnil & Hsome).
    inversion Hnew as [ | ? ? Hentry _ ]; subst.
    apply is_percentage_value in Hentry as (r & Hr & Hr0 & _).
    apply py_max_cases in Hmax.
    unfold py_gt, compare_with in Hmax. rewrite Hq, Hr in Hmax. simpl in Hmax.
    destruct Hmax as [[Hc Hgt] | [Hc Hgt]]; injection Hgt as Hgt.
    + apply Qltb_lt in Hgt.
      exists r. rewrite Hc, Hhours. repeat split; auto.
      * intros h Hin. apply in_app_or in Hin as [Hin | [<- | []]].
        -- destruct (Hall h Hin) as (r' & Hr' & Hle). exists r'. split; auto.
           apply Qle_trans with q; auto. now apply Qlt_le_weak.
        -- exists r. split; auto. apply Qle_refl.
      * intros Happ. now destruct (hours_data b).
      * intros _. exists entry, r. split; [ | split ]; auto.
        -- apply in_or_app. right. now left.
        -- reflexivity.
    + assert (Hle : (r <= q)%Q).
      { apply Qnot_lt_le. intros Hlt. apply Qltb_lt in Hlt. congruence. }
      exists q. rewrite Hc, Hhours. repeat split; auto.
      * intros h Hin. apply in_app_or in Hin as [Hin | [<- | []]]; eauto.
      * intros Happ. now destruct (hours_data b).
      * intros _. destruct (hours_data b) as [ | h0 rest] eqn:Eb.
        -- exists entry, r. split; [now left | split; auto].
           specialize (Hnil eq_refl). rewrite Hnil in Hq. simpl in Hq.
           injection Hq as <-. apply Qle_antisym; auto.
        -- destruct Hsome as (h & r' & Hin & Hr' & Heq); [discriminate | ].
           exists h, r'. split; [ | split ]; auto.
           apply in_or_app. now left.
Qed.

(** The alert flag is raised by a recorded hour at or over the threshold,
    or by any recorded hour at all under the test override. *)
Lemma alert_invariant a0 a :
  fresh a0 -> grown a0 a ->
  (alert_triggered a = true <->
   hours_data a <> [] /\
   ((exists h, In h (hours_data a) /\
       py_ge (probability h) (VInt RAIN_THRESHOLD) = Ok true)
    \/ TESTING_MODE = true)).
Proof.
  intros (Hh & _ & _ & Ha) Hg. induction Hg as [a | a b c Hab IH Hbc].
  - rewrite Ha, Hh. split; [discriminate | intros [Hne _]; now elim Hne].
  - specialize (IH Hh Ha).
    destruct Hbc as [entry over Hhours _ _ Hover Halert _ _].
    rewrite Halert, Hhours. split.
    + intros H. split; [ now destruct (hours_data b) | ].
      destruct over; simpl in H.
      * left. exists entry. split; auto. apply in_or_app. right. now left.
      * destruct TESTING_MODE; [now right | ].
        apply IH in H as [_ [(h & Hin & Hge) | Ht]]; [ | discriminate].
        left. exists h. split; auto. apply in_or_app. now left.
    + intros [_ [(h & Hin & Hge) | Ht]].
      * apply in_app_or in Hin as [Hin | [<- | []]].
        -- assert (Hb : alert_triggered b = true).
           { apply IH. split; [ intros E; rewrite E in Hin; exact Hin | eauto ]. }
           rewrite Hb. now destruct (over || TESTING_MODE).
        -- rewrite Hge in Hover. injection Hover as <-. reflexivity.
      * rewrite Ht, orb_true_r. reflexivity.
Qed.

Lemma sum_from_app t l x :
  sum_from t (l ++ [x]) = (t' <- sum_from t l ;; py_add t' x).
Proof.
  revert t. induction l as [ | y l IH]; simpl; intros t.
  - now destruct (py_add t x).
  - destruct (py_add t y); simpl; auto.
Qed.

Lemma total_invariant a0 a :
  fresh a0 -> grown a0 a ->
  sum_from (VInt 0) (amounts_of a) = Ok (total_precipitation a).
Proof.
  intros (Hh & _ & Ht & _) Hg. induction Hg as [a | a b c Hab IH Hbc].
  - unfold amounts_of. rewrite Hh, Ht. reflexivity.
  - destruct Hbc as [entry over Hhours _ Htotal _ _ _ _].
    unfold amounts_of in *. rewrite Hhours, map_app. simpl.
    rewrite sum_from_app, (IH Hh Ht). exact Htotal.
Qed.

Lemma sum_from_ints amounts : forall zs z0,
  map int_value amounts = map Some zs ->
  sum_from (VInt z0) amounts = Ok (VInt (fold_left Z.add zs z0)).
Proof.
  induction amounts as [ | x rest IH]; intros [ | z zs] z0 Hm; try discriminate.
  - reflexivity.
  - simpl in Hm. injection Hm as Hx Hrest. simpl.
    unfold py_add. simpl. rewrite Hx. simpl. now apply IH.
Qed.

Lemma sum_from_floats fs : forall f,
  sum_from (VFloat f) (map VFloat fs) = Ok (VFloat (fold_left PrimFloat.add fs f)).
Proof.
  induction fs as [ | g fs IH]; intros f; simpl; [reflexivity | apply IH].
Qed.

(** ** The recorded hours *)

Lemma hours_of_analyze_hours ts ps qs i offsets : forall acc acc',
  analyze_hours (VList ts) (VList ps) (VList qs) i acc offsets = Ok acc' ->
  hours_data acc' = (hours_data acc ++ window ts ps qs i offsets)%list.
Proof.
  induction offsets as [ | o rest IH]; simpl; intros acc acc' H.
  - injection H as <-. now rewrite app_nil_r.
  - destruct (analyze_hour (VList ts) (VList ps) (VList qs) i acc o) as [acc1 | e] eqn:E;
      simpl in H; [ | discriminate].
    apply IH in H. rewrite H. clear H IH.
    unfold analyze_hour in E. simpl in E. unfold entry_at.
    destruct (i + o <? List.length ts)%nat eqn:Hlt.
    + destruct (nth_error ts (i + o)) as [t | ]; simpl in E; [ | discriminate].
      destruct (nth_error ps (i + o)) as [pr | ]; simpl in E; [ | discriminate].
      destruct (nth_error qs (i + o)) as [q | ]; simpl in E; [ | discriminate].
      bind_inv. injection E as <-. simpl. now rewrite <- app_assoc.
    + injection E as <-.
      apply Nat.ltb_ge, nth_error_None in Hlt. now rewrite Hlt.
Qed.

Lemma entry_at_inside ts ps qs j :
  List.length ps = List.length ts -> List.length qs = List.length ts ->
  (j < List.length ts)%nat ->
  exists e, entry_at ts ps qs j = Some e.
Proof.
  intros Hp Hq Hj. unfold entry_at.
  destruct (nth_error ts j) eqn:Et; [ | apply nth_error_None in Et; lia].
  destruct (nth_error ps j) eqn:Ep; [ | apply nth_error_None in Ep; lia].
  destruct (nth_error qs j) eqn:Eq; [ | apply nth_error_None in Eq; lia].
  eauto.
Qed.

Lemma entry_at_outside ts ps qs j :
  (List.length ts <= j)%nat -> entry_at ts ps qs j = None.
Proof.
  intros Hj. unfold entry_at. apply nth_error_None in Hj. now rewrite Hj.
Qed.

(** With parallel arrays of length [L], the three offsets give the entries
    at [i], [i+1], [i+2] that lie before [L], and nothing else. *)
Lemma window_three ts ps qs i :
  List.length ps = List.length ts -> List.length qs = List.length ts ->
  let w := window ts ps qs i [0; 1; 2]%nat in
  Z.of_nat (List.length w)
    = Z.min 3 (Z.max 0 (Z.of_nat (List.length ts) - Z.of_nat i)) /\
  forall k, (k < List.length w)%nat -> nth_error w k = entry_at ts ps qs (i + k).
Proof.
  intros Hp Hq. unfold window. simpl.
  assert (Hin : forall j, (j < List.length ts)%nat ->
                  exists e, entry_at ts ps qs j = Some e)
    by (intros; now apply entry_at_inside).
  pose proof (entry_at_outside ts ps qs) as Hout.
  destruct (Nat.lt_ge_cases (i + 2) (List.length ts)) as [H2 | H2];
    [ | destruct (Nat.lt_ge_cases (i + 1) (List.length ts)) as [H1 | H1];
        [ | destruct (Nat.lt_ge_cases (i + 0) (List.length ts)) as [H0 | H0] ] ].
  - destruct (Hin (i + 0)%nat) as [e0 E0]; [lia | ].
    destruct (Hin (i + 1)%nat) as [e1 E1]; [lia | ].
    destruct (Hin (i + 2)%nat) as [e2 E2]; [lia | ].
    rewrite E0, E1, E2. simpl. split; [lia | ].
    intros [ | [ | [ | k]]] Hk; simpl in *; try lia; congruence.
  - destruct (Hin (i + 0)%nat) as [e0 E0]; [lia | ].
    destruct (Hin (i + 1)%nat) as [e1 E1]; [lia | ].
    rewrite E0, E1, (Hout _ H2). simpl. split; [lia | ].
    intros [ | [ | k]] Hk; simpl in *; try lia; congruence.
  - destruct (Hin (i + 0)%nat) as [e0 E0]; [lia | ].
    rewrite E0, (Hout _ H1), (Hout _ H2). simpl. split; [lia | ].
    intros [ | k] Hk; simpl in *; try lia; congruence.
  - rewrite (Hout _ H0), (Hout _ H1), (Hout _ H2). simpl. split; [lia | ].
    intros k Hk; simpl in *; lia.
Qed.

Lemma compare_numbers op a b :
  is_number a = true -> is_number b = true ->
  exists r, compare_with op a b = Ok r.
Proof.
  unfold is_number, compare_with.
  destruct (num_value a), (num_value b); try discriminate; eauto.
Qed.

Lemma analyze_hour_total ts ps qs i acc o :
  List.length ps = List.length ts -> List.length qs = List.length ts ->
  Forall (fun v => is_number v = true) ps ->
  Forall (fun v => is_float v = true) qs ->
  tidy acc ->
  exists acc', analyze_hour (VList ts) (VList ps) (VList qs) i acc o = Ok acc' /\ tidy acc'.
Proof.
  intros Hp Hq Hps Hqs [Hm Ht]. unfold analyze_hour. simpl.
  destruct (i + o <? List.length ts)%nat eqn:Hlt; [ | now eexists; split; [ | split ] ].
  apply Nat.ltb_lt in Hlt.
  destruct (nth_error ts (i + o)) as [t | ] eqn:Et; [ | apply nth_error_None in Et; lia].
  destruct (nth_error ps (i + o)) as [pr | ] eqn:Ep; [ | apply nth_error_None in Ep; lia].
  destruct (nth_error qs (i + o)) as [q | ] eqn:Eq; [ | apply nth_error_None in Eq; lia].
  simpl.
  assert (Hpr : is_number pr = true).
  { apply nth_error_In in Ep. rewrite Forall_forall in Hps. auto. }
  assert (Hqf : is_float q = true).
  { apply nth_error_In in Eq. rewrite Forall_forall in Hqs. auto. }
  destruct q as [ | | | g | | | ]; try discriminate.
  unfold py_max.
  destruct (compare_numbers x_ltb _ _ Hm Hpr) as [gt Hgt].
  unfold py_gt. rewrite Hgt. simpl.
  destruct (compare_numbers x_leb (VInt RAIN_THRESHOLD) pr eq_refl Hpr) as [ge Hge].
  unfold py_ge. rewrite Hge.
  assert (Hadd : exists f, py_add (total_precipitation acc) (VFloat g) = Ok (VFloat f)).
  { destruct Ht as [-> | Hf].
    - eexists. reflexivity.
    - destruct (total_precipitation acc); try discriminate. eexists. reflexivity. }
  destruct Hadd as [f ->]. simpl.
  eexists. split; [reflexivity | ]. split; simpl.
  - now destruct gt.
  - now right.
Qed.

Lemma analyze_hours_total ts ps qs i offsets : forall acc,
  List.length ps = List.length ts -> List.length qs = List.length ts ->
  Forall (fun v => is_number v = true) ps ->
  Forall (fun v => is_float v = true) qs ->
  tidy acc ->
  exists acc', analyze_hours (VList ts) (VList ps) (VList qs) i acc offsets = Ok acc'.
Proof.
  induction offsets as [ | o rest IH]; simpl; intros acc Hp Hq Hps Hqs Hacc; eauto.
  destruct (analyze_hour_total ts ps qs i acc o Hp Hq Hps Hqs Hacc) as (acc1 & -> & H1).
  simpl. now apply IH.
Qed.

(** ** The analyzer's summary *)

(** C3: for a forecast whose time, probability and amount arrays are lists
    of one length L, with i the index [get_current_hour_index] resolves,
    every summary [analyze_rain_probability] returns holds exactly
    min(3, max(0, L - i)) hour-detail entries, the k-th of which carries the
    time, probability and amount found at index i + k of the arrays; an
    offset past the end is skipped, and with numbers for probabilities and
    floats for amounts a summary is returned. *)
Theorem summary_holds_the_next_three_hours
    (index_time check_now : datetime) (data hourly : json) (key : string)
    (ts ps qs : list json) :
  py_getitem data "hourly" = Ok hourly ->
  py_getitem hourly "time" = Ok (VList ts) ->
  py_getitem hourly "precipitation_probability" = Ok (VList ps) ->
  py_getitem hourly "precipitation" = Ok (VList qs) ->
  List.length ps = List.length ts ->
  List.length qs = List.length ts ->
  let i := get_current_hour_index index_time data in
  (forall a, analyze_rain_probability index_time check_now data key = Some a ->
     Z.of_nat (List.length (hours_data a))
       = Z.min 3 (Z.max 0 (Z.of_nat (List.length ts) - Z.of_nat i)) /\
     forall k e, nth_error (hours_data a) k = Some e ->
       nth_error ts (i + k) = Some (time e) /\
       nth_error ps (i + k) = Some (probability e) /\
       nth_error qs (i + k) = Some (precipitation e)) /\
  (Forall (fun v => is_number v = true) ps ->
   Forall (fun v => is_float v = true) qs ->
   exists a, analyze_rain_probability index_time check_now data key = Some a).
Proof.
  intros Hh Ht Hp Hq Lp Lq i. split.
  - intros a Ha. apply analyze_some in Ha.
    unfold analyze_body in Ha. rewrite Hh in Ha. cbn [bind] in Ha.
    rewrite Ht, Hp, Hq in Ha. cbn [bind] in Ha.
    apply hours_of_analyze_hours in Ha. cbn [hours_data app] in Ha.
    fold i in Ha. rewrite Ha.
    destruct (window_three ts ps qs i Lp Lq) as [Hcount Hnth].
    split; [exact Hcount | ].
    intros k e Hk.
    assert (Hlt : (k < List.length (window ts ps qs i [0; 1; 2]%nat))%nat)
      by (apply nth_error_Some; congruence).
    rewrite (Hnth k Hlt) in Hk. unfold entry_at in Hk.
    destruct (nth_error ts (i + k)), (nth_error ps (i + k)), (nth_error qs (i + k));
      try discriminate.
    injection Hk as <-. auto.
  - intros Hps Hqs. unfold analyze_rain_probability, analyze_body.
    rewrite Hh. cbn [bind]. rewrite Ht, Hp, Hq. cbn [bind].
    match goal with
    | |- context [analyze_hours ?t ?p ?q ?j ?acc ?o] =>
        destruct (analyze_hours_total ts ps qs j o acc Lp Lq Hps Hqs) as [a' Ha']
    end.
    + split; simpl; auto.
    + rewrite Ha'. eauto.
Qed.

(** C5: when the probabilities of the included hour-detail entries are
    percentages, the summary's max_probability is 0 if no entry is
    included, and otherwise equals the probability of one included entry
    and is at least the probability of every included entry. *)
Theorem max_probability_is_the_maximum
    (index_time check_now : datetime) (data : json) (key : string) (a : analysis) :
  analyze_rain_probability index_time check_now data key = Some a ->
  Forall (fun v => is_percentage v = true) (probabilities_of a) ->
  (hours_data a = [] -> max_probability a = VInt 0) /\
  (hours_data a <> [] ->
     (exists h, In h (hours_data a) /\
        py_eq (max_probability a) (probability h) = Ok true) /\
     (forall h, In h (hours_data a) ->
        py_le (probability h) (max_probability a) = Ok true)).
Proof.
  intros Ha Hpct. apply analyze_some, analyze_body_grown in Ha as (a0 & Hf & Hg).
  destruct (highest_invariant a0 a Hf Hg Hpct) as (q & Hq & _ & Hall & Hnil & Hsome).
  split; [exact Hnil | ]. intros Hne. split.
  - destruct (Hsome Hne) as (h & r & Hin & Hr & Heq).
    exists h. split; auto. unfold py_eq, compare_with. rewrite Hq, Hr.
    f_equal. apply x_eqb_fin. now symmetry.
  - intros h Hin. destruct (Hall h Hin) as (r & Hr & Hle).
    unfold py_le, compare_with. rewrite Hq, Hr. f_equal. now apply x_leb_fin.
Qed.

(** C1, as the code has it: the alert flag is true if and only if at least
    one hour-detail entry is included and either some included entry's
    probability is at or above the threshold or the test override is
    active; with percentages for probabilities, "some included entry is at
    or above the threshold" is the same as "max_probability is at or above
    the threshold". *)
Theorem alert_flag_needs_an_included_hour
    (index_time check_now : datetime) (data : json) (key : string) (a : analysis) :
  analyze_rain_probability index_time check_now data key = Some a ->
  (alert_triggered a = true <->
   hours_data a <> [] /\
   ((exists h, In h (hours_data a) /\
       py_ge (probability h) (VInt RAIN_THRESHOLD) = Ok true)
    \/ TESTING_MODE = true)) /\
  (Forall (fun v => is_percentage v = true) (probabilities_of a) ->
   (alert_triggered a = true <->
    hours_data a <> [] /\
    (py_ge (max_probability a) (VInt RAIN_THRESHOLD) = Ok true
     \/ TESTING_MODE = true))).
Proof.
  intros Ha. apply analyze_some, analyze_body_grown in Ha as (a0 & Hf & Hg).
  pose proof (alert_invariant a0 a Hf Hg) as Halert.
  split; [exact Halert | ]. intros Hpct.
  destruct (highest_invariant a0 a Hf Hg Hpct) as (q & Hq & _ & Hall & _ & Hsome).
  rewrite Halert. split; intros [Hne Hcases]; (split; [exact Hne | ]).
  - destruct Hcases as [(h & Hin & Hge) | Ht]; [left | now right].
    destruct (Hall h Hin) as (r & Hr & Hle).
    apply (py_ge_fin _ _ _ Hq). apply (py_ge_fin _ _ _ Hr) in Hge.
    now apply Qle_trans with r.
  - destruct Hcases as [Hge | Ht]; [left | now right].
    destruct (Hsome Hne) as (h & r & Hin & Hr & Heq).
    exists h. split; auto.
    apply (py_ge_fin _ _ _ Hr). apply (py_ge_fin _ _ _ Hq) in Hge.
    now rewrite Heq.
Qed.

(** C6, as the code has it: total_precipitation is the result of adding
    the amounts of the included entries to 0 one after another, in order,
    with Python's [+]: 0 when no entry is included, the exact integer sum
    when the amounts are integers, and for floats the running
    double-precision sum, rounded at each addition. *)
Theorem total_precipitation_is_the_running_sum
    (index_time check_now : datetime) (data : json) (key : string) (a : analysis) :
  analyze_rain_probability index_time check_now data key = Some a ->
  sum_from (VInt 0) (amounts_of a) = Ok (total_precipitation a) /\
  (hours_data a = [] -> total_precipitation a = VInt 0) /\
  (forall zs, map int_value (amounts_of a) = map Some zs ->
     total_precipitation a = VInt (fold_left Z.add zs 0)) /\
  (forall f fs, amounts_of a = map VFloat (f :: fs) ->
     total_precipitation a = VFloat (fold_left PrimFloat.add fs (0 + f)%float)).
Proof.
  intros Ha. apply analyze_some, analyze_body_grown in Ha as (a0 & Hf & Hg).
  pose proof (total_invariant a0 a Hf Hg) as Hsum.
  split; [exact Hsum | ]. repeat split.
  - intros Hnil. unfold amounts_of in Hsum. rewrite Hnil in Hsum.
    simpl in Hsum. congruence.
  - intros zs Hzs. rewrite (sum_from_ints _ _ 0 Hzs) in Hsum. congruence.
  - intros f fs Hfs. rewrite Hfs in Hsum. simpl map in Hsum.
    change (sum_from (VInt 0) (VFloat f :: map VFloat fs))
      with (sum_from (VFloat (0 + f)) (map VFloat fs)) in Hsum.
    rewrite sum_from_floats in Hsum. congruence.
Qed.

(** ** The retry loop *)

Section Retry.

Context {A : Type}.
Variable wait : nat.
Variable call : nat -> run A.

Lemma retry_from_returns : forall k more n a,
  (k <= more)%nat ->
  (forall j, (j < k)%nat -> exists e, snd (call (n + j)) = Raise e) ->
  snd (call (n + k)) = Ok a ->
  retry_from wait call n more
    = ((failed_attempts wait call n k ++ fst (call (n + k)))%list, Ok a).
Proof.
  induction k as [ | k IH]; intros more n a Hk Hfail Hok.
  - rewrite Nat.add_0_r in Hok |- *.
    destruct more; simpl; destruct (call n) as [t r]; simpl in Hok; now subst r.
  - destruct more as [ | more]; [lia | ].
    destruct (Hfail 0%nat) as [e He]; [lia | ]. rewrite Nat.add_0_r in He.
    simpl. destruct (call n) as [t r]. simpl in He. subst r.
    rewrite (IH more (S n) a); simpl.
    + now rewrite <- app_assoc, Nat.add_succ_r.
    + lia.
    + intros j Hj. destruct (Hfail (S j)) as [e' He']; [lia | ].
      rewrite Nat.add_succ_r in He'. eauto.
    + now rewrite Nat.add_succ_r in Hok.
Qed.

Lemma retry_from_gives_up : forall more n e,
  (forall j, (j < more)%nat -> exists e', snd (call (n + j)) = Raise e') ->
  snd (call (n + more)) = Raise e ->
  retry_from wait call n more
    = ((failed_attempts wait call n more ++ fst (call (n + more)))%list,
       Raise (RetryError e)).
Proof.
  induction more as [ | more IH]; intros n e Hfail Hlast.
  - rewrite Nat.add_0_r in Hlast |- *. simpl.
    destruct (call n) as [t r]. simpl in Hlast. now subst r.
  - destruct (Hfail 0%nat) as [e0 He0]; [lia | ]. rewrite Nat.add_0_r in He0.
    simpl. destruct (call n) as [t r]. simpl in He0. subst r.
    rewrite (IH (S n) e); simpl.
    + now rewrite <- app_assoc, Nat.add_succ_r.
    + intros j Hj. destruct (Hfail (S j)) as [e' He']; [lia | ].
      rewrite Nat.add_succ_r in He'. eauto.
    + now rewrite Nat.add_succ_r in Hlast.
Qed.

(** The decorated call when attempt [k + 1] is the first to return. *)
Lemma retry_returns stop k a :
  (k < stop)%nat -> first_success call k a ->
  retry stop wait call
    = ((failed_attempts wait call 1 k ++ fst (call (S k)))%list, Ok a).
Proof.
  intros Hk [Hfail Hok]. unfold retry.
  apply retry_from_returns; [lia | | exact Hok].
  intros j Hj. apply Hfail. lia.
Qed.

(** The decorated call when none of the [stop] attempts returns. *)
Lemma retry_gives_up stop e :
  (0 < stop)%nat -> never_succeeds call stop e ->
  retry stop wait call
    = ((failed_attempts wait call 1 (stop - 1) ++ fst (call stop))%list,
       Raise (RetryError e)).
Proof.
  intros Hs [Hfail Hlast]. unfold retry.
  assert (Hstop : (1 + (stop - 1))%nat = stop) by lia.
  rewrite (retry_from_gives_up (stop - 1) 1 e).
  - now rewrite Hstop.
  - intros j Hj. apply Hfail. lia.
  - now rewrite Hstop.
Qed.

Lemma pauses_app t u : pauses (t ++ u) = (pauses t ++ pauses u)%list.
Proof. unfold pauses. apply flat_map_app. Qed.

Lemma gets_app t u : gets (t ++ u) = (gets t + gets u)%nat.
Proof. unfold gets. now rewrite filter_app, length_app. Qed.

Lemma mails_app t u : mails (t ++ u) = (mails t ++ mails u)%list.
Proof. unfold mails. apply filter_app. Qed.

Lemma pauses_failed_attempts k : forall n,
  (forall j, pauses (fst (call j)) = []) ->
  pauses (failed_attempts wait call n k) = repeat wait k.
Proof.
  induction k as [ | k IH]; intros n Hquiet; simpl; [reflexivity | ].
  rewrite pauses_app, Hquiet. simpl. now rewrite IH.
Qed.

Lemma gets_failed_attempts k : forall n,
  (forall j, gets (fst (call j)) = 1%nat) ->
  gets (failed_attempts wait call n k) = k.
Proof.
  induction k as [ | k IH]; intros n Hone; simpl; [reflexivity | ].
  rewrite gets_app, Hone.
  change (gets (Sleep wait :: failed_attempts wait call (S n) k))
    with (gets (failed_attempts wait call (S n) k)).
  now rewrite IH.
Qed.

Lemma mails_failed_attempts m k : forall n,
  (forall j, mails (fst (call j)) = [m]) ->
  mails (failed_attempts wait call n k) = repeat m k.
Proof.
  induction k as [ | k IH]; intros n Hone; simpl; [reflexivity | ].
  rewrite mails_app, Hone.
  change (mails (Sleep wait :: failed_attempts wait call (S n) k))
    with (mails (failed_attempts wait call (S n) k)).
  now rewrite IH.
Qed.

(** Attempts that all do the same give the alternation of attempt and
    pause. *)
Lemma failed_attempts_alike (t : list event) k : forall n,
  (forall j, fst (call j) = t) ->
  (failed_attempts wait call n k ++ t)%list = attempts_and_pauses t wait k.
Proof.
  induction k as [ | k IH]; intros n Hsame; simpl; [reflexivity | ].
  rewrite Hsame, <- app_assoc. simpl. now rewrite IH.
Qed.

Lemma retry_trace_of_return stop k a (t : list event) :
  (k < stop)%nat -> first_success call k a -> (forall j, fst (call j) = t) ->
  retry stop wait call = (attempts_and_pauses t wait k, Ok a).
Proof.
  intros Hk Hfirst Hsame. rewrite (retry_returns stop k a Hk Hfirst).
  now rewrite Hsame, failed_attempts_alike.
Qed.

Lemma retry_trace_of_failure stop e (t : list event) :
  (0 < stop)%nat -> never_succeeds call stop e -> (forall j, fst (call j) = t) ->
  retry stop wait call = (attempts_and_pauses t wait (stop - 1), Raise (RetryError e)).
Proof.
  intros Hs Hnever Hsame. rewrite (retry_gives_up stop e Hs Hnever).
  now rewrite Hsame, failed_attempts_alike.
Qed.

(** Whatever the loop does was done by one of its attempts, or is a pause. *)
Lemma retry_from_events more : forall n ev,
  In ev (fst (retry_from wait call n more)) ->
  ev = Sleep wait \/ exists j, In ev (fst (call j)).
Proof.
  induction more as [ | more IH]; intros n ev; simpl.
  - destruct (call n) as [t [a | e]] eqn:E; simpl; intros Hin;
      right; exists n; now rewrite E.
  - destruct (call n) as [t [a | e]] eqn:E; simpl.
    + intros Hin. right. exists n. now rewrite E.
    + specialize (IH (S n) ev).
      destruct (retry_from wait call (S n) more) as [t' r]. simpl in *.
      intros Hin. apply in_app_or in Hin as [Hin | [<- | Hin]]; auto.
      right. exists n. now rewrite E.
Qed.

Lemma retry_events stop ev :
  In ev (fst (retry stop wait call)) ->
  ev = Sleep wait \/ exists j, In ev (fst (call j)).
Proof. unfold retry. apply retry_from_events. Qed.

End Retry.

(** The alternation read off position by position, for attempts of one
    event each: attempts at the even positions, pauses at the odd ones, an
    attempt first and last. *)
Lemma alternation_length (ev : event) wait k :
  List.length (attempts_and_pauses [ev] wait k) = (2 * k + 1)%nat.
Proof. induction k as [ | k IH]; simpl; [reflexivity | ]. rewrite IH. lia. Qed.

Lemma alternation_nth (ev : event) wait k : forall i,
  (i < 2 * k + 1)%nat ->
  nth_error (attempts_and_pauses [ev] wait k) i
    = Some (if Nat.even i then ev else Sleep wait).
Proof.
  induction k as [ | k IH]; intros i Hi.
  - assert (E : i = 0%nat) by lia. subst i. reflexivity.
  - destruct i as [ | [ | i] ]; [reflexivity | reflexivity | ].
    change (nth_error (attempts_and_pauses [ev] wait (S k)) (S (S i)))
      with (nth_error (attempts_and_pauses [ev] wait k) i).
    rewrite IH by lia. reflexivity.
Qed.

(** ** The forecast client *)

Lemma fetch_once_trace city r :
  fst (fetch_weather_data_once city r) = [HttpGet (address_of city)].
Proof.
  unfold fetch_weather_data_once, address_of.
  destruct (find_city city CITIES) as [c | ] eqn:E; [rewrite E | ]; now destruct r.
Qed.

(** The fetch, event by event, when attempt [k + 1] is the first to return
    and when all fifteen raise. *)
Lemma fetch_trace_of_return http city k data :
  (k < 15)%nat ->
  first_success (fun j => fetch_weather_data_once city (http j)) k data ->
  fetch_weather_data http city
    = (attempts_and_pauses [HttpGet (address_of city)] 15 k, Ok data).
Proof.
  intros Hk Hfirst. unfold fetch_weather_data.
  apply retry_trace_of_return; [exact Hk | exact Hfirst | ].
  intros j. apply fetch_once_trace.
Qed.

Lemma fetch_trace_of_failure http city e :
  never_succeeds (fun j => fetch_weather_data_once city (http j)) 15 e ->
  fetch_weather_data http city
    = (attempts_and_pauses [HttpGet (address_of city)] 15 14, Raise (RetryError e)).
Proof.
  intros Hnever. unfold fetch_weather_data.
  apply (retry_trace_of_failure _ _ 15); [lia | exact Hnever | ].
  intros j. apply fetch_once_trace.
Qed.

Lemma fetch_once_result city r :
  snd (fetch_weather_data_once city r)
    = match r with Failed e => Raise e | Body data => validate data end.
Proof. now destruct r. Qed.

Lemma fetch_once_pauses city r : pauses (fst (fetch_weather_data_once city r)) = [].
Proof. now destruct r. Qed.

Lemma fetch_once_gets city r : gets (fst (fetch_weather_data_once city r)) = 1%nat.
Proof. now destruct r. Qed.

Lemma fetch_once_mails city r : mails (fst (fetch_weather_data_once city r)) = [].
Proof. now destruct r. Qed.

Lemma fetch_once_events city r ev :
  In ev (fst (fetch_weather_data_once city r)) -> is_send ev = false.
Proof. destruct r; simpl; intros [<- | []]; reflexivity. Qed.

(** The fetch when attempt [k + 1] is the first to return. *)
Lemma fetch_returns http city k data :
  (k < 15)%nat ->
  first_success (fun j => fetch_weather_data_once city (http j)) k data ->
  snd (fetch_weather_data http city) = Ok data /\
  gets (fst (fetch_weather_data http city)) = S k /\
  pauses (fst (fetch_weather_data http city)) = repeat 15%nat k.
Proof.
  intros Hk Hfirst. unfold fetch_weather_data.
  rewrite (retry_returns _ _ 15 k data Hk Hfirst). cbn [fst snd]. split; [reflexivity | ].
  rewrite gets_app, pauses_app, fetch_once_gets, fetch_once_pauses, app_nil_r.
  rewrite gets_failed_attempts by (intros; apply fetch_once_gets).
  rewrite pauses_failed_attempts by (intros; apply fetch_once_pauses).
  split; [lia | reflexivity].
Qed.

(** The fetch when all fifteen attempts raise. *)
Lemma fetch_gives_up http city e :
  never_succeeds (fun j => fetch_weather_data_once city (http j)) 15 e ->
  snd (fetch_weather_data http city) = Raise (RetryError e) /\
  gets (fst (fetch_weather_data http city)) = 15%nat /\
  pauses (fst (fetch_weather_data http city)) = repeat 15%nat 14.
Proof.
  intros Hnever. unfold fetch_weather_data.
  rewrite (retry_gives_up _ _ 15 e) by (exact Hnever || lia).
  cbn [fst snd]. split; [reflexivity | ].
  rewrite gets_app, pauses_app, fetch_once_gets, fetch_once_pauses, app_nil_r.
  rewrite gets_failed_attempts by (intros; apply fetch_once_gets).
  rewrite pauses_failed_attempts by (intros; apply fetch_once_pauses).
  split; reflexivity.
Qed.

(** C2, as the code has it: for a body that is a JSON object, one call of
    [fetch_weather_data] raises a data-format error when the body has no
    "hourly" member, and when its "hourly" object has no
    "precipitation_probability" member; a body that has both is returned
    unchanged, whatever else it holds; and a body that fails the check at
    every attempt is fetched fifteen times, fourteen pauses of 15 apart,
    before the error is given up on. *)
Theorem fetch_validates_hourly_probability (city : string) (kvs : list (string * json)) :
  (lookup "hourly" kvs = None ->
   snd (fetch_weather_data_once city (Body (VDict kvs)))
     = Raise (ValueError "Invalid API response format")) /\
  (forall h, lookup "hourly" kvs = Some (VDict h) ->
     (lookup "precipitation_probability" h = None ->
      snd (fetch_weather_data_once city (Body (VDict kvs)))
        = Raise (ValueError "Missing precipitation probability data")) /\
     (lookup "precipitation_probability" h <> None ->
      snd (fetch_weather_data_once city (Body (VDict kvs))) = Ok (VDict kvs))) /\
  (forall http e,
     validate (VDict kvs) = Raise e ->
     (forall j, http j = Body (VDict kvs)) ->
     snd (fetch_weather_data http city) = Raise (RetryError e) /\
     gets (fst (fetch_weather_data http city)) = 15%nat /\
     pauses (fst (fetch_weather_data http city)) = repeat 15%nat 14).
Proof.
  split; [ | split ].
  - intros Hl. rewrite fetch_once_result. unfold validate. simpl.
    rewrite Hl. reflexivity.
  - intros h Hh. rewrite fetch_once_result. unfold validate. simpl.
    rewrite Hh. simpl. split.
    + intros ->. reflexivity.
    + destruct (lookup "precipitation_probability" h); [reflexivity | congruence].
  - intros http e Hv Hhttp. apply fetch_gives_up. split.
    + intros j _. exists e. now rewrite fetch_once_result, Hhttp.
    + now rewrite fetch_once_result, Hhttp.
Qed.

(** ** The current hour *)

Lemma scan_times_hit p items : forall i0 k t,
  (forall j, (j < k)%nat ->
     exists s, nth_error items j = Some (VStr s) /\ prefix p s = false) ->
  nth_error items k = Some (VStr t) ->
  prefix p t = true ->
  scan_times p items i0 = Ok (Some (i0 + k)%nat).
Proof.
  induction items as [ | x rest IH]; intros i0 k t Hbefore Hk Ht.
  - destruct k; discriminate.
  - destruct k as [ | k].
    + simpl in Hk. injection Hk as ->. simpl. rewrite Ht, Nat.add_0_r. reflexivity.
    + destruct (Hbefore 0%nat) as (s & Hs & Hno); [lia | ].
      simpl in Hs. injection Hs as ->. simpl. rewrite Hno.
      rewrite (IH (S i0) k t); auto.
      * now rewrite Nat.add_succ_r.
      * intros j Hj. apply (Hbefore (S j)). lia.
Qed.

Lemma scan_times_miss p items : forall i0,
  (forall v, In v items -> exists s, v = VStr s /\ prefix p s = false) ->
  scan_times p items i0 = Ok None.
Proof.
  induction items as [ | x rest IH]; intros i0 Hall; [reflexivity | ].
  destruct (Hall x) as (s & -> & Hno); [now left | ].
  simpl. rewrite Hno. apply IH. intros v Hv. apply Hall. now right.
Qed.

Lemma scan_times_raise p items : forall i0 k v,
  (forall j, (j < k)%nat ->
     exists s, nth_error items j = Some (VStr s) /\ prefix p s = false) ->
  nth_error items k = Some v ->
  (forall s, v <> VStr s) ->
  scan_times p items i0 = Raise AttributeError.
Proof.
  induction items as [ | x rest IH]; intros i0 k v Hbefore Hk Hv.
  - destruct k; discriminate.
  - destruct k as [ | k].
    + simpl in Hk. injection Hk as ->. simpl.
      destruct v; try reflexivity. now elim (Hv s).
    + destruct (Hbefore 0%nat) as (s & Hs & Hno); [lia | ].
      simpl in Hs. injection Hs as ->. simpl. rewrite Hno.
      apply (IH (S i0) k v); auto.
      intros j Hj. apply (Hbefore (S j)). lia.
Qed.

(** C4: with the forecast's timestamps in a list, [get_current_hour_index]
    returns the position of the first timestamp that starts with the
    current hour string "YYYY-MM-DDTHH"; when no timestamp starts with it,
    the current hour of the day; and 0 whenever the lookup raises: no
    "hourly" or "time" member, or a timestamp that is no string met before
    any match. *)
Theorem current_hour_index_resolution (current_time : datetime) (data : json) :
  let p := substring 0 13 (strftime_hour current_time) in
  p = pad4 (year current_time) ++ "-" ++ pad2 (month current_time) ++ "-"
        ++ pad2 (day current_time) ++ "T" ++ pad2 (hour current_time) /\
  (forall hourly items,
     py_getitem data "hourly" = Ok hourly ->
     py_getitem hourly "time" = Ok (VList items) ->
     (forall k t,
        (forall j, (j < k)%nat ->
           exists s, nth_error items j = Some (VStr s) /\ prefix p s = false) ->
        nth_error items k = Some (VStr t) ->
        prefix p t = true ->
        get_current_hour_index current_time data = k) /\
     ((forall v, In v items -> exists s, v = VStr s /\ prefix p s = false) ->
      get_current_hour_index current_time data = hour current_time) /\
     (forall k v,
        (forall j, (j < k)%nat ->
           exists s, nth_error items j = Some (VStr s) /\ prefix p s = false) ->
        nth_error items k = Some v ->
        (forall s, v <> VStr s) ->
        get_current_hour_index current_time data = 0%nat)) /\
  (forall e, current_hour_lookup current_time data = Raise e ->
     get_current_hour_index current_time data = 0%nat) /\
  (forall e, py_getitem data "hourly" = Raise e ->
     get_current_hour_index current_time data = 0%nat) /\
  (forall hourly e,
     py_getitem data "hourly" = Ok hourly ->
     py_getitem hourly "time" = Raise e ->
     get_current_hour_index current_time data = 0%nat).
Proof.
  intros p. split; [reflexivity | ].
  unfold get_current_hour_index, current_hour_lookup. fold p.
  split; [ | split; [ | split ] ].
  - intros hourly items Hh Ht. rewrite Hh. cbn [bind]. rewrite Ht. cbn [bind py_iter].
    split; [ | split ].
    + intros k t Hbefore Hk Hp.
      now rewrite (scan_times_hit p items 0 k t Hbefore Hk Hp).
    + intros Hall. now rewrite (scan_times_miss p items 0 Hall).
    + intros k v Hbefore Hk Hv.
      now rewrite (scan_times_raise p items 0 k v Hbefore Hk Hv).
  - intros e ->. reflexivity.
  - intros e ->. reflexivity.
  - intros hourly e Hh Ht. rewrite Hh. cbn [bind]. rewrite Ht. reflexivity.
Qed.

(** ** The notifier *)

Lemma send_once_result delivery a :
  snd (send_rain_alert_email_once delivery a)
    = match build_message a with Ok _ => delivery | Raise e => Raise e end.
Proof.
  unfold send_rain_alert_email_once, run_bind, pure. simpl.
  now destruct (build_message a).
Qed.

Lemma send_once_events delivery a ev :
  In ev (fst (send_rain_alert_email_once delivery a)) ->
  exists subject content,
    build_message a = Ok (subject, content) /\
    ev = SendMail EMAIL_RECIPIENT subject content.
Proof.
  unfold send_rain_alert_email_once, run_bind, pure. simpl.
  destruct (build_message a) as [[subject content] | e]; simpl; [ | tauto].
  intros [<- | []]. eauto.
Qed.

Lemma send_once_pauses delivery a :
  pauses (fst (send_rain_alert_email_once delivery a)) = [].
Proof.
  unfold send_rain_alert_email_once, run_bind, pure. simpl.
  now destruct (build_message a).
Qed.

Lemma send_once_mails delivery a subject content :
  build_message a = Ok (subject, content) ->
  mails (fst (send_rain_alert_email_once delivery a))
    = [SendMail EMAIL_RECIPIENT subject content].
Proof.
  intros H. unfold send_rain_alert_email_once, run_bind, pure. simpl.
  now rewrite H.
Qed.

Lemma send_returns smtp a k :
  (k < 15)%nat ->
  first_success (fun j => send_rain_alert_email_once (smtp j) a) k tt ->
  snd (send_rain_alert_email smtp a) = Ok tt /\
  pauses (fst (send_rain_alert_email smtp a)) = repeat 15%nat k /\
  exists subject content,
    build_message a = Ok (subject, content) /\
    mails (fst (send_rain_alert_email smtp a))
      = repeat (SendMail EMAIL_RECIPIENT subject content) (S k).
Proof.
  intros Hk Hfirst. unfold send_rain_alert_email.
  rewrite (retry_returns _ _ 15 k tt Hk Hfirst). cbn [fst snd]. split; [reflexivity | ].
  rewrite pauses_app, send_once_pauses, app_nil_r.
  rewrite pauses_failed_attempts by (intros; apply send_once_pauses).
  split; [reflexivity | ].
  destruct Hfirst as [_ Hok]. rewrite send_once_result in Hok.
  destruct (build_message a) as [[subject content] | e] eqn:Hb; [ | discriminate].
  exists subject, content. split; [reflexivity | ].
  rewrite mails_app, (send_once_mails _ _ _ _ Hb).
  rewrite (mails_failed_attempts _ _ (SendMail EMAIL_RECIPIENT subject content))
    by (intros; now apply send_once_mails).
  now rewrite <- repeat_cons.
Qed.

Lemma send_gives_up smtp a e :
  never_succeeds (fun j => send_rain_alert_email_once (smtp j) a) 15 e ->
  snd (send_rain_alert_email smtp a) = Raise (RetryError e) /\
  pauses (fst (send_rain_alert_email smtp a)) = repeat 15%nat 14.
Proof.
  intros Hnever. unfold send_rain_alert_email.
  rewrite (retry_gives_up _ _ 15 e) by (exact Hnever || lia).
  cbn [fst snd]. split; [reflexivity | ].
  rewrite pauses_app, send_once_pauses, app_nil_r.
  now rewrite pauses_failed_attempts by (intros; apply send_once_pauses).
Qed.

Lemma send_once_trace delivery a :
  fst (send_rain_alert_email_once delivery a) = mail_attempt a.
Proof.
  unfold send_rain_alert_email_once, mail_attempt, run_bind, pure. simpl.
  now destruct (build_message a) as [[subject content] | e].
Qed.

(** The send, event by event, when attempt [k + 1] is the first to return
    and when all fifteen raise. *)
Lemma send_trace_of_return smtp a k :
  (k < 15)%nat ->
  first_success (fun j => send_rain_alert_email_once (smtp j) a) k tt ->
  send_rain_alert_email smtp a = (attempts_and_pauses (mail_attempt a) 15 k, Ok tt).
Proof.
  intros Hk Hfirst. unfold send_rain_alert_email.
  apply retry_trace_of_return; [exact Hk | exact Hfirst | ].
  intros j. apply send_once_trace.
Qed.

Lemma send_trace_of_failure smtp a e :
  never_succeeds (fun j => send_rain_alert_email_once (smtp j) a) 15 e ->
  send_rain_alert_email smtp a
    = (attempts_and_pauses (mail_attempt a) 15 14, Raise (RetryError e)).
Proof.
  intros Hnever. unfold send_rain_alert_email.
  apply (retry_trace_of_failure _ _ 15); [lia | exact Hnever | ].
  intros j. apply send_once_trace.
Qed.

Lemma prefix_nil s : prefix "" s = true.
Proof. now destruct s. Qed.

Lemma string_app_assoc (s t u : string) : (s ++ t) ++ u = s ++ t ++ u.
Proof. induction s as [ | c s IH]; simpl; [reflexivity | now rewrite IH]. Qed.

Lemma list_of_append (s t : string) :
  list_ascii_of_string (s ++ t)
    = (list_ascii_of_string s ++ list_ascii_of_string t)%list.
Proof. induction s as [ | c s IH]; simpl; [reflexivity | now rewrite IH]. Qed.

(** No text ends as the test line and as the alert line at once. *)
Lemma reason_lines_differ (before before' : string) :
  before ++ "This is a TEST EMAIL to verify email delivery is working." ++ newline
    <> before' ++ "% or greater within the next 3 hours." ++ newline.
Proof.
  intros H. apply (f_equal list_ascii_of_string) in H.
  rewrite !list_of_append in H.
  apply (f_equal (@rev ascii)) in H. rewrite !rev_app_distr in H.
  apply (f_equal (fun l => nth 2 l "x"%char)) in H.
  cbn in H. discriminate H.
Qed.

(** The message, from the test flag and the lines of the forecast. *)
Lemma build_message_parts (a : analysis) (subject content : string) :
  build_message a = Ok (subject, content) ->
  exists test lines,
    is_test_mail a = Ok test /\
    mail_lines 0 (hours_data a) = Ok lines /\
    subject = mail_subject test a /\
    content = mail_heading test a ++ lines ++ mail_summary test a.
Proof.
  unfold build_message. intros H.
  destruct (is_test_mail a) as [test | e]; cbn [bind] in H; [ | discriminate].
  destruct (mail_lines 0 (hours_data a)) as [lines | e]; cbn [bind] in H; [ | discriminate].
  injection H as <- <-. now exists test, lines.
Qed.

Lemma is_test_mail_true (a : analysis) (test : bool) :
  is_test_mail a = Ok test ->
  test = true <->
  TESTING_MODE = true /\ py_lt (max_probability a) (VInt RAIN_THRESHOLD) = Ok true.
Proof.
  unfold is_test_mail. destruct TESTING_MODE.
  - intros ->. split; [now intros -> | now intros [_ H]; injection H].
  - intros H. injection H as <-. split; [discriminate | now intros [H _]].
Qed.

(** C9: in every message [send_rain_alert_email] builds, subject and body
    are marked as a test (the subject starts with "[TEST]", the body starts
    with "Rain Monitor Test" and ends with the line "This is a TEST EMAIL to
    verify email delivery is working.") if and only if the test override is
    active and the summary's max_probability is strictly below the
    threshold; otherwise the subject is the genuine alert with the location
    name and the max_probability in it, and the body starts with "Rain
    Alert" and ends with the line that gives the threshold as the reason.
    In both cases the body is the heading, the lines of the forecast and
    the summary block, spelled out below. *)
Theorem test_marking_of_the_message (a : analysis) (subject content : string) :
  build_message a = Ok (subject, content) ->
  let test := TESTING_MODE = true /\
              py_lt (max_probability a) (VInt RAIN_THRESHOLD) = Ok true in
  let test_line :=
    "This is a TEST EMAIL to verify email delivery is working." ++ newline in
  let alert_line :=
    "This alert was triggered because rain probability is "
      ++ py_str (VInt RAIN_THRESHOLD) ++ "% or greater within the next 3 hours."
      ++ newline in
  let body kind lines reason :=
    "Rain " ++ kind ++ " - " ++ city a ++ newline
      ++ "Check Time: " ++ check_time a ++ newline
      ++ newline
      ++ "RAIN PROBABILITY FORECAST (Next 3 Hours):" ++ newline
      ++ lines
      ++ newline
      ++ "SUMMARY:" ++ newline
      ++ "- Maximum Probability: " ++ py_str (max_probability a) ++ "%" ++ newline
      ++ "- Total Expected Precipitation: " ++ py_str (total_precipitation a)
      ++ "mm" ++ newline
      ++ "- Alert Threshold: " ++ py_str (VInt RAIN_THRESHOLD) ++ "%" ++ newline
      ++ "- Testing Mode: " ++ (if TESTING_MODE then "ON" else "OFF") ++ newline
      ++ newline
      ++ reason in
  (prefix "[TEST]" subject = true <-> test) /\
  (prefix "Rain Monitor Test" content = true <-> test) /\
  ((exists before, content = before ++ test_line) <-> test) /\
  (test ->
   subject = "[TEST] Rain Monitor for " ++ city a ++ " - "
               ++ py_str (max_probability a) ++ "% Probability") /\
  (~ test ->
   subject = "Rain Alert for " ++ city a ++ " - "
               ++ py_str (max_probability a) ++ "% Probability" /\
   prefix "Rain Alert - " content = true /\
   exists before, content = before ++ alert_line) /\
  (exists lines,
     mail_lines 0 (hours_data a) = Ok lines /\
     (test -> content = body "Monitor Test" lines test_line) /\
     (~ test -> content = body "Alert" lines alert_line)).
Proof.
  intros H. cbv zeta.
  destruct (build_message_parts a subject content H)
    as (test & lines & Htest & Hlines & -> & ->).
  pose proof (is_test_mail_true a test Htest) as Hiff.
  assert (Hbody : mail_heading test a ++ lines ++ mail_summary test a
            = "Rain " ++ (if test then "Monitor Test" else "Alert") ++ " - "
                ++ city a ++ newline
                ++ "Check Time: " ++ check_time a ++ newline
                ++ newline
                ++ "RAIN PROBABILITY FORECAST (Next 3 Hours):" ++ newline
                ++ lines
                ++ newline
                ++ "SUMMARY:" ++ newline
                ++ "- Maximum Probability: " ++ py_str (max_probability a) ++ "%" ++ newline
                ++ "- Total Expected Precipitation: " ++ py_str (total_precipitation a)
                ++ "mm" ++ newline
                ++ "- Alert Threshold: " ++ py_str (VInt RAIN_THRESHOLD) ++ "%" ++ newline
                ++ "- Testing Mode: " ++ (if TESTING_MODE then "ON" else "OFF") ++ newline
                ++ newline
                ++ (if test
                    then "This is a TEST EMAIL to verify email delivery is working."
                           ++ newline
                    else "This alert was triggered because rain probability is "
                           ++ py_str (VInt RAIN_THRESHOLD)
                           ++ "% or greater within the next 3 hours." ++ newline)).
  { unfold mail_heading, mail_summary, alert_reason.
    destruct test; rewrite !string_app_assoc; reflexivity. }
  assert (Hend : exists before,
            mail_heading test a ++ lines ++ mail_summary test a
              = before ++ (if test
                           then "This is a TEST EMAIL to verify email delivery is working."
                                  ++ newline
                           else "This alert was triggered because rain probability is "
                                  ++ py_str (VInt RAIN_THRESHOLD)
                                  ++ "% or greater within the next 3 hours." ++ newline)).
  { exists (mail_heading test a ++ lines
              ++ newline
              ++ "SUMMARY:" ++ newline
              ++ "- Maximum Probability: " ++ py_str (max_probability a) ++ "%" ++ newline
              ++ "- Total Expected Precipitation: " ++ py_str (total_precipitation a)
              ++ "mm" ++ newline
              ++ "- Alert Threshold: " ++ py_str (VInt RAIN_THRESHOLD) ++ "%" ++ newline
              ++ "- Testing Mode: " ++ (if TESTING_MODE then "ON" else "OFF") ++ newline
              ++ newline).
    unfold mail_summary, alert_reason.
    destruct test; rewrite !string_app_assoc; reflexivity. }
  destruct test.
  - assert (T : TESTING_MODE = true /\
                py_lt (max_probability a) (VInt RAIN_THRESHOLD) = Ok true)
      by now apply Hiff.
    destruct T as [Hmode Hlt].
    repeat apply conj.
    + now intros _.
    + reflexivity.
    + now intros _.
    + reflexivity.
    + now intros _.
    + intros _. exact Hend.
    + reflexivity.
    + intros Hn. now destruct Hn.
    + exists lines. split; [exact Hlines | ]. split.
      * intros _. rewrite Hbody. rewrite Hmode. reflexivity.
      * intros Hn. now destruct Hn.
  - assert (N : ~ (TESTING_MODE = true /\
                   py_lt (max_probability a) (VInt RAIN_THRESHOLD) = Ok true)).
    { intros T. apply Hiff in T. discriminate T. }
    destruct Hend as [before Hend].
    repeat apply conj.
    + discriminate.
    + intros T. now destruct N.
    + discriminate.
    + intros T. now destruct N.
    + intros [before' Hb]. exfalso. rewrite Hend in Hb.
      apply (reason_lines_differ before'
               (before ++ "This alert was triggered because rain probability is "
                  ++ py_str (VInt RAIN_THRESHOLD))).
      rewrite <- Hb, !string_app_assoc. reflexivity.
    + intros T. now destruct N.
    + intros T. now destruct N.
    + intros _. split; [reflexivity | ].
      split; [unfold mail_heading; simpl; apply prefix_nil | ].
      exists before. exact Hend.
    + exists lines. split; [exact Hlines | ]. split.
      * intros T. now destruct N.
      * intros _. exact Hbody.
Qed.

(** ** The orchestrator *)

Lemma run_bind_ok {A B : Type} (m : run A) (k : A -> run B) a :
  snd m = Ok a -> run_bind m k = ((fst m ++ fst (k a))%list, snd (k a)).
Proof. unfold run_bind. now intros ->. Qed.

Lemma run_bind_raise {A B : Type} (m : run A) (k : A -> run B) e :
  snd m = Raise e -> run_bind m k = (fst m, Raise e).
Proof. unfold run_bind. now intros ->. Qed.

Lemma no_mails t : (forall ev, In ev t -> is_send ev = false) -> mails t = [].
Proof.
  induction t as [ | ev t IH]; intros H; [reflexivity | ].
  unfold mails in *. simpl. rewrite (H ev) by now left.
  apply IH. intros ev' Hin. apply H. now right.
Qed.

Lemma fetch_mails http city : mails (fst (fetch_weather_data http city)) = [].
Proof.
  apply no_mails. intros ev Hin. unfold fetch_weather_data in Hin.
  apply retry_events in Hin as [-> | [j Hin]]; [reflexivity | ].
  exact (fetch_once_events _ _ _ Hin).
Qed.

Lemma max_is_number a0 a :
  fresh a0 -> grown a0 a -> is_number (max_probability a) = true.
Proof.
  intros (_ & Hm & _ & _) Hg. induction Hg as [a | a b c Hab IH Hbc].
  - now rewrite Hm.
  - destruct Hbc as [entry over _ Hmax _ _ _ _ _].
    apply py_max_cases in Hmax as [[-> Hgt] | [-> _]]; [ | auto].
    unfold py_gt, compare_with, is_number in *.
    destruct (num_value (max_probability b)); [ | discriminate].
    now destruct (num_value (probability entry)).
Qed.

Lemma is_test_mail_returns t1 t2 data key a :
  analyze_rain_probability t1 t2 data key = Some a ->
  exists test, is_test_mail a = Ok test.
Proof.
  intros Ha. apply analyze_some, analyze_body_grown in Ha as (a0 & Hf & Hg).
  unfold is_test_mail. destruct TESTING_MODE; [ | eauto].
  apply compare_numbers; [exact (max_is_number a0 a Hf Hg) | reflexivity].
Qed.

(** C7: when the analysis raises, whatever the exception,
    [analyze_rain_probability] returns None and no summary; and [main]
    (with [setup_logging] returned), given None for the fetched data, logs
    the error "Failed to analyze weather data" as its last act, sends no
    mail, and returns normally (exit status 0): the exception does not
    leave it. *)
Theorem failed_analysis_ends_the_run_quietly
    (index_time check_now : datetime) (data : json) :
  (forall key e,
     analyze_body index_time check_now data key = Raise e ->
     analyze_rain_probability index_time check_now data key = None) /\
  (forall http smtp,
     snd (fetch_weather_data http DEFAULT_CITY) = Ok data ->
     analyze_rain_probability index_time check_now data DEFAULT_CITY = None ->
     let r := main (Ok tt) index_time check_now http smtp in
     fst r = (Log INFO CheckStarted :: fst (fetch_weather_data http DEFAULT_CITY)
                ++ [Log ERROR FailedToAnalyze])%list /\
     snd r = Ok tt /\
     mails (fst r) = [] /\
     exit_status r = 0).
Proof.
  split.
  - intros key e H. unfold analyze_rain_probability. now rewrite H.
  - intros http smtp Hfetch Hnone r.
    assert (Hr : r = ((Log INFO CheckStarted :: fst (fetch_weather_data http DEFAULT_CITY)
                         ++ [Log ERROR FailedToAnalyze])%list, Ok tt)).
    { subst r. unfold main, main_body.
      rewrite (run_bind_ok (emit _) _ tt eq_refl).
      rewrite (run_bind_ok (fetch_weather_data http DEFAULT_CITY) _ data Hfetch).
      rewrite Hnone. reflexivity. }
    rewrite Hr. cbn [fst snd]. repeat split.
    change (Log INFO CheckStarted :: fst (fetch_weather_data http DEFAULT_CITY)
              ++ [Log ERROR FailedToAnalyze])%list
      with ([Log INFO CheckStarted] ++ fst (fetch_weather_data http DEFAULT_CITY)
              ++ [Log ERROR FailedToAnalyze])%list.
    now rewrite !mails_app, fetch_mails.
Qed.

Lemma snd_run_bind {A B : Type} (m : run A) (k : A -> run B) :
  snd (run_bind m k) = match snd m with Ok a => snd (k a) | Raise e => Raise e end.
Proof. unfold run_bind. now destruct (snd m). Qed.

Lemma main_result t1 t2 http smtp :
  snd (main (Ok tt) t1 t2 http smtp) = snd (main_body t1 t2 http smtp).
Proof.
  unfold main. destruct (snd (main_body t1 t2 http smtp)) eqn:E; [exact E | reflexivity].
Qed.

Lemma exit_status_of_result r : exit_status r = 0 <-> exists u, snd r = Ok u.
Proof.
  unfold exit_status. destruct (snd r); split; eauto; try discriminate.
  intros [u Hu]. discriminate.
Qed.

(** How [main] ends once the data arrived and the analysis returned a
    summary that asks for an alert. *)
Lemma main_result_of_alert t1 t2 http smtp data a :
  snd (fetch_weather_data http DEFAULT_CITY) = Ok data ->
  analyze_rain_probability t1 t2 data DEFAULT_CITY = Some a ->
  alert_triggered a = true ->
  snd (main (Ok tt) t1 t2 http smtp)
    = match snd (send_rain_alert_email smtp a) with
      | Ok _ => Ok tt
      | Raise e => Raise e
      end.
Proof.
  intros Hfetch Ha Halert. rewrite main_result. unfold main_body.
  rewrite !snd_run_bind. cbn [emit snd]. rewrite Hfetch, Ha, Halert.
  destruct (is_test_mail_returns _ _ _ _ _ Ha) as [test Htest].
  rewrite !snd_run_bind. cbn [pure snd]. rewrite Htest.
  rewrite !snd_run_bind. cbn [emit snd].
  now destruct (snd (send_rain_alert_email smtp a)).
Qed.

Lemma main_result_without_alert t1 t2 http smtp data :
  snd (fetch_weather_data http DEFAULT_CITY) = Ok data ->
  (analyze_rain_probability t1 t2 data DEFAULT_CITY = None \/
   exists a, analyze_rain_probability t1 t2 data DEFAULT_CITY = Some a /\
             alert_triggered a = false) ->
  snd (main (Ok tt) t1 t2 http smtp) = Ok tt.
Proof.
  intros Hfetch Hcases. rewrite main_result. unfold main_body.
  rewrite !snd_run_bind. cbn [emit snd]. rewrite Hfetch.
  destruct Hcases as [-> | (a & -> & Halert)]; [reflexivity | ].
  rewrite !snd_run_bind. now rewrite Halert.
Qed.

Lemma main_result_of_failed_fetch t1 t2 http smtp e :
  snd (fetch_weather_data http DEFAULT_CITY) = Raise e ->
  snd (main (Ok tt) t1 t2 http smtp) = Raise e.
Proof.
  intros Hfetch. rewrite main_result. unfold main_body.
  rewrite !snd_run_bind. cbn [emit snd]. now rewrite Hfetch.
Qed.

Lemma run_bind_events {A B : Type} (m : run A) (k : A -> run B) ev :
  In ev (fst (run_bind m k)) ->
  In ev (fst m) \/ exists a, snd m = Ok a /\ In ev (fst (k a)).
Proof.
  unfold run_bind. destruct (snd m) as [a | e]; simpl; [ | tauto].
  intros Hin. apply in_app_or in Hin as [Hin | Hin]; eauto.
Qed.

Lemma send_events smtp a ev :
  In ev (fst (send_rain_alert_email smtp a)) -> is_send ev = true ->
  exists subject content,
    build_message a = Ok (subject, content) /\
    ev = SendMail EMAIL_RECIPIENT subject content.
Proof.
  intros Hin Hsend. unfold send_rain_alert_email in Hin.
  apply retry_events in Hin as [-> | [j Hin]]; [discriminate | ].
  exact (send_once_events _ _ _ Hin).
Qed.

Lemma status_of_raise (r : run unit) e :
  snd r = Raise e -> snd r = Raise e /\ exit_status r = 1.
Proof. intros He. split; [exact He | ]. unfold exit_status. rewrite He. reflexivity. Qed.

Lemma status_of_return (r : run unit) :
  snd r = Ok tt -> snd r = Ok tt /\ exit_status r = 0.
Proof. intros He. split; [exact He | ]. unfold exit_status. rewrite He. reflexivity. Qed.

(** The run when the fetch gave up: the start marker, the fifteen GETs with
    their pauses, the failure line. *)
Lemma main_trace_of_failed_fetch t1 t2 http smtp e :
  never_succeeds (fun j => fetch_weather_data_once DEFAULT_CITY (http j)) 15 e ->
  main (Ok tt) t1 t2 http smtp
    = ((Log INFO CheckStarted
          :: attempts_and_pauses [HttpGet (address_of DEFAULT_CITY)] 15 14
          ++ [Log ERROR (CheckFailed (RetryError e))])%list,
       Raise (RetryError e)).
Proof.
  intros Hnever. unfold main, main_body.
  rewrite (run_bind_ok (emit _) _ tt eq_refl).
  rewrite (run_bind_raise (fetch_weather_data http DEFAULT_CITY) _ (RetryError e))
    by now rewrite (fetch_trace_of_failure _ _ _ Hnever).
  rewrite (fetch_trace_of_failure _ _ _ Hnever). reflexivity.
Qed.

(** C8, as the code has it: the retry policy around the fetch and around
    the send.  When the first k attempts raise (whatever they raise) and
    attempt k + 1 <= 15 returns, the operation returns that attempt's
    result; what it did is attempt, pause of 15, attempt, ..., attempt: k + 1
    attempts with one pause between an attempt and the next, none before the
    first and none after the last.  When all fifteen attempts raise, it did
    fifteen attempts with the fourteen pauses between them and raises
    tenacity's RetryError, which carries the fifteenth attempt's exception:
    the final error itself does not leave the operation.  In [main], once
    [setup_logging] has returned: a fetch or a send that gave up makes the
    run end with that RetryError and a non-zero status; with the fetch
    returned, and no alert due or the send returned, the run ends normally
    with status 0. *)
Theorem retry_policy
    (index_time check_now : datetime) (http : nat -> response)
    (smtp : nat -> result unit) (city_key : string) (a : analysis) :
  let fetch_call := fun j => fetch_weather_data_once city_key (http j) in
  let send_call := fun j => send_rain_alert_email_once (smtp j) a in
  let default_call := fun j => fetch_weather_data_once DEFAULT_CITY (http j) in
  let r := main (Ok tt) index_time check_now http smtp in
  (forall k data, (k < 15)%nat -> first_success fetch_call k data ->
     snd (fetch_weather_data http city_key) = Ok data /\
     fst (fetch_weather_data http city_key)
       = attempts_and_pauses [HttpGet (address_of city_key)] 15 k /\
     gets (fst (fetch_weather_data http city_key)) = S k /\
     pauses (fst (fetch_weather_data http city_key)) = repeat 15%nat k) /\
  (forall e, never_succeeds fetch_call 15 e ->
     snd (fetch_weather_data http city_key) = Raise (RetryError e) /\
     fst (fetch_weather_data http city_key)
       = attempts_and_pauses [HttpGet (address_of city_key)] 15 14 /\
     gets (fst (fetch_weather_data http city_key)) = 15%nat /\
     pauses (fst (fetch_weather_data http city_key)) = repeat 15%nat 14) /\
  (forall k, (k < 15)%nat -> first_success send_call k tt ->
     snd (send_rain_alert_email smtp a) = Ok tt /\
     (exists subject content,
        build_message a = Ok (subject, content) /\
        fst (send_rain_alert_email smtp a)
          = attempts_and_pauses [SendMail EMAIL_RECIPIENT subject content] 15 k) /\
     pauses (fst (send_rain_alert_email smtp a)) = repeat 15%nat k /\
     List.length (mails (fst (send_rain_alert_email smtp a))) = S k) /\
  (forall e, never_succeeds send_call 15 e ->
     snd (send_rain_alert_email smtp a) = Raise (RetryError e) /\
     fst (send_rain_alert_email smtp a) = attempts_and_pauses (mail_attempt a) 15 14 /\
     pauses (fst (send_rain_alert_email smtp a)) = repeat 15%nat 14) /\
  (forall e, never_succeeds default_call 15 e ->
     snd r = Raise (RetryError e) /\ exit_status r = 1 /\
     fst r = (Log INFO CheckStarted
                :: attempts_and_pauses [HttpGet (address_of DEFAULT_CITY)] 15 14
                ++ [Log ERROR (CheckFailed (RetryError e))])%list) /\
  (forall k data e, (k < 15)%nat -> first_success default_call k data ->
     analyze_rain_probability index_time check_now data DEFAULT_CITY = Some a ->
     alert_triggered a = true ->
     never_succeeds send_call 15 e ->
     snd r = Raise (RetryError e) /\ exit_status r = 1) /\
  (forall k data, (k < 15)%nat -> first_success default_call k data ->
     (analyze_rain_probability index_time check_now data DEFAULT_CITY = None \/
      (exists a', analyze_rain_probability index_time check_now data DEFAULT_CITY = Some a' /\
                  alert_triggered a' = false) \/
      (analyze_rain_probability index_time check_now data DEFAULT_CITY = Some a /\
       alert_triggered a = true /\
       exists k', (k' < 15)%nat /\ first_success send_call k' tt)) ->
     snd r = Ok tt /\ exit_status r = 0).
Proof.
  cbv zeta. repeat apply conj.
  - intros k data Hk Hfirst.
    destruct (fetch_returns http city_key k data Hk Hfirst) as (Hs & Hg & Hp).
    split; [exact Hs | ]. split; [ | split; [exact Hg | exact Hp] ].
    now rewrite (fetch_trace_of_return _ _ _ _ Hk Hfirst).
  - intros e Hnever.
    destruct (fetch_gives_up http city_key e Hnever) as (Hs & Hg & Hp).
    split; [exact Hs | ]. split; [ | split; [exact Hg | exact Hp] ].
    now rewrite (fetch_trace_of_failure _ _ _ Hnever).
  - intros k Hk Hfirst.
    destruct (send_returns smtp a k Hk Hfirst) as (Hs & Hp & subject & content & Hb & Hm).
    split; [exact Hs | ]. split; [ | split; [exact Hp | ] ].
    + exists subject, content. split; [exact Hb | ].
      rewrite (send_trace_of_return _ _ _ Hk Hfirst). cbn [fst].
      unfold mail_attempt. now rewrite Hb.
    + rewrite Hm. apply repeat_length.
  - intros e Hnever.
    destruct (send_gives_up smtp a e Hnever) as (Hs & Hp).
    split; [exact Hs | ]. split; [ | exact Hp].
    now rewrite (send_trace_of_failure _ _ _ Hnever).
  - intros e Hnever. rewrite (main_trace_of_failed_fetch _ _ _ _ _ Hnever).
    split; [reflexivity | ]. split; reflexivity.
  - intros k data e Hk Hfirst Ha Halert Hnever. apply status_of_raise.
    destruct (fetch_returns http DEFAULT_CITY k data Hk Hfirst) as [Hfetch _].
    rewrite (main_result_of_alert _ _ _ _ _ _ Hfetch Ha Halert).
    destruct (send_gives_up smtp a e Hnever) as [Hsend _].
    rewrite Hsend. reflexivity.
  - intros k data Hk Hfirst Hcases. apply status_of_return.
    destruct (fetch_returns http DEFAULT_CITY k data Hk Hfirst) as [Hfetch _].
    destruct Hcases as [Hnone | [Hquiet | (Ha & Halert & k' & Hk' & Hsend)]].
    + apply (main_result_without_alert _ _ _ _ _ Hfetch). left. exact Hnone.
    + apply (main_result_without_alert _ _ _ _ _ Hfetch). right. exact Hquiet.
    + rewrite (main_result_of_alert _ _ _ _ _ _ Hfetch Ha Halert).
      destruct (send_returns smtp a k' Hk' Hsend) as [Hok _].
      rewrite Hok. reflexivity.
Qed.

(** C10: in every summary [analyze_rain_probability] returns, a true alert
    flag comes with at least one hour-detail entry; and every mail a run of
    [main], however [setup_logging] ended, hands to the mail service was
    built from a returned summary whose alert flag is true and whose entry
    list is not empty. *)
Theorem alert_comes_with_an_hour (index_time check_now : datetime) :
  (forall data key a,
     analyze_rain_probability index_time check_now data key = Some a ->
     alert_triggered a = true ->
     hours_data a <> []) /\
  (forall logging http smtp recipient subject content,
     In (SendMail recipient subject content)
        (fst (main logging index_time check_now http smtp)) ->
     exists data a,
       snd (fetch_weather_data http DEFAULT_CITY) = Ok data /\
       analyze_rain_probability index_time check_now data DEFAULT_CITY = Some a /\
       alert_triggered a = true /\
       hours_data a <> [] /\
       build_message a = Ok (subject, content)).
Proof.
  assert (Hfirst : forall data key a,
     analyze_rain_probability index_time check_now data key = Some a ->
     alert_triggered a = true -> hours_data a <> []).
  { intros data key a Ha Halert.
    apply analyze_some, analyze_body_grown in Ha as (a0 & Hf & Hg).
    now apply (alert_invariant a0 a Hf Hg) in Halert as [Hne _]. }
  split; [exact Hfirst | ].
  intros logging http smtp recipient subject content Hin.
  assert (Hbody : In (SendMail recipient subject content)
                     (fst (main_body index_time check_now http smtp))).
  { unfold main in Hin. destruct logging as [u | e']; [ | destruct Hin].
    destruct (snd (main_body index_time check_now http smtp)); [exact Hin | ].
    cbn [fst] in Hin. apply in_app_or in Hin as [Hin | [Hin | []]]; [exact Hin | discriminate]. }
  clear Hin. unfold main_body in Hbody.
  apply run_bind_events in Hbody as [[Hin | []] | (_ & _ & Hbody)]; [discriminate | ].
  apply run_bind_events in Hbody as [Hin | (data & Hfetch & Hbody)].
  { assert (Hm : In (SendMail recipient subject content)
                    (mails (fst (fetch_weather_data http DEFAULT_CITY))))
      by (apply filter_In; auto).
    rewrite fetch_mails in Hm. destruct Hm. }
  destruct (analyze_rain_probability index_time check_now data DEFAULT_CITY)
    as [a | ] eqn:Ha; [ | destruct Hbody as [Hin | []]; discriminate].
  apply run_bind_events in Hbody as [Hbody | (_ & _ & [Hin | []])]; [ | discriminate].
  destruct (alert_triggered a) eqn:Halert; [ | destruct Hbody as [Hin | []]; discriminate].
  apply run_bind_events in Hbody as [[] | (test & _ & Hbody)].
  apply run_bind_events in Hbody as [[Hin | []] | (_ & _ & Hbody)]; [discriminate | ].
  apply send_events in Hbody as (s & c & Hbuild & Heq); [ | reflexivity].
  injection Heq as _ <- <-.
  exists data, a. repeat split; eauto.
Qed.

(** * Further properties *)

(** ** The retry loop, whatever the attempts do *)

Section RetryOutcome.

Context {A : Type}.
Variable wait : nat.
Variable call : nat -> run A.

(** Either some attempt is the first to return, or every attempt raises. *)
Lemma retry_from_outcome : forall more n,
  (exists k a, (k <= more)%nat /\
     (forall j, (j < k)%nat -> exists e, snd (call (n + j)) = Raise e) /\
     snd (call (n + k)) = Ok a) \/
  (exists e,
     (forall j, (j < more)%nat -> exists e', snd (call (n + j)) = Raise e') /\
     snd (call (n + more)) = Raise e).
Proof.
  induction more as [ | more IH]; intros n.
  - destruct (snd (call n)) as [a | e] eqn:E.
    + left. exists 0%nat, a. rewrite Nat.add_0_r. repeat split; auto. intros j Hj. lia.
    + right. exists e. rewrite Nat.add_0_r. split; auto. intros j Hj. lia.
  - destruct (snd (call n)) as [a | e] eqn:E.
    + left. exists 0%nat, a. rewrite Nat.add_0_r. split; [lia | ]. split; [ | exact E].
      intros j Hj. lia.
    + destruct (IH (S n)) as [(k & a & Hk & Hfail & Hok) | (e' & Hfail & Hlast)].
      * left. exists (S k), a. split; [lia | ]. split.
        -- intros [ | j] Hj; [rewrite Nat.add_0_r; eauto | ].
           rewrite Nat.add_succ_r. apply Hfail. lia.
        -- now rewrite Nat.add_succ_r.
      * right. exists e'. split.
        -- intros [ | j] Hj; [rewrite Nat.add_0_r; eauto | ].
           rewrite Nat.add_succ_r. apply Hfail. lia.
        -- now rewrite Nat.add_succ_r.
Qed.

Lemma retry_outcome stop :
  (0 < stop)%nat ->
  (exists k a, (k < stop)%nat /\ first_success call k a) \/
  (exists e, never_succeeds call stop e).
Proof.
  intros Hs.
  destruct (retry_from_outcome (stop - 1) 1)
    as [(k & a & Hk & Hfail & Hok) | (e & Hfail & Hlast)].
  - left. exists k, a. split; [lia | ]. split; [ | exact Hok].
    intros j Hj. destruct (Hfail (j - 1)%nat) as [e He]; [lia | ].
    replace (1 + (j - 1))%nat with j in He by lia. eauto.
  - right. exists e. replace (1 + (stop - 1))%nat with stop in Hlast by lia.
    split; [ | exact Hlast].
    intros j Hj. destruct (Nat.eq_dec j stop) as [-> | Hne]; [eauto | ].
    destruct (Hfail (j - 1)%nat) as [e' He']; [lia | ].
    replace (1 + (j - 1))%nat with j in He' by lia. eauto.
Qed.

Lemma retry_from_ext (call' : nat -> run A) :
  (forall k, call k = call' k) ->
  forall more n, retry_from wait call n more = retry_from wait call' n more.
Proof.
  intros Hext. induction more as [ | more IH]; intros n; simpl; rewrite Hext.
  - reflexivity.
  - destruct (call' n) as [t [a | e]]; [reflexivity | ]. now rewrite IH.
Qed.

End RetryOutcome.

(** ** The forecast client, whatever the network does *)

Lemma fetch_once_unknown_city city_key r :
  find_city city_key CITIES = None ->
  fetch_weather_data_once city_key r = fetch_weather_data_once DEFAULT_CITY r.
Proof. intros H. unfold fetch_weather_data_once. now rewrite H. Qed.

Lemma fetch_once_address city_key r c :
  find_city city_key CITIES = Some c ->
  fst (fetch_weather_data_once city_key r) = [HttpGet (url c)].
Proof.
  intros H. unfold fetch_weather_data_once. rewrite H, H. now destruct r.
Qed.

(** X1: a city key that is not in the table is replaced by the default
    one: the fetch is the fetch for Madison, attempt for attempt, and every
    GET of it goes to Madison's address. *)
Theorem unknown_city_falls_back_to_default (http : nat -> response) (city_key : string) :
  find_city city_key CITIES = None ->
  fetch_weather_data http city_key = fetch_weather_data http DEFAULT_CITY /\
  exists c, find_city "madison" CITIES = Some c /\ name c = "Madison" /\
    forall ev, In ev (fst (fetch_weather_data http city_key)) ->
      ev = Sleep 15 \/ ev = HttpGet (url c).
Proof.
  intros Hnone.
  assert (Heq : fetch_weather_data http city_key = fetch_weather_data http DEFAULT_CITY).
  { unfold fetch_weather_data, retry. apply retry_from_ext.
    intros k. now apply fetch_once_unknown_city. }
  split; [exact Heq | ].
  eexists. split; [reflexivity | ]. split; [reflexivity | ].
  intros ev Hin. rewrite Heq in Hin. unfold fetch_weather_data in Hin.
  apply retry_events in Hin as [-> | [j Hin]]; [now left | right].
  rewrite (fetch_once_address DEFAULT_CITY (http j) _ eq_refl) in Hin.
  destruct Hin as [<- | []]. reflexivity.
Qed.

Lemma validate_returns_input data d : validate data = Ok d -> d = data.
Proof.
  unfold validate. intros H.
  destruct (py_contains "hourly" data) as [[ | ] | e]; cbn [bind negb] in H;
    try discriminate.
  destruct (py_getitem data "hourly") as [hourly | e]; cbn [bind] in H; try discriminate.
  destruct (py_contains "precipitation_probability" hourly) as [[ | ] | e];
    cbn [bind negb] in H; try discriminate.
  now injection H as <-.
Qed.

(** X2: whatever the network answers, what a fetch does is GET, pause of
    15, GET, ..., GET, all to the one address of the city: between 1 and 15
    GETs at the even positions, a pause of 15 at every odd position, so a
    pause between two consecutive GETs and none before the first or after
    the last; it sends no mail; what it returns is the body of its last
    GET, unchanged and valid; and it raises only after the fifteenth GET, a
    RetryError that carries that attempt's exception. *)
Theorem fetch_attempts_are_bounded (http : nat -> response) (city_key : string) :
  let r := fetch_weather_data http city_key in
  (1 <= gets (fst r) <= 15)%nat /\
  fst r = attempts_and_pauses [HttpGet (address_of city_key)] 15 (gets (fst r) - 1) /\
  List.length (fst r) = (2 * gets (fst r) - 1)%nat /\
  (forall i, (i < List.length (fst r))%nat ->
     nth_error (fst r) i
       = Some (if Nat.even i then HttpGet (address_of city_key) else Sleep 15)) /\
  pauses (fst r) = repeat 15%nat (gets (fst r) - 1) /\
  mails (fst r) = [] /\
  (forall data, snd r = Ok data ->
     http (gets (fst r)) = Body data /\ validate data = Ok data) /\
  (forall e, snd r = Raise e ->
     gets (fst r) = 15%nat /\
     exists e', e = RetryError e' /\
       snd (fetch_weather_data_once city_key (http 15%nat)) = Raise e').
Proof.
  cbv zeta.
  assert (Hshape : forall k,
            fst (fetch_weather_data http city_key)
              = attempts_and_pauses [HttpGet (address_of city_key)] 15 k ->
            List.length (fst (fetch_weather_data http city_key)) = (2 * S k - 1)%nat /\
            forall i, (i < List.length (fst (fetch_weather_data http city_key)))%nat ->
              nth_error (fst (fetch_weather_data http city_key)) i
                = Some (if Nat.even i then HttpGet (address_of city_key) else Sleep 15)).
  { intros k ->. rewrite alternation_length. split; [lia | ].
    intros i Hi. now apply alternation_nth. }
  destruct (retry_outcome (fun j => fetch_weather_data_once city_key (http j)) 15)
    as [(k & a & Hk & Hfirst) | (e & Hnever)]; [lia | | ].
  - destruct (fetch_returns http city_key k a Hk Hfirst) as (Hs & Hg & Hp).
    assert (Ht : fst (fetch_weather_data http city_key)
                 = attempts_and_pauses [HttpGet (address_of city_key)] 15 k)
      by now rewrite (fetch_trace_of_return _ _ _ _ Hk Hfirst).
    destruct (Hshape k Ht) as [Hlen Hnth].
    rewrite Hs, Hg, Hp. replace (S k - 1)%nat with k by lia.
    split; [lia | ]. split; [exact Ht | ]. split; [exact Hlen | ]. split; [exact Hnth | ].
    split; [reflexivity | ]. split; [apply fetch_mails | ].
    split; [ | discriminate].
    intros data Hdata. injection Hdata as <-.
    destruct Hfirst as [_ Hok]. rewrite fetch_once_result in Hok.
    destruct (http (S k)) as [e | body]; [discriminate | ].
    pose proof (validate_returns_input _ _ Hok) as ->. auto.
  - destruct (fetch_gives_up http city_key e Hnever) as (Hs & Hg & Hp).
    assert (Ht : fst (fetch_weather_data http city_key)
                 = attempts_and_pauses [HttpGet (address_of city_key)] 15 14)
      by now rewrite (fetch_trace_of_failure _ _ _ Hnever).
    destruct (Hshape 14%nat Ht) as [Hlen Hnth].
    rewrite Hs, Hg, Hp.
    split; [lia | ]. split; [exact Ht | ]. split; [exact Hlen | ]. split; [exact Hnth | ].
    split; [reflexivity | ]. split; [apply fetch_mails | ].
    split; [discriminate | ].
    intros e0 He0. injection He0 as <-. split; [reflexivity | ].
    exists e. split; [reflexivity | apply Hnever].
Qed.

(** X3: the validation accepts a body exactly when the body is a JSON
    object with an "hourly" member in which "precipitation_probability"
    occurs: as a key when that member is an object, but also as an element
    when it is a list and as a substring when it is a string; an accepted
    body is returned as it is, and no other body is. *)
Theorem validation_accepts_exactly (data d : json) :
  validate data = Ok d <->
  d = data /\
  exists kvs hourly,
    data = VDict kvs /\ lookup "hourly" kvs = Some hourly /\
    py_contains "precipitation_probability" hourly = Ok true.
Proof.
  split.
  - intros H. split; [exact (validate_returns_input _ _ H) | ].
    unfold validate in H.
    destruct data as [ | b | z | f | s | l | kvs]; try discriminate.
    + simpl in H. destruct (is_substring "hourly" s); discriminate.
    + simpl in H. destruct (existsb (str_equal "hourly") l); discriminate.
    + exists kvs. simpl in H.
      destruct (lookup "hourly" kvs) as [hourly | ]; [ | discriminate].
      exists hourly. cbn [bind negb] in H.
      destruct (py_contains "precipitation_probability" hourly) as [[ | ] | e];
        try discriminate. auto.
  - intros (-> & kvs & hourly & -> & Hh & Hp).
    unfold validate. simpl. rewrite Hh. cbn [bind negb]. rewrite Hp. reflexivity.
Qed.


(** ** The current hour, read back from the result *)

Lemma scan_times_found p items : forall i0 k,
  scan_times p items i0 = Ok (Some k) ->
  (i0 <= k)%nat /\
  exists t, nth_error items (k - i0) = Some (VStr t) /\ prefix p t = true /\
    forall j, (j < k - i0)%nat ->
      exists s, nth_error items j = Some (VStr s) /\ prefix p s = false.
Proof.
  induction items as [ | x rest IH]; intros i0 k H; [discriminate | ].
  simpl in H. destruct x as [ | | | | s | | ]; try discriminate. simpl in H.
  destruct (prefix p s) eqn:Hp.
  - injection H as <-. split; [lia | ]. rewrite Nat.sub_diag.
    exists s. repeat split; auto. intros j Hj. lia.
  - apply IH in H as (Hle & t & Ht & Hpt & Hbefore). split; [lia | ].
    exists t. replace (k - i0)%nat with (S (k - S i0)) by lia.
    repeat split; auto.
    intros [ | j] Hj; [exists s; auto | ]. apply Hbefore. lia.
Qed.

Lemma scan_times_not_found p items : forall i0,
  scan_times p items i0 = Ok None ->
  forall v, In v items -> exists s, v = VStr s /\ prefix p s = false.
Proof.
  induction items as [ | x rest IH]; intros i0 H v Hin; [destruct Hin | ].
  simpl in H. destruct x as [ | | | | s | | ]; try discriminate. simpl in H.
  destruct (prefix p s) eqn:Hp; [discriminate | ].
  destruct Hin as [<- | Hin]; eauto.
Qed.

(** X4: whenever the lookup of the current hour returns an index without
    raising, the timestamps could be iterated and either the index is the
    position of the first item that starts with the current hour string,
    all items before it being strings that do not, or no item starts with
    it, all items are strings, and the index is the hour of the day. *)
Theorem resolved_index_is_first_match_or_hour
    (current_time : datetime) (data : json) (k : nat) :
  current_hour_lookup current_time data = Ok k ->
  let p := substring 0 13 (strftime_hour current_time) in
  get_current_hour_index current_time data = k /\
  exists hourly times items,
    py_getitem data "hourly" = Ok hourly /\
    py_getitem hourly "time" = Ok times /\
    py_iter times = Ok items /\
    ((exists t, nth_error items k = Some (VStr t) /\ prefix p t = true /\
        forall j, (j < k)%nat ->
          exists s, nth_error items j = Some (VStr s) /\ prefix p s = false)
     \/
     (k = hour current_time /\
      forall v, In v items -> exists s, v = VStr s /\ prefix p s = false)).
Proof.
  intros H p. split; [unfold get_current_hour_index; now rewrite H | ].
  unfold current_hour_lookup in H. fold p in H.
  destruct (py_getitem data "hourly") as [hourly | e] eqn:Eh;
    cbn [bind] in H; [ | discriminate].
  destruct (py_getitem hourly "time") as [times | e] eqn:Et;
    cbn [bind] in H; [ | discriminate].
  destruct (py_iter times) as [items | e] eqn:Ei; cbn [bind] in H; [ | discriminate].
  exists hourly, times, items.
  split; [reflexivity | ]. split; [exact Et | ]. split; [exact Ei | ].
  destruct (scan_times p items 0) as [[i | ] | e] eqn:Hscan; cbn [bind] in H;
    try discriminate; injection H as <-.
  - left. apply scan_times_found in Hscan as (_ & t & Ht & Hp & Hbefore).
    rewrite Nat.sub_0_r in *. eauto.
  - right. split; [reflexivity | ]. now apply scan_times_not_found with 0%nat.
Qed.

(** ** Timestamps of the current day *)

Lemma digit_mod a b : digit a = digit b -> (a mod 10 = b mod 10)%nat.
Proof.
  unfold digit. intros H. apply (f_equal nat_of_ascii) in H.
  pose proof (Nat.mod_upper_bound a 10). pose proof (Nat.mod_upper_bound b 10).
  rewrite !nat_ascii_embedding in H by lia. lia.
Qed.

Lemma pad2_inj n m : (n < 100)%nat -> (m < 100)%nat -> pad2 n = pad2 m -> n = m.
Proof.
  intros Hn Hm H. unfold pad2 in H. injection H as H1 H2.
  apply digit_mod in H1, H2.
  change (fst (Nat.divmod n 9 0 9)) with (n / 10)%nat in H1.
  change (fst (Nat.divmod m 9 0 9)) with (m / 10)%nat in H1.
  pose proof (Nat.div_mod_eq n 10). pose proof (Nat.div_mod_eq m 10).
  pose proof (Nat.Div0.div_lt_upper_bound n 10 10).
  pose proof (Nat.Div0.div_lt_upper_bound m 10 10).
  assert (Hn' : ((n / 10) mod 10 = n / 10)%nat) by (apply Nat.mod_small; lia).
  assert (Hm' : ((m / 10) mod 10 = m / 10)%nat) by (apply Nat.mod_small; lia).
  lia.
Qed.

Lemma append_inv_head s a b : s ++ a = s ++ b -> a = b.
Proof.
  induction s as [ | c s IH]; simpl; intros H; [exact H | ].
  injection H as H. auto.
Qed.

Lemma hour_prefix_shape t :
  substring 0 13 (strftime_hour t)
    = (pad4 (year t) ++ "-" ++ pad2 (month t) ++ "-" ++ pad2 (day t) ++ "T")
        ++ pad2 (hour t).
Proof. reflexivity. Qed.

Lemma hour_stamp_head t h :
  substring 0 13 (strftime_hour (with_hour t h))
    = (pad4 (year t) ++ "-" ++ pad2 (month t) ++ "-" ++ pad2 (day t) ++ "T")
        ++ pad2 h.
Proof. reflexivity. Qed.

Lemma hour_prefix_length t : String.length (substring 0 13 (strftime_hour t)) = 13%nat.
Proof. reflexivity. Qed.

(** The timestamp of hour [h] of [t]'s day starts with the current hour
    string of [t] exactly when [h] is [t]'s hour. *)
Lemma hour_stamp_matches t h :
  (hour t < 100)%nat -> (h < 100)%nat ->
  prefix (substring 0 13 (strftime_hour t)) (strftime_hour (with_hour t h)) = true
  <-> h = hour t.
Proof.
  intros Ht Hh.
  rewrite prefix_correct, hour_prefix_length, hour_stamp_head, hour_prefix_shape.
  split.
  - intros H. apply append_inv_head in H. now apply pad2_inj.
  - intros ->. reflexivity.
Qed.

Lemma hour_stamp_differs t h :
  (hour t < 100)%nat -> (h < 100)%nat -> h <> hour t ->
  prefix (substring 0 13 (strftime_hour t)) (strftime_hour (with_hour t h)) = false.
Proof.
  intros Ht Hh Hne.
  destruct (prefix _ _) eqn:E; [ | reflexivity].
  apply hour_stamp_matches in E; auto. contradiction.
Qed.

Lemma nth_hour_stamp t first count j :
  (j < count)%nat ->
  nth_error (hour_stamps t first count) j
    = Some (VStr (strftime_hour (with_hour t (first + j)))).
Proof.
  intros Hj. unfold hour_stamps.
  rewrite nth_error_map, nth_error_nth' with (d := 0%nat) by (rewrite length_seq; lia).
  now rewrite seq_nth.
Qed.

(** X5: when the forecast holds the timestamps of [count] consecutive hours
    of the current day, beginning with hour [first], the index is the
    offset [hour - first] of the current hour when that hour is in the
    series, and the bare hour of the day when it is not: in that case the
    index does not point at the current hour. *)
Theorem index_in_a_series_of_the_day
    (current_time : datetime) (data hourly : json) (first count : nat) :
  (hour current_time < 24)%nat ->
  (first + count <= 24)%nat ->
  py_getitem data "hourly" = Ok hourly ->
  py_getitem hourly "time" = Ok (VList (hour_stamps current_time first count)) ->
  ((first <= hour current_time < first + count)%nat ->
   get_current_hour_index current_time data = (hour current_time - first)%nat) /\
  (~ (first <= hour current_time < first + count)%nat ->
   get_current_hour_index current_time data = hour current_time).
Proof.
  intros Hhour Hday Hh Ht.
  unfold get_current_hour_index, current_hour_lookup.
  rewrite Hh. cbn [bind]. rewrite Ht. cbn [bind py_iter]. split.
  - intros Hin.
    rewrite (scan_times_hit _ _ 0 (hour current_time - first)
               (strftime_hour (with_hour current_time (first + (hour current_time - first))))).
    + reflexivity.
    + intros j Hj. eexists. split; [apply nth_hour_stamp; lia | ].
      apply hour_stamp_differs; lia.
    + apply nth_hour_stamp. lia.
    + apply hour_stamp_matches; lia.
  - intros Hout. rewrite scan_times_miss; [reflexivity | ].
    intros v Hv. unfold hour_stamps in Hv. apply in_map_iff in Hv as (h & <- & Hseq).
    apply in_seq in Hseq. eexists. split; [reflexivity | ].
    apply hour_stamp_differs; lia.
Qed.


(** ** The analyzer on any body *)

Lemma analyze_hour_entry times ps qs i acc o acc' :
  analyze_hour times ps qs i acc o = Ok acc' ->
  acc' = acc \/
  exists e, hours_data acc' = (hours_data acc ++ [e])%list /\
    py_index times (i + o) = Ok (time e) /\
    py_index ps (i + o) = Ok (probability e) /\
    py_index qs (i + o) = Ok (precipitation e).
Proof.
  unfold analyze_hour. intros H.
  destruct (py_len times) as [n | e]; cbn [bind] in H; [ | discriminate].
  destruct (_ <? _)%nat; [ | injection H as <-; now left].
  destruct (py_index times (i + o)) as [t | e]; cbn [bind] in H; [ | discriminate].
  destruct (py_index ps (i + o)) as [pr | e]; cbn [bind] in H; [ | discriminate].
  destruct (py_index qs (i + o)) as [q | e]; cbn [bind] in H; [ | discriminate].
  bind_inv. injection H as <-. right. eexists. simpl. eauto.
Qed.

Lemma analyze_hours_entries times ps qs i offsets : forall acc acc',
  analyze_hours times ps qs i acc offsets = Ok acc' ->
  exists added, hours_data acc' = (hours_data acc ++ added)%list /\
    (List.length added <= List.length offsets)%nat /\
    forall e, In e added ->
      exists o, In o offsets /\
        py_index times (i + o) = Ok (time e) /\
        py_index ps (i + o) = Ok (probability e) /\
        py_index qs (i + o) = Ok (precipitation e).
Proof.
  induction offsets as [ | o rest IH]; simpl; intros acc acc' H.
  - injection H as <-. exists []. rewrite app_nil_r. repeat split; auto.
    intros e [].
  - destruct (analyze_hour times ps qs i acc o) as [acc1 | e] eqn:E;
      cbn [bind] in H; [ | discriminate].
    apply IH in H as (added & Hh & Hlen & Hall).
    apply analyze_hour_entry in E as [-> | (e & He & Ht & Hp & Hq)].
    + exists added. repeat split; auto. intros e He.
      destruct (Hall e He) as (o' & Ho' & Hrest). exists o'. auto.
    + exists (e :: added). rewrite Hh, He, <- app_assoc. repeat split; simpl; try lia.
      intros e' [<- | He'].
      * exists o. auto.
      * destruct (Hall e' He') as (o' & Ho' & Hrest). exists o'. auto.
Qed.

(** X6: for any body whatever, a returned summary means that the four
    members "hourly", "time", "precipitation_probability" and
    "precipitation" were there, that at most three hour-detail entries were
    recorded, and that each entry holds what the three arrays hold at one
    position among the index and the two after it. *)
Theorem summary_entries_come_from_the_window
    (index_time check_now : datetime) (data : json) (key : string) (a : analysis) :
  analyze_rain_probability index_time check_now data key = Some a ->
  exists hourly times ps qs,
    py_getitem data "hourly" = Ok hourly /\
    py_getitem hourly "time" = Ok times /\
    py_getitem hourly "precipitation_probability" = Ok ps /\
    py_getitem hourly "precipitation" = Ok qs /\
    (List.length (hours_data a) <= 3)%nat /\
    forall e, In e (hours_data a) ->
      exists k, (k < 3)%nat /\
        let j := (get_current_hour_index index_time data + k)%nat in
        py_index times j = Ok (time e) /\
        py_index ps j = Ok (probability e) /\
        py_index qs j = Ok (precipitation e).
Proof.
  intros Ha. apply analyze_some in Ha. unfold analyze_body in Ha.
  destruct (py_getitem data "hourly") as [hourly | e] eqn:Eh;
    cbn [bind] in Ha; [ | discriminate].
  destruct (py_getitem hourly "time") as [times | e] eqn:Et;
    cbn [bind] in Ha; [ | discriminate].
  destruct (py_getitem hourly "precipitation_probability") as [ps | e] eqn:Ep;
    cbn [bind] in Ha; [ | discriminate].
  destruct (py_getitem hourly "precipitation") as [qs | e] eqn:Eq;
    cbn [bind] in Ha; [ | discriminate].
  apply analyze_hours_entries in Ha as (added & Hh & Hlen & Hall).
  cbn [hours_data app] in Hh. rewrite Hh.
  exists hourly, times, ps, qs. repeat split; auto.
  intros e He. destruct (Hall e He) as (o & Ho & Hrest).
  exists o. split; [ | exact Hrest].
  simpl in Ho. destruct Ho as [<- | [<- | [<- | []]]]; lia.
Qed.

Lemma grown_labels a0 a :
  grown a0 a -> city a = city a0 /\ check_time a = check_time a0.
Proof.
  induction 1 as [a | a b c Hab [IH1 IH2] Hbc]; [auto | ].
  destruct Hbc. split; congruence.
Qed.

(** X7: a returned summary is labelled with the location name the table
    gives for the key, and with the key itself when the table does not
    have it (the fetch would have used the default location instead); its
    check time is the second reading of the clock, to the second. *)
Theorem summary_labels
    (index_time check_now : datetime) (data : json) (key : string) (a : analysis) :
  analyze_rain_probability index_time check_now data key = Some a ->
  (forall c, find_city key CITIES = Some c -> city a = name c) /\
  (find_city key CITIES = None -> city a = key) /\
  check_time a = strftime_seconds check_now.
Proof.
  intros Ha. apply analyze_some in Ha. unfold analyze_body in Ha. bind_inv.
  apply analyze_hours_grown, grown_labels in Ha as [Hc Ht].
  cbn [city check_time] in Hc, Ht. rewrite Hc, Ht. repeat split.
  - intros c ->. reflexivity.
  - intros ->. reflexivity.
Qed.

(** X8: when the series is over at the resolved index (no timestamp at
    that position or after it), the summary is the blank one: no entry,
    max_probability 0, total 0, alert flag false, whatever the threshold
    and the test override, and whatever the two other arrays hold. *)
Theorem series_over_gives_the_blank_summary
    (index_time check_now : datetime) (data hourly times ps qs : json)
    (key : string) (n : nat) :
  py_getitem data "hourly" = Ok hourly ->
  py_getitem hourly "time" = Ok times ->
  py_getitem hourly "precipitation_probability" = Ok ps ->
  py_getitem hourly "precipitation" = Ok qs ->
  py_len times = Ok n ->
  (n <= get_current_hour_index index_time data)%nat ->
  analyze_rain_probability index_time check_now data key
    = Some (blank_summary key check_now).
Proof.
  intros Hh Ht Hp Hq Hn Hle.
  unfold analyze_rain_probability, analyze_body.
  rewrite Hh. cbn [bind]. rewrite Ht, Hp, Hq. cbn [bind].
  unfold analyze_hours, analyze_hour. rewrite Hn. cbn [bind].
  repeat match goal with
  | |- context [(?x <? n)%nat] =>
      replace (x <? n)%nat with false by (symmetry; apply Nat.ltb_ge; lia)
  end.
  reflexivity.
Qed.

Lemma analyze_hours_raise times ps qs i o offsets :
  In o offsets ->
  (forall acc, exists e, analyze_hour times ps qs i acc o = Raise e) ->
  forall acc, exists e, analyze_hours times ps qs i acc offsets = Raise e.
Proof.
  intros Hin Hraise. induction offsets as [ | o' rest IH]; [destruct Hin | ].
  intros acc. simpl.
  destruct (analyze_hour times ps qs i acc o') as [acc1 | e] eqn:E;
    cbn [bind]; [ | eauto].
  destruct Hin as [-> | Hin]; [ | now apply IH].
  destruct (Hraise acc) as [e He]. congruence.
Qed.

Lemma py_max_needs_a_number m v : is_number v = false -> py_max m v = Raise TypeError.
Proof.
  unfold is_number, py_max, py_gt, compare_with.
  destruct (num_value v); [discriminate | ]. now destruct (num_value m).
Qed.

Lemma py_add_needs_a_number t v : is_number v = false -> py_add t v = Raise TypeError.
Proof.
  unfold is_number, num_value, py_add. intros H.
  destruct v; try discriminate; simpl; destruct (int_value t); try reflexivity;
    destruct t; reflexivity.
Qed.

(** X9: with the arrays as lists, a position of the window that lies
    within the timestamps but has no probability or no amount (a shorter
    array), or holds there something that is no number (a null, as the
    service sends for a missing value), makes the analysis return None: no
    summary is built from the other hours. *)
Theorem gap_in_the_window_fails_the_analysis
    (index_time check_now : datetime) (data hourly : json) (key : string)
    (ts ps qs : list json) (k : nat) :
  py_getitem data "hourly" = Ok hourly ->
  py_getitem hourly "time" = Ok (VList ts) ->
  py_getitem hourly "precipitation_probability" = Ok (VList ps) ->
  py_getitem hourly "precipitation" = Ok (VList qs) ->
  (k < 3)%nat ->
  let j := (get_current_hour_index index_time data + k)%nat in
  (j < List.length ts)%nat ->
  (match nth_error ps j with Some v => is_number v = false | None => True end \/
   match nth_error qs j with Some v => is_number v = false | None => True end) ->
  analyze_rain_probability index_time check_now data key = None.
Proof.
  intros Hh Ht Hp Hq Hk j Hj Hgap.
  unfold analyze_rain_probability, analyze_body.
  rewrite Hh. cbn [bind]. rewrite Ht, Hp, Hq. cbn [bind].
  match goal with
  | |- context [analyze_hours ?t ?p ?q ?i ?acc0 ?offs] =>
      assert (Hall : forall acc, exists e, analyze_hours t p q i acc offs = Raise e);
        [ apply (analyze_hours_raise t p q i k offs) | destruct (Hall acc0) as [e He] ]
  end.
  - simpl. destruct k as [ | [ | [ | k]]]; auto. lia.
  - intros acc. unfold analyze_hour. fold j. simpl.
    apply Nat.ltb_lt in Hj. rewrite Hj.
    destruct (nth_error ts j) as [t | ]; cbn [bind]; [ | eauto].
    destruct (nth_error ps j) as [pr | ]; cbn [bind]; [ | eauto].
    destruct (nth_error qs j) as [q | ]; cbn [bind]; [ | eauto].
    destruct Hgap as [Hgap | Hgap].
    + rewrite (py_max_needs_a_number _ _ Hgap). cbn [bind]. eauto.
    + destruct (py_max (max_probability acc) pr); cbn [bind]; [ | eauto].
      rewrite (py_add_needs_a_number _ _ Hgap). cbn [bind]. eauto.
  - now rewrite He.
Qed.


(** ** The notifier, whatever the mail service does *)

Lemma retry_from_mail_count {A : Type} wait (call : nat -> run A) more : forall n,
  (forall j, (List.length (mails (fst (call j))) <= 1)%nat) ->
  (List.length (mails (fst (retry_from wait call n more))) <= S more)%nat.
Proof.
  induction more as [ | more IH]; intros n Hone; simpl.
  - specialize (Hone n). destruct (call n) as [t [a | e]]; simpl in *; lia.
  - specialize (IH (S n) Hone). specialize (Hone n).
    destruct (call n) as [t [a | e]]; simpl in *; [lia | ].
    destruct (retry_from wait call (S n) more) as [t' r]. simpl in *.
    rewrite mails_app, length_app.
    change (mails (Sleep wait :: t')) with (mails t'). lia.
Qed.

Lemma send_once_mail_count delivery a :
  (List.length (mails (fst (send_rain_alert_email_once delivery a))) <= 1)%nat.
Proof.
  unfold send_rain_alert_email_once, run_bind, pure. simpl.
  destruct (build_message a); simpl; lia.
Qed.

(** X10: whatever the mail service answers, a send hands it at most
    fifteen mails and pauses at most fourteen times; every one of them goes
    to the one recipient and carries the subject and the content built from
    the summary, the same at each attempt; and a send that returns has
    handed over at least one. *)
Theorem send_repeats_one_mail (smtp : nat -> result unit) (a : analysis) :
  let t := fst (send_rain_alert_email smtp a) in
  (List.length (mails t) <= 15)%nat /\
  (List.length (pauses t) <= 14)%nat /\
  (forall ev, In ev t -> is_send ev = true ->
     exists subject content,
       build_message a = Ok (subject, content) /\
       ev = SendMail EMAIL_RECIPIENT subject content) /\
  (snd (send_rain_alert_email smtp a) = Ok tt -> mails t <> []).
Proof.
  cbv zeta. split; [ | split; [ | split ] ].
  - unfold send_rain_alert_email, retry.
    apply (retry_from_mail_count 15 _ 14 1). intros j. apply send_once_mail_count.
  - destruct (retry_outcome (fun j => send_rain_alert_email_once (smtp j) a) 15)
      as [(k & u & Hk & Hfirst) | (e & Hnever)]; [lia | | ].
    + destruct u. destruct (send_returns smtp a k Hk Hfirst) as (_ & -> & _).
      rewrite repeat_length. lia.
    + destruct (send_gives_up smtp a e Hnever) as (_ & ->).
      rewrite repeat_length. lia.
  - intros ev Hin Hsend. now apply (send_events smtp a ev).
  - intros Hok.
    destruct (retry_outcome (fun j => send_rain_alert_email_once (smtp j) a) 15)
      as [(k & u & Hk & Hfirst) | (e & Hnever)]; [lia | | ].
    + destruct u.
      destruct (send_returns smtp a k Hk Hfirst) as (_ & _ & s & c & _ & ->).
      discriminate.
    + destruct (send_gives_up smtp a e Hnever) as (Hraise & _). congruence.
Qed.

Lemma mail_lines_raise hours : forall i h,
  In h hours ->
  ((forall s, time h <> VStr s) \/
   exists s e, time h = VStr s /\ fromisoformat (replace_T s) = Raise e) ->
  exists e, mail_lines i hours = Raise e.
Proof.
  induction hours as [ | h0 rest IH]; intros i h Hin Hbad; [destruct Hin | ].
  simpl. destruct (mail_line i h0) as [line | e] eqn:E; cbn [bind]; [ | eauto].
  destruct Hin as [-> | Hin].
  - exfalso. unfold mail_line in E.
    destruct Hbad as [Hbad | (s & e & Hs & He)].
    + destruct (time h) as [ | | | | s | | ]; try discriminate. now elim (Hbad s).
    + rewrite Hs, He in E. discriminate.
  - destruct (IH (S i) h Hin Hbad) as [e ->]. cbn [bind]. eauto.
Qed.

(** X11: a summary with an entry whose time is no string, or a string that
    fromisoformat rejects, cannot be put into a message: every attempt of
    the send raises before the mail service is contacted, so the send
    pauses fourteen times, hands over no mail at all, and ends with the
    RetryError of that exception, whatever the mail service would have
    answered. *)
Theorem unreadable_time_is_retried_in_vain
    (smtp : nat -> result unit) (a : analysis) (h : hour_data) :
  In h (hours_data a) ->
  ((forall s, time h <> VStr s) \/
   exists s e, time h = VStr s /\ fromisoformat (replace_T s) = Raise e) ->
  exists e,
    build_message a = Raise e /\
    snd (send_rain_alert_email smtp a) = Raise (RetryError e) /\
    mails (fst (send_rain_alert_email smtp a)) = [] /\
    pauses (fst (send_rain_alert_email smtp a)) = repeat 15%nat 14.
Proof.
  intros Hin Hbad.
  assert (Hbuild : exists e, build_message a = Raise e).
  { unfold build_message.
    destruct (is_test_mail a) as [test | e]; cbn [bind]; [ | eauto].
    destruct (mail_lines_raise (hours_data a) 0 h Hin Hbad) as [e ->].
    cbn [bind]. eauto. }
  destruct Hbuild as [e He]. exists e. split; [exact He | ].
  assert (Hnever : never_succeeds (fun j => send_rain_alert_email_once (smtp j) a) 15 e).
  { split; [intros j _; exists e | ]; now rewrite send_once_result, He. }
  destruct (send_gives_up smtp a e Hnever) as [Hraise Hpauses].
  split; [exact Hraise | ]. split; [ | exact Hpauses].
  apply no_mails. intros ev Hev.
  destruct (is_send ev) eqn:Hs; [ | reflexivity].
  destruct (send_events smtp a ev Hev Hs) as (subject & content & Hb & _). congruence.
Qed.


(** ** The orchestrator, run by run *)

(** X12: with [setup_logging] returned, the data fetched and a summary
    that asks for no alert, [main] logs "No alert needed" with the
    max_probability and the threshold, then the completion marker, contacts
    the mail service not at all, and returns. *)
Theorem run_without_alert
    (index_time check_now : datetime) (http : nat -> response)
    (smtp : nat -> result unit) (data : json) (a : analysis) :
  snd (fetch_weather_data http DEFAULT_CITY) = Ok data ->
  analyze_rain_probability index_time check_now data DEFAULT_CITY = Some a ->
  alert_triggered a = false ->
  main (Ok tt) index_time check_now http smtp
    = ((Log INFO CheckStarted :: fst (fetch_weather_data http DEFAULT_CITY)
          ++ [ Log INFO (NoAlertNeeded (max_probability a) RAIN_THRESHOLD);
               Log INFO CheckCompleted ])%list,
       Ok tt) /\
  mails (fst (main (Ok tt) index_time check_now http smtp)) = [].
Proof.
  intros Hfetch Ha Halert.
  assert (Hmain : main (Ok tt) index_time check_now http smtp
    = ((Log INFO CheckStarted :: fst (fetch_weather_data http DEFAULT_CITY)
          ++ [ Log INFO (NoAlertNeeded (max_probability a) RAIN_THRESHOLD);
               Log INFO CheckCompleted ])%list,
       Ok tt)).
  { unfold main, main_body.
    rewrite (run_bind_ok (emit _) _ tt eq_refl).
    rewrite (run_bind_ok (fetch_weather_data http DEFAULT_CITY) _ data Hfetch).
    rewrite Ha, Halert. reflexivity. }
  split; [exact Hmain | ]. rewrite Hmain. cbn [fst].
  change (Log INFO CheckStarted :: ?t) with ([Log INFO CheckStarted] ++ t)%list.
  now rewrite !mails_app, fetch_mails.
Qed.

Lemma build_message_subject a subject content :
  build_message a = Ok (subject, content) ->
  exists test, is_test_mail a = Ok test /\ subject = mail_subject test a.
Proof.
  unfold build_message. intros H.
  destruct (is_test_mail a) as [test | e]; cbn [bind] in H; [ | discriminate].
  destruct (mail_lines 0 (hours_data a)) as [lines | e]; cbn [bind] in H; [ | discriminate].
  injection H as <- _. eauto.
Qed.

Lemma test_subject_prefix test a : prefix "[TEST]" (mail_subject test a) = test.
Proof. now destruct test. Qed.

(** X13: with [setup_logging] returned, the data fetched and a summary
    that asks for an alert, [main] announces the mail in the log, as a test
    mail when the override is on and max_probability is below the threshold
    and as a rain alert otherwise, then runs the send; it logs the completion marker and
    returns when the send returns, and logs the failure and raises what the
    send raised otherwise; and the subject of every mail handed over is
    marked "[TEST]" exactly when the log announced a test mail. *)
Theorem run_with_alert
    (index_time check_now : datetime) (http : nat -> response)
    (smtp : nat -> result unit) (data : json) (a : analysis) :
  snd (fetch_weather_data http DEFAULT_CITY) = Ok data ->
  analyze_rain_probability index_time check_now data DEFAULT_CITY = Some a ->
  alert_triggered a = true ->
  exists test,
    is_test_mail a = Ok test /\
    let announce :=
      Log INFO (if test then TestEmailTriggered (max_probability a)
                else RainAlertTriggered (max_probability a)) in
    let before :=
      (Log INFO CheckStarted :: fst (fetch_weather_data http DEFAULT_CITY)
         ++ announce :: fst (send_rain_alert_email smtp a))%list in
    main (Ok tt) index_time check_now http smtp
      = match snd (send_rain_alert_email smtp a) with
        | Ok _ => ((before ++ [Log INFO CheckCompleted])%list, Ok tt)
        | Raise e => ((before ++ [Log ERROR (CheckFailed e)])%list, Raise e)
        end /\
    forall recipient subject content,
      In (SendMail recipient subject content) (fst (send_rain_alert_email smtp a)) ->
      prefix "[TEST]" subject = test.
Proof.
  intros Hfetch Ha Halert.
  destruct (is_test_mail_returns _ _ _ _ _ Ha) as [test Htest].
  exists test. split; [exact Htest | ]. cbv zeta. split.
  - unfold main, main_body.
    rewrite (run_bind_ok (emit _) _ tt eq_refl).
    rewrite (run_bind_ok (fetch_weather_data http DEFAULT_CITY) _ data Hfetch).
    rewrite Ha, Halert.
    rewrite (run_bind_ok (pure (is_test_mail a)) _ test Htest).
    rewrite (run_bind_ok (emit _) _ tt eq_refl).
    destruct (send_rain_alert_email smtp a) as [t [[] | e]]; cbn; 
      rewrite <- ?app_assoc; reflexivity.
  - intros recipient subject content Hin.
    apply send_events in Hin as (s & c & Hb & Heq); [ | reflexivity].
    injection Heq as _ -> ->.
    apply build_message_subject in Hb as (test' & Htest' & ->).
    rewrite Htest in Htest'. injection Htest' as <-. apply test_subject_prefix.
Qed.

Lemma main_body_has_no_failure_log t1 t2 http smtp ev :
  In ev (fst (main_body t1 t2 http smtp)) -> is_failure_log ev = false.
Proof.
  unfold main_body. intros Hin.
  apply run_bind_events in Hin as [[<- | []] | (_ & _ & Hin)]; [reflexivity | ].
  apply run_bind_events in Hin as [Hin | (data & _ & Hin)].
  { unfold fetch_weather_data in Hin.
    apply retry_events in Hin as [-> | [j Hin]]; [reflexivity | ].
    destruct (http j); simpl in Hin; destruct Hin as [<- | []]; reflexivity. }
  destruct (analyze_rain_probability t1 t2 data DEFAULT_CITY) as [a | ];
    [ | destruct Hin as [<- | []]; reflexivity].
  apply run_bind_events in Hin as [Hin | (_ & _ & [<- | []])]; [ | reflexivity].
  destruct (alert_triggered a); [ | destruct Hin as [<- | []]; reflexivity].
  apply run_bind_events in Hin as [[] | (test & _ & Hin)].
  apply run_bind_events in Hin as [[<- | []] | (_ & _ & Hin)];
    [now destruct test | ].
  unfold send_rain_alert_email in Hin.
  apply retry_events in Hin as [-> | [j Hin]]; [reflexivity | ].
  apply send_once_events in Hin as (s & c & _ & ->). reflexivity.
Qed.

Lemma main_body_starts t1 t2 http smtp :
  exists t, fst (main_body t1 t2 http smtp) = Log INFO CheckStarted :: t.
Proof.
  unfold main_body. rewrite (run_bind_ok (emit _) _ tt eq_refl). simpl. eauto.
Qed.

(** X14: [setup_logging] runs before the [try]: when it raises, the
    exception leaves [main] at once, without start marker, GET, mail or
    failure line, and the status is 1.  When it returns, the run begins
    with the start marker and logs the failure line "Rain monitoring check
    failed" exactly when the [try] block ends with an exception, with that
    exception and as its last event.  So a failure line always comes with
    its exception leaving [main], and the process ends with status 0
    exactly when [setup_logging] returned and the trace holds no failure
    line. *)
Theorem failure_is_logged_exactly_when_raised
    (logging : result unit) (index_time check_now : datetime)
    (http : nat -> response) (smtp : nat -> result unit) :
  let r := main logging index_time check_now http smtp in
  (forall e, logging = Raise e -> r = ([], Raise e) /\ exit_status r = 1) /\
  (forall u, logging = Ok u ->
     (exists t, fst r = Log INFO CheckStarted :: t) /\
     (forall e, snd r = Raise e <-> In (Log ERROR (CheckFailed e)) (fst r)) /\
     (forall e, snd r = Raise e ->
        fst r = (fst (main_body index_time check_now http smtp)
                   ++ [Log ERROR (CheckFailed e)])%list) /\
     (exit_status r = 0 <-> forall ev, In ev (fst r) -> is_failure_log ev = false)) /\
  (forall e, In (Log ERROR (CheckFailed e)) (fst r) -> snd r = Raise e) /\
  (exit_status r = 0 <->
   (exists u, logging = Ok u) /\
   forall ev, In ev (fst r) -> is_failure_log ev = false).
Proof.
  cbv zeta.
  pose proof (main_body_has_no_failure_log index_time check_now http smtp) as Hclean.
  destruct (main_body_starts index_time check_now http smtp) as [t Ht].
  assert (Hreturned : forall u,
    let r := main (Ok u) index_time check_now http smtp in
    (exists t, fst r = Log INFO CheckStarted :: t) /\
    (forall e, snd r = Raise e <-> In (Log ERROR (CheckFailed e)) (fst r)) /\
    (forall e, snd r = Raise e ->
       fst r = (fst (main_body index_time check_now http smtp)
                  ++ [Log ERROR (CheckFailed e)])%list) /\
    (exit_status r = 0 <-> forall ev, In ev (fst r) -> is_failure_log ev = false)).
  { intros u. cbv zeta. unfold main, exit_status.
    destruct (snd (main_body index_time check_now http smtp)) as [u' | e0] eqn:E.
    - rewrite E. split; [eauto | ]. split; [ | split ].
      + intros e. split; [discriminate | ].
        intros Hin. apply Hclean in Hin. discriminate.
      + discriminate.
      + split; auto.
    - cbn [fst snd]. split; [rewrite Ht; simpl; eauto | ]. split; [ | split ].
      + intros e. split.
        * intros H. injection H as <-. apply in_or_app. right. now left.
        * intros Hin. apply in_app_or in Hin as [Hin | [Hin | []]].
          -- apply Hclean in Hin. discriminate.
          -- now injection Hin as <-.
      + intros e H. now injection H as <-.
      + split; [discriminate | ].
        intros H. specialize (H (Log ERROR (CheckFailed e0))).
        assert (Hin : In (Log ERROR (CheckFailed e0))
                        (fst (main_body index_time check_now http smtp)
                           ++ [Log ERROR (CheckFailed e0)]))
          by (apply in_or_app; right; now left).
        apply H in Hin. discriminate. }
  destruct logging as [u | e0].
  - destruct (Hreturned u) as (Hstart & Hlogged & Hlast & Hstatus).
    split; [discriminate | ]. split; [ | split ].
    + intros u' Hu. injection Hu as <-. exact (Hreturned u).
    + intros e Hin. now apply Hlogged.
    + rewrite Hstatus. split; [eauto | now intros [_ H] ].
  - split; [ | split; [discriminate | split] ].
    + intros e H. injection H as <-. split; reflexivity.
    + intros e [].
    + split; [discriminate | ]. intros [[u Hu] _]. discriminate Hu.
Qed.


(** ** The whole run, counted *)

Section Counting.

(** A count of events that adds up over concatenation: GETs, mails,
    pauses. *)
Variable count : list event -> nat.
Hypothesis count_app : forall t u, count (t ++ u) = (count t + count u)%nat.

Lemma count_nil : count [] = 0%nat.
Proof. pose proof (count_app [] []) as H. simpl in H. lia. Qed.

Lemma count_run_bind {A B : Type} (m : run A) (k : A -> run B) :
  count (fst (run_bind m k))
    = (count (fst m) + match snd m with
                       | Ok a => count (fst (k a))
                       | Raise _ => 0
                       end)%nat.
Proof.
  unfold run_bind. destruct (snd m); cbn [fst]; [apply count_app | lia].
Qed.

Lemma count_retry_from {A : Type} wait (call : nat -> run A) bound more : forall n,
  (forall j, (count (fst (call j)) <= bound)%nat) ->
  (count (fst (retry_from wait call n more))
     <= S more * bound + more * count [Sleep wait])%nat.
Proof.
  induction more as [ | more IH]; intros n Hb; simpl.
  - specialize (Hb n). destruct (call n) as [t [a | e]]; simpl in *; lia.
  - specialize (IH (S n) Hb). specialize (Hb n).
    destruct (call n) as [t [a | e]]; simpl in *; [lia | ].
    destruct (retry_from wait call (S n) more) as [t' r]. simpl in *.
    rewrite count_app.
    change (Sleep wait :: t') with ([Sleep wait] ++ t')%list. rewrite count_app. lia.
Qed.

(** The count over a whole run, from the counts its steps allow. *)
Lemma count_main logging t1 t2 http smtp get_bound send_bound logs :
  (forall l m, count [Log l m] = logs) ->
  (forall city r, (count (fst (fetch_weather_data_once city r)) <= get_bound)%nat) ->
  (forall d a, (count (fst (send_rain_alert_email_once d a)) <= send_bound)%nat) ->
  (count (fst (main logging t1 t2 http smtp))
     <= 15 * get_bound + 15 * send_bound + 28 * count [Sleep 15] + 4 * logs)%nat.
Proof.
  intros Hlog Hget Hsend.
  assert (Hfetch : (count (fst (fetch_weather_data http DEFAULT_CITY))
                      <= 15 * get_bound + 14 * count [Sleep 15])%nat).
  { unfold fetch_weather_data, retry.
    apply (count_retry_from 15 _ get_bound 14 1). intros j. apply Hget. }
  assert (Hmail : forall a, (count (fst (send_rain_alert_email smtp a))
                               <= 15 * send_bound + 14 * count [Sleep 15])%nat).
  { intros a. unfold send_rain_alert_email, retry.
    apply (count_retry_from 15 _ send_bound 14 1). intros j. apply Hsend. }
  assert (Hbody : (count (fst (main_body t1 t2 http smtp))
                     <= 15 * get_bound + 15 * send_bound + 28 * count [Sleep 15]
                        + 3 * logs)%nat).
  { unfold main_body. rewrite !count_run_bind. cbn [emit fst snd]. rewrite Hlog.
    destruct (snd (fetch_weather_data http DEFAULT_CITY)) as [data | e]; [ | lia].
    destruct (analyze_rain_probability t1 t2 data DEFAULT_CITY) as [a | ];
      [ | cbn [emit fst]; rewrite Hlog; lia].
    rewrite !count_run_bind.
    destruct (alert_triggered a).
    - rewrite !count_run_bind, !snd_run_bind. cbn [pure emit fst snd].
      rewrite count_nil. specialize (Hmail a).
      destruct (is_test_mail a) as [test | e]; [ | lia].
      rewrite !count_run_bind, !snd_run_bind. cbn [emit fst snd]. rewrite Hlog.
      destruct (snd (send_rain_alert_email smtp a)); rewrite ?Hlog; lia.
    - cbn [emit fst snd]. rewrite !Hlog. lia. }
  unfold main. destruct logging as [u | e]; [ | cbn [fst]; rewrite count_nil; lia].
  destruct (snd (main_body t1 t2 http smtp)); [lia | ].
  cbn [fst]. rewrite count_app, Hlog. lia.
Qed.

End Counting.

Lemma pause_count_app t u :
  List.length (pauses (t ++ u)) = (List.length (pauses t) + List.length (pauses u))%nat.
Proof. now rewrite pauses_app, length_app. Qed.

Lemma mail_count_app t u :
  List.length (mails (t ++ u)) = (List.length (mails t) + List.length (mails u))%nat.
Proof. now rewrite mails_app, length_app. Qed.

Lemma send_once_gets delivery a : gets (fst (send_rain_alert_email_once delivery a)) = 0%nat.
Proof.
  unfold send_rain_alert_email_once, run_bind, pure. simpl.
  now destruct (build_message a).
Qed.

(** X17: however [setup_logging] ends and whatever the network and the mail
    service do, one run of [main] makes at most 15 GETs, hands at most 15
    mails to the mail service and pauses at most 28 times, each pause one
    of 15. *)
Theorem a_run_is_bounded
    (logging : result unit) (index_time check_now : datetime)
    (http : nat -> response) (smtp : nat -> result unit) :
  let t := fst (main logging index_time check_now http smtp) in
  (gets t <= 15)%nat /\
  (List.length (mails t) <= 15)%nat /\
  (List.length (pauses t) <= 28)%nat /\
  (forall s, In s (pauses t) -> s = 15%nat).
Proof.
  cbv zeta. split; [ | split; [ | split ] ].
  - eapply Nat.le_trans;
      [apply (count_main gets gets_app logging index_time check_now http smtp 1 0 0) | ].
    + reflexivity.
    + intros city r. now rewrite fetch_once_gets.
    + intros d a. now rewrite send_once_gets.
    + change (gets [Sleep 15]) with 0%nat. lia.
  - eapply Nat.le_trans;
      [apply (count_main (fun t => List.length (mails t)) mail_count_app
                logging index_time check_now http smtp 0 1 0) | ].
    + reflexivity.
    + intros city r. now rewrite fetch_once_mails.
    + intros d a. apply send_once_mail_count.
    + change (List.length (mails [Sleep 15])) with 0%nat. lia.
  - eapply Nat.le_trans;
      [apply (count_main (fun t => List.length (pauses t)) pause_count_app
                logging index_time check_now http smtp 0 0 0) | ].
    + reflexivity.
    + intros city r. now rewrite fetch_once_pauses.
    + intros d a. now rewrite send_once_pauses.
    + change (List.length (pauses [Sleep 15])) with 1%nat. lia.
  - intros s Hs. unfold pauses in Hs. apply in_flat_map in Hs as (ev & Hev & Hs).
    destruct ev as [l m | u | w | r sub c]; simpl in Hs; try contradiction.
    destruct Hs as [<- | []].
    assert (Hbody : In (Sleep w) (fst (main_body index_time check_now http smtp))).
    { unfold main in Hev. destruct logging as [u | e]; [ | destruct Hev].
      destruct (snd (main_body index_time check_now http smtp)); [exact Hev | ].
      cbn [fst] in Hev. apply in_app_or in Hev as [Hev | [Hev | []]];
        [exact Hev | discriminate]. }
    clear Hev. unfold main_body in Hbody.
    apply run_bind_events in Hbody as [[Hin | []] | (_ & _ & Hbody)]; [discriminate | ].
    apply run_bind_events in Hbody as [Hin | (data & _ & Hbody)].
    { unfold fetch_weather_data in Hin.
      apply retry_events in Hin as [Hin | [j Hin]]; [now injection Hin | ].
      destruct (http j); simpl in Hin; destruct Hin as [Hin | []]; discriminate. }
    destruct (analyze_rain_probability index_time check_now data DEFAULT_CITY) as [a | ];
      [ | destruct Hbody as [Hin | []]; discriminate].
    apply run_bind_events in Hbody as [Hbody | (_ & _ & [Hin | []])]; [ | discriminate].
    destruct (alert_triggered a); [ | destruct Hbody as [Hin | []]; discriminate].
    apply run_bind_events in Hbody as [[] | (test & _ & Hbody)].
    apply run_bind_events in Hbody as [[Hin | []] | (_ & _ & Hbody)]; [discriminate | ].
    unfold send_rain_alert_email in Hbody.
    apply retry_events in Hbody as [Hin | [j Hin]]; [now injection Hin | ].
    apply send_once_events in Hin as (s & c & _ & Hin). discriminate.
Qed.


End RainMonitor.

(** ** Across configurations *)

Lemma py_max_number m v r : py_max m v = Ok r -> is_number v = true.
Proof.
  unfold py_max, py_gt, compare_with, is_number.
  destruct (num_value m); [ | discriminate].
  destruct (num_value v); [reflexivity | discriminate].
Qed.

Lemma analyze_hour_config T M T' M' times ps qs i acc acc' o r :
  same_figures acc acc' ->
  analyze_hour T M times ps qs i acc o = Ok r ->
  exists r', analyze_hour T' M' times ps qs i acc' o = Ok r' /\ same_figures r r'.
Proof.
  intros (Hc & Ht & Hh & Hm & Hs) H. unfold analyze_hour in *.
  destruct (py_len times) as [n | e]; cbn [bind] in *; [ | discriminate].
  destruct (_ <? _)%nat.
  - destruct (py_index times (i + o)) as [t | e]; cbn [bind] in *; [ | discriminate].
    destruct (py_index ps (i + o)) as [pr | e]; cbn [bind] in *; [ | discriminate].
    destruct (py_index qs (i + o)) as [q | e]; cbn [bind] in *; [ | discriminate].
    rewrite <- Hm, <- Hs.
    destruct (py_max (max_probability acc) pr) as [highest | e] eqn:Emax;
      cbn [bind] in *; [ | discriminate].
    destruct (py_add (total_precipitation acc) q) as [total | e];
      cbn [bind] in *; [ | discriminate].
    destruct (py_ge pr (VInt T)) as [over | e]; cbn [bind] in H; [ | discriminate].
    injection H as <-.
    destruct (compare_numbers x_leb (VInt T') pr eq_refl (py_max_number _ _ _ Emax))
      as [over' Hover'].
    unfold py_ge. rewrite Hover'. cbn [bind].
    eexists. split; [reflexivity | ].
    repeat split; simpl; congruence.
  - injection H as <-. eexists. split; [reflexivity | ]. repeat split; assumption.
Qed.

Lemma analyze_hours_config T M T' M' times ps qs i offsets : forall acc acc' r,
  same_figures acc acc' ->
  analyze_hours T M times ps qs i acc offsets = Ok r ->
  exists r', analyze_hours T' M' times ps qs i acc' offsets = Ok r' /\ same_figures r r'.
Proof.
  induction offsets as [ | o rest IH]; simpl; intros acc acc' r Hsame H.
  - injection H as <-. eauto.
  - destruct (analyze_hour T M times ps qs i acc o) as [acc1 | e] eqn:E;
      cbn [bind] in H; [ | discriminate].
    destruct (analyze_hour_config T M T' M' _ _ _ _ _ _ _ _ Hsame E) as (acc1' & -> & Hsame1).
    cbn [bind]. eapply IH; eauto.
Qed.

Lemma analyze_config T M T' M' t1 t2 data key a :
  analyze_rain_probability T M t1 t2 data key = Some a ->
  exists a', analyze_rain_probability T' M' t1 t2 data key = Some a' /\ same_figures a a'.
Proof.
  unfold analyze_rain_probability, analyze_body. intros H.
  destruct (py_getitem data "hourly") as [hourly | e]; cbn [bind] in *; [ | discriminate].
  destruct (py_getitem hourly "time") as [times | e]; cbn [bind] in *; [ | discriminate].
  destruct (py_getitem hourly "precipitation_probability") as [ps | e];
    cbn [bind] in *; [ | discriminate].
  destruct (py_getitem hourly "precipitation") as [qs | e];
    cbn [bind] in *; [ | discriminate].
  match type of H with
  | match analyze_hours _ _ ?t ?p ?q ?i ?acc ?offs with _ => _ end = _ =>
      destruct (analyze_hours T M t p q i acc offs) as [r | e] eqn:E; [ | discriminate];
      destruct (analyze_hours_config T M T' M' t p q i offs acc acc r) as (r' & Hr' & Hsame);
        [ repeat split | exact E | ]
  end.
  injection H as <-. rewrite Hr'. eauto.
Qed.

Lemma same_figures_sym a b : same_figures a b -> same_figures b a.
Proof. intros (H1 & H2 & H3 & H4 & H5). repeat split; congruence. Qed.

(** X15: the threshold and the test override bear on the alert flag only:
    under two configurations the analysis of the same body at the same
    instants either returns None under both, or returns two summaries with
    the same location, check time, hour-detail entries, max_probability and
    total_precipitation. *)
Theorem configuration_only_moves_the_alert
    (T T' : Z) (M M' : bool) (index_time check_now : datetime)
    (data : json) (key : string) :
  match analyze_rain_probability T M index_time check_now data key,
        analyze_rain_probability T' M' index_time check_now data key with
  | Some a, Some a' => same_figures a a'
  | None, None => True
  | _, _ => False
  end.
Proof.
  destruct (analyze_rain_probability T M index_time check_now data key) as [a | ] eqn:E;
  destruct (analyze_rain_probability T' M' index_time check_now data key) as [a' | ] eqn:E';
    auto.
  - destruct (analyze_config T M T' M' _ _ _ _ _ E) as (b & Hb & Hsame). congruence.
  - destruct (analyze_config T M T' M' _ _ _ _ _ E) as (b & Hb & _). congruence.
  - destruct (analyze_config T' M' T M _ _ _ _ _ E') as (b & Hb & _). congruence.
Qed.

Lemma py_ge_lower v T T' :
  T <= T' -> py_ge v (VInt T') = Ok true -> py_ge v (VInt T) = Ok true.
Proof.
  unfold py_ge, compare_with. simpl. intros Hle H.
  destruct (num_value v) as [[ | s | q] | ]; try discriminate; auto.
  injection H as H. f_equal. apply x_leb_fin. apply x_leb_fin in H.
  apply Qle_trans with (inject_Z T'); [ | exact H]. now rewrite <- Zle_Qle.
Qed.

(** X18: a lower threshold and a switched-on test override can only add
    alerts: when a configuration raises the alert on a body, every
    configuration with a threshold at most as high, and with the override
    on if it was on, raises it too. *)
Theorem more_sensitive_configuration_keeps_the_alert
    (T T' : Z) (M M' : bool) (index_time check_now : datetime)
    (data : json) (key : string) (a a' : analysis) :
  T <= T' ->
  (M' = true -> M = true) ->
  analyze_rain_probability T M index_time check_now data key = Some a ->
  analyze_rain_probability T' M' index_time check_now data key = Some a' ->
  alert_triggered a' = true ->
  alert_triggered a = true.
Proof.
  intros Hle Hm Ha Ha' Halert.
  destruct (analyze_config T M T' M' _ _ _ _ _ Ha) as (b & Hb & (_ & _ & Hhours & _ & _)).
  rewrite Ha' in Hb. injection Hb as <-.
  apply analyze_some, analyze_body_grown in Ha as (a0 & Hf & Hg).
  apply analyze_some, analyze_body_grown in Ha' as (a0' & Hf' & Hg').
  apply (alert_invariant T' M' a0' a' Hf' Hg') in Halert as [Hne Hcases].
  apply (alert_invariant T M a0 a Hf Hg). rewrite Hhours.
  split; [exact Hne | ].
  destruct Hcases as [(h & Hin & Hge) | Ht]; [left | right; auto].
  exists h. split; [exact Hin | ]. now apply py_ge_lower with T'.
Qed.

(** ** The log file *)

Lemma two_characters a b s c d s' :
  String a (String b s) = String c (String d s') ->
  String a (String b EmptyString) = String c (String d EmptyString) /\ s = s'.
Proof. intros H. injection H as -> -> ->. auto. Qed.

Lemma pad2_append_inj n m s s' :
  (n < 100)%nat -> (m < 100)%nat -> pad2 n ++ s = pad2 m ++ s' -> n = m /\ s = s'.
Proof.
  intros Hn Hm H. unfold pad2 in H. cbn [append] in H.
  apply two_characters in H as [H ->]. split; [ | reflexivity].
  now apply pad2_inj.
Qed.

Lemma pad4_append_inj n m s s' :
  (Z.of_nat n < 10000) -> (Z.of_nat m < 10000) ->
  pad4 n ++ s = pad4 m ++ s' -> n = m /\ s = s'.
Proof.
  intros Hn Hm H. unfold pad4, pad2 in H. cbn [append] in H.
  apply two_characters in H as [H1 H2]. apply two_characters in H2 as [H2 ->].
  split; [ | reflexivity].
  pose proof (pad2_inj (n / 100) (m / 100)) as Hhigh.
  pose proof (pad2_inj (n mod 100) (m mod 100)) as Hlow.
  assert (Hd : forall x, (x < 100 * 100)%nat -> (x / 100 < 100)%nat)
    by (intros x Hx; now apply Nat.Div0.div_lt_upper_bound).
  assert (H100 : forall x, pad2 (x / 100) = String (digit (x / 1000)) (String (digit (x / 100)) EmptyString)).
  { intros x. unfold pad2. now rewrite Nat.Div0.div_div. }
  assert (Hm100 : forall x, pad2 (x mod 100) = String (digit (x / 10)) (String (digit x) EmptyString)).
  { intros x. unfold pad2, digit. f_equal; [ | f_equal]; f_equal; f_equal.
    - pose proof (Nat.div_mod_eq x 100). pose proof (Nat.div_mod_eq (x mod 100) 10).
      pose proof (Nat.div_mod_eq x 10). pose proof (Nat.div_mod_eq (x / 10) 10).
      pose proof (Nat.mod_upper_bound x 100). pose proof (Nat.mod_upper_bound (x mod 100) 10).
      pose proof (Nat.mod_upper_bound x 10). pose proof (Nat.mod_upper_bound (x / 10) 10).
      pose proof (Nat.Div0.div_lt_upper_bound (x mod 100) 10 10).
      assert (((x mod 100) / 10) mod 10 = (x mod 100) / 10)%nat by (apply Nat.mod_small; lia).
      lia.
    - pose proof (Nat.div_mod_eq x 100). pose proof (Nat.div_mod_eq (x mod 100) 10).
      pose proof (Nat.div_mod_eq x 10).
      pose proof (Nat.mod_upper_bound x 100). pose proof (Nat.mod_upper_bound (x mod 100) 10).
      pose proof (Nat.mod_upper_bound x 10). lia. }
  rewrite <- !H100 in H1. rewrite <- !Hm100 in H2.
  apply Hhigh in H1; try (apply Hd; lia).
  apply Hlow in H2; try (apply Nat.mod_upper_bound; lia).
  pose proof (Nat.div_mod_eq n 100). pose proof (Nat.div_mod_eq m 100). lia.
Qed.

(** X16: the log file of a run is named after the second the run set up
    its logging: logs/rain_monitor_YYYYMMDD_HHMMSS.log, 37 characters; two
    runs get the same file exactly when they did so in the same second. *)
Theorem log_file_is_named_after_the_second (t1 t2 : datetime) :
  valid_datetime t1 -> valid_datetime t2 ->
  String.length (log_filename t1) = 37%nat /\
  (log_filename t1 = log_filename t2 <-> t1 = t2).
Proof.
  intros (Hy1 & Hmo1 & Hd1 & Hh1 & Hmi1 & Hs1) (Hy2 & Hmo2 & Hd2 & Hh2 & Hmi2 & Hs2).
  split; [reflexivity | ]. split; [ | now intros ->].
  unfold log_filename. intros H.
  apply append_inv_head in H.
  apply pad4_append_inj in H as [Ey H]; try lia.
  apply pad2_append_inj in H as [Emo H]; try lia.
  apply pad2_append_inj in H as [Ed H]; try lia.
  apply (append_inv_head "_") in H.
  apply pad2_append_inj in H as [Eh H]; try lia.
  apply pad2_append_inj in H as [Emi H]; try lia.
  apply pad2_append_inj in H as [Es _]; try lia.
  destruct t1, t2. simpl in *. congruence.
Qed.

(** * The statements at concrete inputs *)

(** C1 as stated fails: under the test override, a forecast with no hour
    left gives a summary without entries whose alert flag is false. *)
Lemma test_override_without_hours :
  analyze_rain_probability 50 true (at_hour 10) (at_hour 10) short_data "madison"
    = Some empty_summary /\
  hours_data empty_summary = [] /\
  ~ (alert_triggered empty_summary = true <->
     (py_ge (max_probability empty_summary) (VInt 50) = Ok true \/ true = true)).
Proof.
  split; [vm_compute; reflexivity | ]. split; [reflexivity | ].
  intros [_ H]. specialize (H (or_intror eq_refl)). discriminate H.
Qed.

Lemma alert_flag_witness :
  analyze_rain_probability 50 false (at_hour 2) (at_hour 2) sample_data "madison"
    = Some scenario_summary /\
  Forall (fun v => is_percentage v = true) (probabilities_of scenario_summary) /\
  (alert_triggered scenario_summary = true <->
   hours_data scenario_summary <> [] /\
   (py_ge (max_probability scenario_summary) (VInt 50) = Ok true \/ false = true)).
Proof.
  assert (H : analyze_rain_probability 50 false (at_hour 2) (at_hour 2) sample_data "madison"
              = Some scenario_summary) by (vm_compute; reflexivity).
  assert (P : Forall (fun v => is_percentage v = true) (probabilities_of scenario_summary))
    by (repeat constructor).
  split; [exact H | split; [exact P | ] ].
  exact (proj2 (alert_flag_needs_an_included_hour 50 false _ _ _ _ _ H) P).
Defined.

(** C2 as stated fails: a body without the hourly precipitation array
    passes the validation and is returned by the first attempt. *)
Lemma missing_precipitation_is_accepted :
  (hourly <- py_getitem no_precipitation_data "hourly" ;;
   py_contains "precipitation" hourly) = Ok false /\
  snd (fetch_weather_data (http_ok no_precipitation_data) "madison")
    = Ok no_precipitation_data /\
  gets (fst (fetch_weather_data (http_ok no_precipitation_data) "madison")) = 1%nat.
Proof. repeat split; vm_compute; reflexivity. Qed.

Lemma fetch_validation_witness :
  lookup "hourly" error_body = None /\
  snd (fetch_weather_data_once "madison" (Body (VDict error_body)))
    = Raise (ValueError "Invalid API response format").
Proof.
  assert (H : lookup "hourly" error_body = None) by reflexivity.
  split; [exact H | ].
  exact (proj1 (fetch_validates_hourly_probability "madison" error_body) H).
Defined.

Lemma summary_witness :
  py_getitem sample_data "hourly"
    = Ok (hourly_series (day_times "2024-06-01") sample_probabilities sample_precipitations) /\
  List.length sample_probabilities = List.length (day_times "2024-06-01") /\
  List.length sample_precipitations = List.length (day_times "2024-06-01") /\
  get_current_hour_index (at_hour 23) sample_data = 23%nat /\
  analyze_rain_probability 50 false (at_hour 23) (at_hour 23) sample_data "madison"
    = Some last_hour_summary /\
  Z.of_nat (List.length (hours_data last_hour_summary)) = Z.min 3 (Z.max 0 (24 - 23)).
Proof.
  assert (H : analyze_rain_probability 50 false (at_hour 23) (at_hour 23) sample_data "madison"
              = Some last_hour_summary) by (vm_compute; reflexivity).
  split; [reflexivity | ]. split; [reflexivity | ]. split; [reflexivity | ].
  split; [reflexivity | ]. split; [exact H | ].
  exact (proj1 (proj1 (summary_holds_the_next_three_hours 50 false
                         (at_hour 23) (at_hour 23) sample_data _ "madison" _ _ _
                         eq_refl eq_refl eq_refl eq_refl eq_refl eq_refl)
                 last_hour_summary H)).
Defined.

Lemma current_hour_witness :
  py_getitem sample_data "hourly"
    = Ok (hourly_series (day_times "2024-06-01") sample_probabilities sample_precipitations) /\
  nth_error (day_times "2024-06-01") 2 = Some (VStr "2024-06-01T02:00") /\
  prefix (substring 0 13 (strftime_hour (at_hour 2))) "2024-06-01T02:00" = true /\
  get_current_hour_index (at_hour 2) sample_data = 2%nat.
Proof.
  split; [reflexivity | ]. split; [reflexivity | ]. split; [reflexivity | ].
  refine (proj1 (proj1 (proj2 (current_hour_index_resolution (at_hour 2) sample_data))
                   _ (day_times "2024-06-01") eq_refl eq_refl)
            2%nat "2024-06-01T02:00" _ eq_refl eq_refl).
  intros [ | [ | j]] Hj.
  - exists "2024-06-01T00:00". split; reflexivity.
  - exists "2024-06-01T01:00". split; reflexivity.
  - exfalso. lia.
Defined.

Lemma max_probability_witness :
  analyze_rain_probability 50 false (at_hour 2) (at_hour 2) sample_data "madison"
    = Some scenario_summary /\
  Forall (fun v => is_percentage v = true) (probabilities_of scenario_summary) /\
  (exists h, In h (hours_data scenario_summary) /\
     py_eq (max_probability scenario_summary) (probability h) = Ok true) /\
  (forall h, In h (hours_data scenario_summary) ->
     py_le (probability h) (max_probability scenario_summary) = Ok true).
Proof.
  assert (H : analyze_rain_probability 50 false (at_hour 2) (at_hour 2) sample_data "madison"
              = Some scenario_summary) by (vm_compute; reflexivity).
  assert (P : Forall (fun v => is_percentage v = true) (probabilities_of scenario_summary))
    by (repeat constructor).
  split; [exact H | split; [exact P | ] ].
  apply (proj2 (max_probability_is_the_maximum 50 false _ _ _ _ _ H P)).
  discriminate.
Defined.

(** C6 as stated fails: for the amounts 0.1, 0.2 and 0.3 the total is the
    double 0.6000000000000001, which is not the sum of the three amounts. *)
Lemma float_total_is_rounded :
  analyze_rain_probability 50 false (at_hour 0) (at_hour 0) sample_data "madison"
    = Some midnight_summary /\
  exists t s,
    exact_value (total_precipitation midnight_summary) = Some t /\
    exact_sum (amounts_of midnight_summary) = Some s /\
    ~ (t == s)%Q.
Proof.
  split; [vm_compute; reflexivity | ].
  eexists. eexists. split; [vm_compute; reflexivity | ].
  split; [vm_compute; reflexivity | ].
  vm_compute. intros H. discriminate H.
Qed.

Lemma total_precipitation_witness :
  analyze_rain_probability 50 false (at_hour 0) (at_hour 0) sample_data "madison"
    = Some midnight_summary /\
  total_precipitation midnight_summary
    = VFloat (fold_left PrimFloat.add
                [0x1.999999999999ap-3; 0x1.3333333333333p-2]%float
                (0 + 0x1.999999999999ap-4)%float).
Proof.
  assert (H : analyze_rain_probability 50 false (at_hour 0) (at_hour 0) sample_data "madison"
              = Some midnight_summary) by (vm_compute; reflexivity).
  split; [exact H | ].
  exact (proj2 (proj2 (proj2 (total_precipitation_is_the_running_sum 50 false _ _ _ _ _ H)))
           0x1.999999999999ap-4%float
           [0x1.999999999999ap-3; 0x1.3333333333333p-2]%float eq_refl).
Defined.

Lemma failed_analysis_witness :
  analyze_body 50 false (at_hour 2) (at_hour 2) no_precipitation_data DEFAULT_CITY
    = Raise KeyError /\
  analyze_rain_probability 50 false (at_hour 2) (at_hour 2) no_precipitation_data DEFAULT_CITY
    = None /\
  snd (fetch_weather_data (http_ok no_precipitation_data) DEFAULT_CITY)
    = Ok no_precipitation_data /\
  (let r := main 50 false sample_str sample_fromisoformat (Ok tt) (at_hour 2) (at_hour 2)
              (http_ok no_precipitation_data) smtp_ok in
   snd r = Ok tt /\ mails (fst r) = [] /\ exit_status r = 0).
Proof.
  assert (B : analyze_body 50 false (at_hour 2) (at_hour 2) no_precipitation_data DEFAULT_CITY
              = Raise KeyError) by (vm_compute; reflexivity).
  assert (F : snd (fetch_weather_data (http_ok no_precipitation_data) DEFAULT_CITY)
              = Ok no_precipitation_data) by (vm_compute; reflexivity).
  destruct (failed_analysis_ends_the_run_quietly 50 false sample_str sample_fromisoformat
              (at_hour 2) (at_hour 2) no_precipitation_data) as [N M].
  split; [exact B | ]. split; [exact (N _ _ B) | ]. split; [exact F | ].
  exact (proj2 (M (http_ok no_precipitation_data) smtp_ok F (N _ _ B))).
Defined.

Lemma fails_then_answers n data j :
  (1 <= j <= n)%nat ->
  exists e, snd (fetch_weather_data_once DEFAULT_CITY (http_after n data j)) = Raise e.
Proof.
  intros Hj. exists Timeout. unfold http_after.
  destruct (Nat.leb_spec j n); [reflexivity | lia].
Defined.

Lemma retry_policy_witness :
  first_success (fun j => fetch_weather_data_once DEFAULT_CITY (http_after 14 sample_data j))
    14 sample_data /\
  (snd (fetch_weather_data (http_after 14 sample_data) DEFAULT_CITY) = Ok sample_data /\
   fst (fetch_weather_data (http_after 14 sample_data) DEFAULT_CITY)
     = attempts_and_pauses [HttpGet (address_of DEFAULT_CITY)] 15 14 /\
   gets (fst (fetch_weather_data (http_after 14 sample_data) DEFAULT_CITY)) = 15%nat /\
   pauses (fst (fetch_weather_data (http_after 14 sample_data) DEFAULT_CITY))
     = repeat 15%nat 14) /\
  first_success (fun j => fetch_weather_data_once DEFAULT_CITY (http_after 2 sample_data j))
    2 sample_data /\
  fst (fetch_weather_data (http_after 2 sample_data) DEFAULT_CITY)
    = [HttpGet (address_of DEFAULT_CITY); Sleep 15;
       HttpGet (address_of DEFAULT_CITY); Sleep 15;
       HttpGet (address_of DEFAULT_CITY)] /\
  never_succeeds (fun j => fetch_weather_data_once DEFAULT_CITY (http_after 15 sample_data j))
    15 Timeout /\
  (let r := main 50 false sample_str sample_fromisoformat (Ok tt) (at_hour 2) (at_hour 2)
              (http_after 15 sample_data) smtp_ok in
   snd r = Raise (RetryError Timeout) /\ exit_status r = 1 /\
   fst r = (Log INFO CheckStarted
              :: attempts_and_pauses [HttpGet (address_of DEFAULT_CITY)] 15 14
              ++ [Log ERROR (CheckFailed (RetryError Timeout))])%list) /\
  first_success
    (fun j => send_rain_alert_email_once 50 false sample_str sample_fromisoformat
                (smtp_after 1 j) scenario_summary) 1 tt /\
  snd (send_rain_alert_email 50 false sample_str sample_fromisoformat
         (smtp_after 1) scenario_summary) = Ok tt /\
  fst (send_rain_alert_email 50 false sample_str sample_fromisoformat
         (smtp_after 1) scenario_summary)
    = [SendMail EMAIL_RECIPIENT alert_subject alert_content; Sleep 15;
       SendMail EMAIL_RECIPIENT alert_subject alert_content].
Proof.
  assert (S : first_success
                (fun j => send_rain_alert_email_once 50 false sample_str sample_fromisoformat
                            (smtp_after 1 j) scenario_summary) 1 tt).
  { split; [ | vm_compute; reflexivity].
    intros j Hj. assert (E : j = 1%nat) by lia. subst j.
    eexists. vm_compute. reflexivity. }
  assert (F : first_success
                (fun j => fetch_weather_data_once DEFAULT_CITY (http_after 14 sample_data j))
                14 sample_data).
  { split; [intros j Hj; now apply fails_then_answers | vm_compute; reflexivity]. }
  assert (F2 : first_success
                 (fun j => fetch_weather_data_once DEFAULT_CITY (http_after 2 sample_data j))
                 2 sample_data).
  { split; [intros j Hj; now apply fails_then_answers | vm_compute; reflexivity]. }
  assert (N : never_succeeds
                (fun j => fetch_weather_data_once DEFAULT_CITY (http_after 15 sample_data j))
                15 Timeout).
  { split; [intros j Hj; now apply fails_then_answers | reflexivity]. }
  split; [exact F | ]. split; [ | split; [exact F2 | split; [ | split; [exact N | split;
    [ | split; [exact S | ] ] ] ] ] ].
  - exact (proj1 (retry_policy 50 false sample_str sample_fromisoformat (at_hour 2) (at_hour 2)
                    (http_after 14 sample_data) smtp_ok DEFAULT_CITY scenario_summary)
             14%nat sample_data (Nat.lt_succ_diag_r 14) F).
  - exact (proj1 (proj2
             (proj1 (retry_policy 50 false sample_str sample_fromisoformat
                       (at_hour 2) (at_hour 2)
                       (http_after 2 sample_data) smtp_ok DEFAULT_CITY scenario_summary)
                2%nat sample_data ltac:(lia) F2))).
  - exact (proj1 (proj2 (proj2 (proj2 (proj2
             (retry_policy 50 false sample_str sample_fromisoformat (at_hour 2) (at_hour 2)
                (http_after 15 sample_data) smtp_ok DEFAULT_CITY scenario_summary)))))
             Timeout N).
  - destruct (proj1 (proj2 (proj2
                (retry_policy 50 false sample_str sample_fromisoformat
                   (at_hour 2) (at_hour 2)
                   (http_ok sample_data) (smtp_after 1) DEFAULT_CITY scenario_summary)))
                1%nat ltac:(lia) S) as (Hs & (subject & content & Hb & Ht) & _).
    split; [exact Hs | ].
    assert (B : build_message 50 false sample_str sample_fromisoformat scenario_summary
                = Ok (alert_subject, alert_content)) by (vm_compute; reflexivity).
    rewrite B in Hb. injection Hb as <- <-. exact Ht.
Defined.

(** The error that leaves the fetch, and the run, after fifteen timeouts
    is not the timeout. *)
Lemma retry_error_replaces_the_final_error :
  never_succeeds (fun j => fetch_weather_data_once DEFAULT_CITY (http_after 15 sample_data j))
    15 Timeout /\
  snd (fetch_weather_data (http_after 15 sample_data) DEFAULT_CITY)
    = Raise (RetryError Timeout) /\
  snd (fetch_weather_data (http_after 15 sample_data) DEFAULT_CITY) <> Raise Timeout /\
  (let r := main 50 false sample_str sample_fromisoformat (Ok tt) (at_hour 2) (at_hour 2)
              (http_after 15 sample_data) smtp_ok in
   snd r = Raise (RetryError Timeout) /\ snd r <> Raise Timeout /\ exit_status r = 1).
Proof.
  split; [split; [intros j Hj; now apply fails_then_answers | reflexivity] | ].
  assert (E : snd (fetch_weather_data (http_after 15 sample_data) DEFAULT_CITY)
              = Raise (RetryError Timeout)) by (vm_compute; reflexivity).
  assert (M : snd (main 50 false sample_str sample_fromisoformat (Ok tt)
                     (at_hour 2) (at_hour 2) (http_after 15 sample_data) smtp_ok)
              = Raise (RetryError Timeout)) by (vm_compute; reflexivity).
  split; [exact E | ]. split; [rewrite E; discriminate | ].
  cbv zeta. split; [exact M | ]. split; [rewrite M; discriminate | ].
  unfold exit_status. rewrite M. reflexivity.
Qed.

Lemma test_marking_witness :
  (build_message 50 true sample_str sample_fromisoformat dry_summary
     = Ok (test_subject, test_content) /\
   true = true /\
   py_lt (max_probability dry_summary) (VInt 50) = Ok true /\
   prefix "[TEST]" test_subject = true /\
   prefix "Rain Monitor Test" test_content = true /\
   (exists before,
      test_content
        = before ++ "This is a TEST EMAIL to verify email delivery is working."
            ++ newline)) /\
  (build_message 50 false sample_str sample_fromisoformat scenario_summary
     = Ok (alert_subject, alert_content) /\
   ~ (false = true /\ py_lt (max_probability scenario_summary) (VInt 50) = Ok true) /\
   alert_subject = "Rain Alert for Madison - 60% Probability" /\
   prefix "Rain Alert - " alert_content = true /\
   (exists before,
      alert_content
        = before ++ "This alert was triggered because rain probability is "
            ++ "50" ++ "% or greater within the next 3 hours." ++ newline) /\
   ~ (exists before,
        alert_content
          = before ++ "This is a TEST EMAIL to verify email delivery is working."
              ++ newline)).
Proof.
  split.
  - assert (H : build_message 50 true sample_str sample_fromisoformat dry_summary
                = Ok (test_subject, test_content)) by (vm_compute; reflexivity).
    assert (T : true = true /\ py_lt (max_probability dry_summary) (VInt 50) = Ok true)
      by (split; reflexivity).
    destruct (test_marking_of_the_message 50 true sample_str sample_fromisoformat
                dry_summary test_subject test_content H) as (S & C & R & _).
    split; [exact H | ]. split; [reflexivity | ]. split; [reflexivity | ].
    split; [exact (proj2 S T) | ]. split; [exact (proj2 C T) | exact (proj2 R T)].
  - assert (H : build_message 50 false sample_str sample_fromisoformat scenario_summary
                = Ok (alert_subject, alert_content)) by (vm_compute; reflexivity).
    assert (N : ~ (false = true /\
                   py_lt (max_probability scenario_summary) (VInt 50) = Ok true))
      by (intros [E _]; discriminate E).
    destruct (test_marking_of_the_message 50 false sample_str sample_fromisoformat
                scenario_summary alert_subject alert_content H)
      as (_ & _ & R & _ & A & _).
    destruct (A N) as (Hsubject & Hprefix & Hline).
    split; [exact H | ]. split; [exact N | ]. split; [reflexivity | ].
    split; [exact Hprefix | ]. split; [exact Hline | ].
    intros E. exact (N (proj1 R E)).
Defined.

Lemma alert_with_hours_witness :
  analyze_rain_probability 50 false (at_hour 2) (at_hour 2) sample_data "madison"
    = Some scenario_summary /\
  alert_triggered scenario_summary = true /\
  hours_data scenario_summary <> [].
Proof.
  assert (H : analyze_rain_probability 50 false (at_hour 2) (at_hour 2) sample_data "madison"
              = Some scenario_summary) by (vm_compute; reflexivity).
  split; [exact H | ]. split; [reflexivity | ].
  exact (proj1 (alert_comes_with_an_hour 50 false sample_str sample_fromisoformat
                  (at_hour 2) (at_hour 2))
           sample_data "madison" scenario_summary H eq_refl).
Defined.

(** ** The further properties at concrete inputs *)

Lemma unknown_city_witness :
  find_city "chicago" CITIES = None /\
  fetch_weather_data (http_after 2 sample_data) "chicago"
    = fetch_weather_data (http_after 2 sample_data) DEFAULT_CITY.
Proof.
  split; [reflexivity | ].
  exact (proj1 (unknown_city_falls_back_to_default (http_after 2 sample_data) "chicago"
                  eq_refl)).
Defined.

Lemma validation_witness :
  validate string_hourly_body = Ok string_hourly_body /\
  exists kvs hourly,
    string_hourly_body = VDict kvs /\ lookup "hourly" kvs = Some hourly /\
    py_contains "precipitation_probability" hourly = Ok true.
Proof.
  assert (H : validate string_hourly_body = Ok string_hourly_body) by reflexivity.
  split; [exact H | ].
  exact (proj2 (proj1 (validation_accepts_exactly string_hourly_body string_hourly_body) H)).
Defined.

Lemma resolved_index_witness :
  current_hour_lookup (at_hour 2) sample_data = Ok 2%nat /\
  get_current_hour_index (at_hour 2) sample_data = 2%nat.
Proof.
  assert (H : current_hour_lookup (at_hour 2) sample_data = Ok 2%nat) by reflexivity.
  split; [exact H | ].
  exact (proj1 (resolved_index_is_first_match_or_hour (at_hour 2) sample_data 2 H)).
Defined.

Lemma series_of_the_day_witness :
  (hour (at_hour 12) < 24)%nat /\ (10 + 14 <= 24)%nat /\
  get_current_hour_index (at_hour 12) afternoon_data = (12 - 10)%nat /\
  get_current_hour_index (at_hour 5) afternoon_data = 5%nat.
Proof.
  assert (H12 : (hour (at_hour 12) < 24)%nat) by (simpl; lia).
  assert (H5 : (hour (at_hour 5) < 24)%nat) by (simpl; lia).
  assert (Hd : (10 + 14 <= 24)%nat) by lia.
  split; [exact H12 | ]. split; [exact Hd | ]. split.
  - apply (proj1 (index_in_a_series_of_the_day (at_hour 12) afternoon_data
                    (hourly_series (hour_stamps (at_hour 0) 10 14)
                       (repeat (VInt 5) 14) (repeat (VFloat 0) 14))
                    10 14 H12 Hd eq_refl eq_refl)).
    simpl. lia.
  - apply (proj2 (index_in_a_series_of_the_day (at_hour 5) afternoon_data
                    (hourly_series (hour_stamps (at_hour 0) 10 14)
                       (repeat (VInt 5) 14) (repeat (VFloat 0) 14))
                    10 14 H5 Hd eq_refl eq_refl)).
    simpl. lia.
Defined.

Lemma summary_entries_witness :
  analyze_rain_probability 50 false (at_hour 2) (at_hour 2) sample_data "madison"
    = Some scenario_summary /\
  (List.length (hours_data scenario_summary) <= 3)%nat.
Proof.
  assert (H : analyze_rain_probability 50 false (at_hour 2) (at_hour 2) sample_data "madison"
              = Some scenario_summary) by (vm_compute; reflexivity).
  split; [exact H | ].
  destruct (summary_entries_come_from_the_window 50 false _ _ _ _ _ H)
    as (hourly & times & ps & qs & _ & _ & _ & _ & Hlen & _).
  exact Hlen.
Defined.

Lemma summary_labels_witness :
  analyze_rain_probability 50 false (at_hour 2) (at_hour 2) sample_data "paris"
    = Some paris_summary /\
  find_city "paris" CITIES = None /\
  city paris_summary = "paris".
Proof.
  assert (H : analyze_rain_probability 50 false (at_hour 2) (at_hour 2) sample_data "paris"
              = Some paris_summary) by (vm_compute; reflexivity).
  split; [exact H | ]. split; [reflexivity | ].
  exact (proj1 (proj2 (summary_labels 50 false _ _ _ _ _ H)) eq_refl).
Defined.

Lemma series_over_witness :
  py_len (VList (firstn 6 (day_times "2024-06-01"))) = Ok 6%nat /\
  get_current_hour_index (at_hour 10) short_data = 10%nat /\
  analyze_rain_probability 50 true (at_hour 10) (at_hour 10) short_data "madison"
    = Some (blank_summary "madison" (at_hour 10)).
Proof.
  split; [reflexivity | ]. split; [reflexivity | ].
  refine (series_over_gives_the_blank_summary 50 true (at_hour 10) (at_hour 10) short_data
            _ _ _ _ "madison" 6 eq_refl eq_refl eq_refl eq_refl eq_refl _).
  change (6 <= 10)%nat. lia.
Defined.

Lemma gap_in_the_window_witness :
  get_current_hour_index (at_hour 1) gap_data = 1%nat /\
  nth_error ([VInt 10; VInt 20; VInt 60; VNone] ++ repeat (VInt 0) 20) (1 + 2) = Some VNone /\
  is_number VNone = false /\
  analyze_rain_probability 50 false (at_hour 1) (at_hour 1) gap_data "madison" = None.
Proof.
  split; [reflexivity | ]. split; [reflexivity | ]. split; [reflexivity | ].
  refine (gap_in_the_window_fails_the_analysis 50 false (at_hour 1) (at_hour 1) gap_data
            _ "madison" _ _ _ 2 eq_refl eq_refl eq_refl eq_refl _ _ _).
  - lia.
  - change (3 < 24)%nat. lia.
  - left. vm_compute. reflexivity.
Defined.

Lemma unreadable_time_witness :
  exists e,
    build_message 50 false sample_str sample_fromisoformat odd_summary = Raise e /\
    snd (send_rain_alert_email 50 false sample_str sample_fromisoformat smtp_ok odd_summary)
      = Raise (RetryError e) /\
    mails (fst (send_rain_alert_email 50 false sample_str sample_fromisoformat smtp_ok
                  odd_summary)) = [] /\
    pauses (fst (send_rain_alert_email 50 false sample_str sample_fromisoformat smtp_ok
                   odd_summary)) = repeat 15%nat 14.
Proof.
  apply (unreadable_time_is_retried_in_vain 50 false sample_str sample_fromisoformat smtp_ok
           odd_summary
           {| time := VInt 7; probability := VInt 60; precipitation := VFloat 0 |}).
  - left. reflexivity.
  - left. intros s. discriminate.
Defined.

Lemma run_without_alert_witness :
  snd (fetch_weather_data (http_ok dry_data) DEFAULT_CITY) = Ok dry_data /\
  analyze_rain_probability 50 false (at_hour 5) (at_hour 5) dry_data DEFAULT_CITY
    = Some quiet_summary /\
  alert_triggered quiet_summary = false /\
  mails (fst (main 50 false sample_str sample_fromisoformat (Ok tt) (at_hour 5) (at_hour 5)
                (http_ok dry_data) smtp_ok)) = [].
Proof.
  assert (F : snd (fetch_weather_data (http_ok dry_data) DEFAULT_CITY) = Ok dry_data)
    by (vm_compute; reflexivity).
  assert (H : analyze_rain_probability 50 false (at_hour 5) (at_hour 5) dry_data DEFAULT_CITY
              = Some quiet_summary) by (vm_compute; reflexivity).
  split; [exact F | ]. split; [exact H | ]. split; [reflexivity | ].
  exact (proj2 (run_without_alert 50 false sample_str sample_fromisoformat
                  (at_hour 5) (at_hour 5) (http_ok dry_data) smtp_ok dry_data quiet_summary
                  F H eq_refl)).
Defined.

Lemma run_with_alert_witness :
  snd (fetch_weather_data (http_ok sample_data) DEFAULT_CITY) = Ok sample_data /\
  analyze_rain_probability 50 false (at_hour 2) (at_hour 2) sample_data DEFAULT_CITY
    = Some scenario_summary /\
  alert_triggered scenario_summary = true /\
  exists test,
    is_test_mail 50 false scenario_summary = Ok test /\
    forall recipient subject content,
      In (SendMail recipient subject content)
         (fst (send_rain_alert_email 50 false sample_str sample_fromisoformat smtp_ok
                 scenario_summary)) ->
      prefix "[TEST]" subject = test.
Proof.
  assert (F : snd (fetch_weather_data (http_ok sample_data) DEFAULT_CITY) = Ok sample_data)
    by (vm_compute; reflexivity).
  assert (H : analyze_rain_probability 50 false (at_hour 2) (at_hour 2) sample_data DEFAULT_CITY
              = Some scenario_summary) by (vm_compute; reflexivity).
  split; [exact F | ]. split; [exact H | ]. split; [reflexivity | ].
  destruct (run_with_alert 50 false sample_str sample_fromisoformat
              (at_hour 2) (at_hour 2) (http_ok sample_data) smtp_ok sample_data
              scenario_summary F H eq_refl) as (test & Htest & _ & Hmarks).
  exists test. split; [exact Htest | exact Hmarks].
Defined.

Lemma valid_at_hour h : (h < 24)%nat -> valid_datetime (at_hour h).
Proof. intros Hh. unfold valid_datetime. simpl. lia. Defined.

Lemma log_file_witness :
  valid_datetime (at_hour 2) /\ valid_datetime (at_hour 3) /\
  log_filename (at_hour 2) = "logs/rain_monitor_20240601_023000.log" /\
  String.length (log_filename (at_hour 2)) = 37%nat.
Proof.
  assert (V2 : valid_datetime (at_hour 2)) by (apply valid_at_hour; lia).
  assert (V3 : valid_datetime (at_hour 3)) by (apply valid_at_hour; lia).
  split; [exact V2 | ]. split; [exact V3 | ]. split; [reflexivity | ].
  exact (proj1 (log_file_is_named_after_the_second (at_hour 2) (at_hour 3) V2 V3)).
Defined.

Lemma sensitivity_witness :
  30 <= 50 /\
  analyze_rain_probability 30 false (at_hour 2) (at_hour 2) sample_data "madison"
    = Some scenario_summary /\
  analyze_rain_probability 50 false (at_hour 2) (at_hour 2) sample_data "madison"
    = Some scenario_summary /\
  alert_triggered scenario_summary = true.
Proof.
  assert (L : 30 <= 50) by lia.
  assert (H30 : analyze_rain_probability 30 false (at_hour 2) (at_hour 2) sample_data "madison"
                = Some scenario_summary) by (vm_compute; reflexivity).
  assert (H50 : analyze_rain_probability 50 false (at_hour 2) (at_hour 2) sample_data "madison"
                = Some scenario_summary) by (vm_compute; reflexivity).
  split; [exact L | ]. split; [exact H30 | ]. split; [exact H50 | ].
  exact (more_sensitive_configuration_keeps_the_alert 30 50 false false
           (at_hour 2) (at_hour 2) sample_data "madison" scenario_summary scenario_summary
           L (fun H => H) H30 H50 eq_refl).
Defined.

Lemma fetch_attempts_witness :
  fst (fetch_weather_data (http_after 2 sample_data) "boston")
    = [HttpGet (address_of "boston"); Sleep 15;
       HttpGet (address_of "boston"); Sleep 15;
       HttpGet (address_of "boston")] /\
  snd (fetch_weather_data (http_after 2 sample_data) "boston") = Ok sample_data /\
  http_after 2 sample_data 3 = Body sample_data.
Proof.
  assert (H : snd (fetch_weather_data (http_after 2 sample_data) "boston") = Ok sample_data)
    by (vm_compute; reflexivity).
  split; [ | split; [exact H | ] ].
  - exact (proj1 (proj2 (fetch_attempts_are_bounded (http_after 2 sample_data) "boston"))).
  - exact (proj1 (proj1 (proj2 (proj2 (proj2 (proj2 (proj2 (proj2
             (fetch_attempts_are_bounded (http_after 2 sample_data) "boston")))))))
             sample_data H)).
Defined.

Lemma failed_setup_witness :
  (let r := main 50 false sample_str sample_fromisoformat
              (Raise (OtherError "FileExistsError")) (at_hour 2) (at_hour 2)
              (http_ok sample_data) smtp_ok in
   r = ([], Raise (OtherError "FileExistsError")) /\ exit_status r = 1) /\
  (let r := main 50 false sample_str sample_fromisoformat
              (Ok tt) (at_hour 2) (at_hour 2) (http_after 15 sample_data) smtp_ok in
   snd r = Raise (RetryError Timeout) /\
   In (Log ERROR (CheckFailed (RetryError Timeout))) (fst r)).
Proof.
  split.
  - exact (proj1 (failure_is_logged_exactly_when_raised 50 false sample_str
                    sample_fromisoformat (Raise (OtherError "FileExistsError"))
                    (at_hour 2) (at_hour 2) (http_ok sample_data) smtp_ok)
             (OtherError "FileExistsError") eq_refl).
  - assert (M : snd (main 50 false sample_str sample_fromisoformat (Ok tt)
                       (at_hour 2) (at_hour 2) (http_after 15 sample_data) smtp_ok)
                = Raise (RetryError Timeout)) by (vm_compute; reflexivity).
    split; [exact M | ].
    exact (proj1 (proj1 (proj2 (proj1 (proj2
             (failure_is_logged_exactly_when_raised 50 false sample_str
                sample_fromisoformat (Ok tt) (at_hour 2) (at_hour 2)
                (http_after 15 sample_data) smtp_ok)) tt eq_refl))
             (RetryError Timeout)) M).
Defined.
